(** * The daily content pipeline of [main.py], embedded in Rocq

    Python values are modelled as the interpreter has them: a [str] is a
    sequence of Unicode code points, a parsed JSON body is a tree, the rows
    of [csv.DictReader] are dictionaries.  Every call that leaves the
    process (text generation, speech synthesis, rendering, upload, HTTP) is
    an oracle over an abstract world, threaded through a state-and-exception
    monad that also records the calls made, in order. *)

From Stdlib Require Import ZArith NArith Ascii String Lia.
From stdpp Require Import base option list gmap.

Local Open Scope Z_scope.

(** ** Python strings *)

Module PyStr.

Definition char := N.
Definition pystr := list N.

(** An ASCII literal of the source, one code point per character. *)
Definition lit (s : string) : pystr :=
  List.map N_of_ascii (list_ascii_of_string s).

(** [str.isspace] on one code point: what [split()] and [strip()] remove. *)
Definition isspace (c : N) : bool :=
  (((9 <=? c) && (c <=? 13)) || ((28 <=? c) && (c <=? 32))
   || (c =? 133) || (c =? 160) || (c =? 5760)
   || ((8192 <=? c) && (c <=? 8202))
   || (c =? 8232) || (c =? 8233) || (c =? 8239) || (c =? 8287)
   || (c =? 12288))%N.

(** The line boundaries of [str.splitlines] other than the pair CR LF. *)
Definition is_linebreak (c : N) : bool :=
  (((10 <=? c) && (c <=? 13)) || ((28 <=? c) && (c <=? 30))
   || (c =? 133) || (c =? 8232) || (c =? 8233))%N.

Fixpoint lstrip (s : pystr) : pystr :=
  match s with
  | c :: s' => if isspace c then lstrip s' else s
  | [] => []
  end.

Definition rstrip (s : pystr) : pystr := rev (lstrip (rev s)).

(** [s.strip()] *)
Definition strip (s : pystr) : pystr := rstrip (lstrip s).

Fixpoint split_ws_aux (cur s : pystr) : list pystr :=
  match s with
  | [] => match cur with [] => [] | _ => [cur] end
  | c :: s' =>
      if isspace c
      then match cur with
           | [] => split_ws_aux [] s'
           | _ => cur :: split_ws_aux [] s'
           end
      else split_ws_aux (cur ++ [c]) s'
  end.

(** [s.split()]: the maximal runs of non-whitespace, in order. *)
Definition split_ws (s : pystr) : list pystr := split_ws_aux [] s.

Fixpoint split_on_aux (sep : N) (cur s : pystr) : list pystr :=
  match s with
  | [] => [cur]
  | c :: s' =>
      if (c =? sep)%N then cur :: split_on_aux sep [] s'
      else split_on_aux sep (cur ++ [c]) s'
  end.

(** [s.split(sep)] for a separator of one character. *)
Definition split_on (sep : N) (s : pystr) : list pystr := split_on_aux sep [] s.

Fixpoint splitlines_aux (cur s : pystr) : list pystr :=
  match s with
  | [] => match cur with [] => [] | _ => [cur] end
  | c :: s' =>
      if (c =? 13)%N
      then match s' with
           | c' :: s'' =>
               if (c' =? 10)%N then cur :: splitlines_aux [] s''
               else cur :: splitlines_aux [] s'
           | [] => cur :: splitlines_aux [] s'
           end
      else if is_linebreak c then cur :: splitlines_aux [] s'
      else splitlines_aux (cur ++ [c]) s'
  end.

(** [s.splitlines()] *)
Definition splitlines (s : pystr) : list pystr := splitlines_aux [] s.

(** [sep.join(l)] *)
Fixpoint join (sep : pystr) (l : list pystr) : pystr :=
  match l with
  | [] => []
  | [x] => x
  | x :: l' => x ++ sep ++ join sep l'
  end.

(** [c in s] for a pattern of one character. *)
Definition contains (c : N) (s : pystr) : bool := existsb (N.eqb c) s.

(** Truth value of a string: empty is false. *)
Definition truthy (s : pystr) : bool :=
  match s with [] => false | _ => true end.

Definition space : pystr := [32%N].
Definition newline : pystr := [10%N].
Definition hash : N := 35%N.
Definition comma : N := 44%N.

(** A word has a character and no whitespace. *)
Definition is_word (w : pystr) : Prop :=
  w <> [] /\ Forall (fun c => isspace c = false) w.

(** [sub] occurs in [s] as a contiguous piece. *)
Definition substring (sub s : pystr) : Prop :=
  exists pre post, s = pre ++ sub ++ post.

End PyStr.
Import PyStr.

(** ** Sequences: [range] and slices *)

(** The loop of [range(i, stop, step)] for a positive step. *)
Fixpoint range_up (fuel : nat) (i stop step : Z) : list Z :=
  match fuel with
  | O => []
  | S fuel' => if i <? stop then i :: range_up fuel' (i + step) stop step else []
  end.

(** [range(0, stop, step)]: a zero step is a [ValueError] ([None]), a
    negative step from 0 to a length gives nothing. *)
Definition py_range0 (stop step : Z) : option (list Z) :=
  if step =? 0 then None
  else if step <? 0 then Some []
  else Some (range_up (Z.to_nat stop) 0 stop step).

(** A slice bound brought into [0, len], as Python does. *)
Definition clamp (len k : Z) : Z :=
  if k <? 0 then Z.max (k + len) 0 else Z.min k len.

(** [l[i:j]] *)
Definition py_slice {A} (l : list A) (i j : Z) : list A :=
  let len := Z.of_nat (length l) in
  let a := clamp len i in
  let b := clamp len j in
  take (Z.to_nat (b - a)) (drop (Z.to_nat a) l).

(** ** Values, exceptions and the effect monad *)

#[local] Set Warnings "-register-all".

(** A parsed JSON body ([r.json()]), and any value put into a request.
    Integers stand for all numbers, which the pipeline treats alike; an
    object is the list of its items, looked up from the front. *)
Inductive json :=
| JNull
| JBool (b : bool)
| JNum (z : Z)
| JStr (s : pystr)
| JArr (l : list json)
| JObj (fields : list (pystr * json)).

Inductive exn_class :=
| RuntimeError | ValueError | TypeError | KeyError | IndexError
| AttributeError | LibraryError.

(** An exception object: its class and [str(e)]. *)
Record exn := Exn { exn_kind : exn_class; exn_str : pystr }.

Inductive result (A : Type) :=
| Ok (a : A)
| Raise (e : exn).
Arguments Ok {A} a.
Arguments Raise {A} e.

(** The places where the interpreter itself raises. *)
Inductive fault :=
| NotAContainer (j : json)      (* ["id" in data] on null, a bool or a number *)
| NotSubscriptable (j : json)   (* [data["id"]] on anything but an object *)
| MissingKey (k : pystr)        (* [d[k]] without the key *)
| IntOfNone                     (* [int(None)] *)
| IntLiteral (s : pystr)        (* [int(s)] on a string that is no integer *)
| NoneHasNoSplit                (* [None.split(",")] *)
| EmptyChoice                   (* [random.choice([])] *)
| JoinNonString                 (* [",".join] over a non-string *)
| EmptyIndex                    (* [rows[0]] on an empty list *)
| RangeZeroStep.                (* [range(_, _, 0)] *)

(** What the interpreter decides and the model leaves open: how [int]
    reads a string, how a value prints, the text of built-in errors. *)
Class Interp := {
  py_int : pystr -> option Z;
  py_repr : json -> pystr;
  fault_text : fault -> pystr;
}.

Record response := Response {
  resp_ok : bool;                 (* [r.ok] *)
  resp_text : pystr;              (* [r.text] *)
  resp_json : result json;        (* [r.json()] *)
}.

(** One row of [csv.DictReader]: a missing cell is [None]. *)
Abbreviation row := (gmap pystr (option pystr)).

(** What the run does to the outside, in the order it does it. *)
Inductive event :=
| EGet (url : pystr) (params : list (pystr * json))   (* [requests.get] *)
| EPost (url : pystr) (data : list (pystr * json)) (outcome : result response)
                                                      (* [requests.post] *)
| EPrint (args : list pystr)                          (* [print] *)
| ESleep (seconds : Z)                                (* [time.sleep] *)
| EGenerate (prompt : pystr)                          (* text generation *)
| ETts (text filename voice : pystr)                  (* speech synthesis *)
| ERenderReel (chunks : list pystr) (audio : option pystr) (out : pystr)
| EDrawImage (text filename : pystr) (title : option pystr)
| EUpload (path : pystr).

(** The collaborators of the pipeline, over a world they may change. *)
Class Backend (W : Type) := {
  read_schedule : pystr -> W -> result (list row) * W;
  utcnow_days : W -> nat * W;
  random_draw : W -> nat * W;
  text_generation : pystr -> W -> result pystr * W;
  tts_save : pystr -> pystr -> pystr -> W -> result unit * W;
  render_reel : list pystr -> option pystr -> pystr -> W -> result unit * W;
  draw_image : pystr -> pystr -> option pystr -> W -> result unit * W;
  cloudinary_upload : pystr -> W -> result (list (pystr * json)) * W;
  requests_post : pystr -> list (pystr * json) -> W -> result response * W;
  requests_get : pystr -> list (pystr * json) -> W -> result unit * W;
}.

(** A computation: its result or exception, the world after it, and the
    events it emitted. *)
Definition M (W A : Type) : Type := W -> result A * W * list event.

Definition ret {W A} (a : A) : M W A := fun w => (Ok a, w, []).

Definition raise {W A} (e : exn) : M W A := fun w => (Raise e, w, []).

Definition bind {W A B} (m : M W A) (k : A -> M W B) : M W B :=
  fun w =>
    match m w with
    | (Ok a, w1, t1) => let '(r, w2, t2) := k a w1 in (r, w2, t1 ++ t2)
    | (Raise e, w1, t1) => (Raise e, w1, t1)
    end.

(** [try: m except Exception as e: h e] *)
Definition try_except {W A} (m : M W A) (h : exn -> M W A) : M W A :=
  fun w =>
    match m w with
    | (Ok a, w1, t1) => (Ok a, w1, t1)
    | (Raise e, w1, t1) => let '(r, w2, t2) := h e w1 in (r, w2, t1 ++ t2)
    end.

Definition emit {W} (e : event) : M W unit := fun w => (Ok tt, w, [e]).

(** A call to a collaborator, recorded where it is made. *)
Definition call {W A} (e : event) (f : W -> result A * W) : M W A :=
  fun w => let '(r, w') := f w in (r, w', [e]).

(** The same, the record keeping what came back. *)
Definition call_with {W A} (e : result A -> event) (f : W -> result A * W)
  : M W A :=
  fun w => let '(r, w') := f w in (r, w', [e r]).

Definition ask {W A} (f : W -> A * W) : M W A :=
  fun w => let '(a, w') := f w in (Ok a, w', []).

(** A collaborator that is read, not recorded. *)
Definition ask_result {W A} (f : W -> result A * W) : M W A :=
  fun w => let '(r, w') := f w in (r, w', []).

Definition lift {W A} (r : result A) : M W A := fun w => (r, w, []).

Declare Scope py_scope.
Delimit Scope py_scope with py.
Notation "x <- m ;; k" := (bind m (fun x => k))
  (at level 100, m at next level, right associativity) : py_scope.
Notation "m ;;; k" := (bind m (fun _ => k))
  (at level 100, right associativity) : py_scope.
Local Open Scope py_scope.

Definition result_of {W A} (x : result A * W * list event) : result A := x.1.1.
Definition world_of {W A} (x : result A * W * list event) : W := x.1.2.
Definition trace_of {W A} (x : result A * W * list event) : list event := x.2.

(** ** Built-in operations the source applies to values *)

(** [str(x)] inside an f-string, for a value that may be [None]. *)
Definition str_opt (x : option pystr) : pystr :=
  match x with
  | Some s => s
  | None => lit "None"
  end.

(** [not x] for an environment value: unset or empty. *)
Definition falsy_opt (x : option pystr) : bool :=
  match x with
  | Some s => negb (truthy s)
  | None => true
  end.

Definition opt_json (x : option pystr) : json :=
  match x with
  | Some s => JStr s
  | None => JNull
  end.

(** Truth value of a parsed value. *)
Definition truthy_json (j : json) : bool :=
  match j with
  | JNull => false
  | JBool b => b
  | JNum z => negb (z =? 0)
  | JStr s => truthy s
  | JArr l => match l with [] => false | _ => true end
  | JObj f => match f with [] => false | _ => true end
  end.

Definition pystr_eqb (a b : pystr) : bool := bool_decide (a = b).

(** [d.get(k)] on a dictionary held as its items. *)
Fixpoint dict_get (k : pystr) (d : list (pystr * json)) : option json :=
  match d with
  | [] => None
  | (k', v) :: d' => if pystr_eqb k k' then Some v else dict_get k d'
  end.

Fixpoint is_prefix_b (p s : pystr) : bool :=
  match p, s with
  | [], _ => true
  | _ :: _, [] => false
  | a :: p', b :: s' => (a =? b)%N && is_prefix_b p' s'
  end.

(** [p in s] between strings. *)
Fixpoint is_infix_b (p s : pystr) : bool :=
  is_prefix_b p s ||
  match s with
  | [] => false
  | _ :: s' => is_infix_b p s'
  end.

Definition json_is_str (k : pystr) (j : json) : bool :=
  match j with
  | JStr s => pystr_eqb k s
  | _ => false
  end.

(** Digits of a non-negative integer, as [str(i)] prints them. *)
Fixpoint digits (fuel : nat) (n : N) (acc : pystr) : pystr :=
  match fuel with
  | O => acc
  | S fuel' =>
      let acc' := (48 + n mod 10)%N :: acc in
      if (n <? 10)%N then acc' else digits fuel' (n / 10)%N acc'
  end.

Definition str_of_nat (n : nat) : pystr := digits (S n) (N.of_nat n) [].

Section Builtins.
Context {I : Interp}.

Definition fault_exn (c : exn_class) (f : fault) : exn := Exn c (fault_text f).

(** [k in data] *)
Definition py_in (k : pystr) (data : json) : result bool :=
  match data with
  | JObj f => Ok (match dict_get k f with Some _ => true | None => false end)
  | JArr l => Ok (existsb (json_is_str k) l)
  | JStr s => Ok (is_infix_b k s)
  | _ => Raise (fault_exn TypeError (NotAContainer data))
  end.

(** [data[k]] for a string [k] *)
Definition py_getitem (data : json) (k : pystr) : result json :=
  match data with
  | JObj f =>
      match dict_get k f with
      | Some v => Ok v
      | None => Raise (fault_exn KeyError (MissingKey k))
      end
  | _ => Raise (fault_exn TypeError (NotSubscriptable data))
  end.

(** [",".join(ids)]: every item must be a string. *)
Fixpoint strings_of (ids : list json) : option (list pystr) :=
  match ids with
  | [] => Some []
  | JStr s :: ids' =>
      match strings_of ids' with
      | Some l => Some (s :: l)
      | None => None
      end
  | _ :: _ => None
  end.

Definition py_join_json (sep : pystr) (ids : list json) : result pystr :=
  match strings_of ids with
  | Some l => Ok (join sep l)
  | None => Raise (fault_exn TypeError JoinNonString)
  end.

(** [r[k]] on a row of the schedule. *)
Definition row_get (r : row) (k : pystr) : result (option pystr) :=
  match r !! k with
  | Some v => Ok v
  | None => Raise (fault_exn KeyError (MissingKey k))
  end.

(** [int(x)] on a cell. *)
Definition int_of_cell (x : option pystr) : result Z :=
  match x with
  | None => Raise (fault_exn TypeError IntOfNone)
  | Some s =>
      match py_int s with
      | Some z => Ok z
      | None => Raise (fault_exn ValueError (IntLiteral s))
      end
  end.

(** [[x.strip() for x in cell.split(",") if x.strip()]] *)
Definition parse_subtopics (cell : option pystr) : result (list pystr) :=
  match cell with
  | None => Raise (fault_exn AttributeError NoneHasNoSplit)
  | Some s =>
      Ok (List.map strip (List.filter (fun x => truthy (strip x)) (split_on comma s)))
  end.

(** [random.choice(l)] with the generator's draw [d]. *)
Definition choice {A} (d : nat) (l : list A) : result A :=
  match l !! (d mod length l)%nat with
  | Some x => Ok x
  | None => Raise (fault_exn IndexError EmptyChoice)
  end.

(** ** The caption chunker *)

(** [split_script_into_chunks(text, max_words)] *)
Definition split_script_into_chunks (text : pystr) (max_words : Z)
  : result (list pystr) :=
  let words := split_ws text in
  match py_range0 (Z.of_nat (length words)) max_words with
  | None => Raise (fault_exn ValueError RangeZeroStep)
  | Some starts =>
      Ok (List.map (fun i => join space (py_slice words i (i + max_words))) starts)
  end.

(** The spoken part of a script: its lines without the hashtag lines. *)
Definition without_hashtag_lines (text : pystr) : pystr :=
  join newline (List.filter (fun line => negb (contains hash line)) (splitlines text)).

End Builtins.

(** ** Configuration from the environment *)

Record config := Config {
  ACCESS_TOKEN : option pystr;
  INSTA_ID : option pystr;
  HUGGINGFACE_TOKEN : option pystr;
  HF_MODEL_ID : option pystr;
  CLOUDINARY_CLOUD_NAME : option pystr;
  CLOUDINARY_API_KEY : option pystr;
  CLOUDINARY_API_SECRET : option pystr;
  TELEGRAM_BOT_TOKEN : option pystr;
  TELEGRAM_CHAT_ID : option pystr;
}.

(** The module-level [os.getenv] calls; only the model id has a default. *)
Definition load_config (getenv : pystr -> option pystr) : config :=
  {| ACCESS_TOKEN := getenv (lit "INSTAGRAM_ACCESS_TOKEN");
     INSTA_ID := getenv (lit "INSTAGRAM_BUSINESS_ID");
     HUGGINGFACE_TOKEN := getenv (lit "HUGGINGFACE_TOKEN");
     HF_MODEL_ID :=
       match getenv (lit "HF_MODEL_ID") with
       | Some v => Some v
       | None => Some (lit "meta-llama/Meta-Llama-3-8B-Instruct")
       end;
     CLOUDINARY_CLOUD_NAME := getenv (lit "CLOUDINARY_CLOUD_NAME");
     CLOUDINARY_API_KEY := getenv (lit "CLOUDINARY_API_KEY");
     CLOUDINARY_API_SECRET := getenv (lit "CLOUDINARY_API_SECRET");
     TELEGRAM_BOT_TOKEN := getenv (lit "TELEGRAM_BOT_TOKEN");
     TELEGRAM_CHAT_ID := getenv (lit "TELEGRAM_CHAT_ID") |}.

(** The list [missing] that the validation loop builds. *)
Definition missing (cfg : config) : list pystr :=
  List.map fst
    (List.filter (fun nv => falsy_opt (snd nv))
       [ (lit "INSTAGRAM_ACCESS_TOKEN", ACCESS_TOKEN cfg);
         (lit "INSTAGRAM_BUSINESS_ID", INSTA_ID cfg);
         (lit "HUGGINGFACE_TOKEN", HUGGINGFACE_TOKEN cfg);
         (lit "HF_MODEL_ID", HF_MODEL_ID cfg);
         (lit "CLOUDINARY_CLOUD_NAME", CLOUDINARY_CLOUD_NAME cfg);
         (lit "CLOUDINARY_API_KEY", CLOUDINARY_API_KEY cfg);
         (lit "CLOUDINARY_API_SECRET", CLOUDINARY_API_SECRET cfg);
         (lit "TELEGRAM_BOT_TOKEN", TELEGRAM_BOT_TOKEN cfg);
         (lit "TELEGRAM_CHAT_ID", TELEGRAM_CHAT_ID cfg) ]).

(** [if missing: raise RuntimeError(...)] *)
Definition validate (cfg : config) : result unit :=
  match missing cfg with
  | [] => Ok tt
  | names =>
      Raise (Exn RuntimeError
               (lit "Missing environment variables: " ++ join (lit ", ") names))
  end.

Definition CSV_FILE : pystr := lit "english_schedule.csv".
Definition GRAPH_BASE : pystr := lit "https://graph.facebook.com/v20.0".
Definition default_voice : pystr := lit "en-US-AriaNeural".

(** The non-ASCII characters of the source literals, as the file has them. *)
Definition fallback_glyph : pystr := [240; 376; 732; 381]%N.
Definition dash_glyph : pystr := [226; 8364; 8220]%N.
Definition start_glyph : pystr := [240; 376; 353; 8364]%N.
Definition point_glyph : pystr := [240; 376; 8216; 8225]%N.
Definition done_glyph : pystr := [226; 339; 8230]%N.
Definition dquote : pystr := [34%N].

(** ** The pipeline *)

Section Pipeline.
Context {I : Interp} {W : Type} {B : Backend W}.
Variable cfg : config.

(** [send_telegram(message)] *)
Definition send_telegram (message : pystr) : M W unit :=
  if falsy_opt (TELEGRAM_BOT_TOKEN cfg) || falsy_opt (TELEGRAM_CHAT_ID cfg)
  then ret tt
  else
    try_except
      (let url := lit "https://api.telegram.org/bot"
                  ++ str_opt (TELEGRAM_BOT_TOKEN cfg) ++ lit "/sendMessage" in
       let params := [ (lit "chat_id", opt_json (TELEGRAM_CHAT_ID cfg));
                       (lit "text", JStr (take 4000 message)) ] in
       call (EGet url params) (requests_get url params))
      (fun e => emit (EPrint [lit "Telegram send failed:"; exn_str e])).

(** The body of the scan over the rows, and of the fallback: theme and a
    random subtopic of one row. *)
Definition theme_and_topic_of (r : row) : M W (option pystr * pystr) :=
  theme <- lift (row_get r (lit "Theme")) ;;
  cell <- lift (row_get r (lit "SubTopics")) ;;
  subtopics <- lift (parse_subtopics cell) ;;
  d <- ask random_draw ;;
  sub_topic <- lift (choice d subtopics) ;;
  ret (theme, sub_topic).

(** [for r in rows: if int(r["Day"]) == today_day: ... return] *)
Fixpoint scan_rows (today_day : Z) (rows : list row)
  : M W (option (option pystr * pystr)) :=
  match rows with
  | [] => ret None
  | r :: rows' =>
      cell <- lift (row_get r (lit "Day")) ;;
      day <- lift (int_of_cell cell) ;;
      if day =? today_day
      then (res <- theme_and_topic_of r ;; ret (Some res))
      else scan_rows today_day rows'
  end.

(** [pick_today_theme_and_topic()] *)
Definition pick_today_theme_and_topic : M W (option pystr * pystr) :=
  rows <- ask_result (read_schedule CSV_FILE) ;;
  days <- ask utcnow_days ;;
  let utc_weekday := Z.of_nat (days mod 7) in
  let today_day := utc_weekday + 1 in
  found <- scan_rows today_day rows ;;
  match found with
  | Some res => ret res
  | None =>
      match rows with
      | first :: _ => theme_and_topic_of first
      | [] => raise (fault_exn IndexError EmptyIndex)
      end
  end.

(** The prompt of [generate_piece], f-string fields filled in. *)
Definition prompt_of (kind : pystr) (theme : option pystr) (sub_topic : pystr)
  : pystr :=
  newline
  ++ lit "You are creating viral Instagram content for an English learning page."
  ++ newline ++ newline
  ++ lit "Type: " ++ kind ++ newline
  ++ lit "Theme: " ++ str_opt theme ++ newline
  ++ lit "Sub-topic: " ++ sub_topic ++ newline ++ newline
  ++ lit "Requirements:" ++ newline
  ++ lit "- First line must be a strong HOOK that stops scrolling." ++ newline
  ++ lit "- Teach ONE clear point (definition, example, or common mistake)."
  ++ newline
  ++ lit "- Include at least one quiz or challenge (like "
  ++ dquote ++ lit "Choose A/B/C" ++ dquote ++ lit " or "
  ++ dquote ++ lit "Fill in the blank" ++ dquote ++ lit ")." ++ newline
  ++ lit "- End with a clear CTA such as "
  ++ dquote ++ lit "Comment your score" ++ dquote ++ lit ", "
  ++ dquote ++ lit "Tag a friend" ++ dquote ++ lit ", or "
  ++ dquote ++ lit "Duet this" ++ dquote ++ lit "." ++ newline
  ++ lit "- Use natural emojis (3" ++ dash_glyph ++ lit "8 total)." ++ newline
  ++ lit "- Add 3-5 relevant English-learning hashtags at the end." ++ newline
  ++ lit "Return ONLY the final text, no explanations, no markdown, no quotes, no labels."
  ++ newline.

(** The text returned by the [except] branch of [generate_piece]. *)
Definition fallback_text (kind sub_topic : pystr) : pystr :=
  kind ++ lit " about " ++ sub_topic ++ lit ": What does it mean to you? "
  ++ lit "Comment your own example! " ++ fallback_glyph
  ++ lit " #EnglishLearning #EnglishReels".

(** [generate_piece(kind, theme, sub_topic)] *)
Definition generate_piece (kind : pystr) (theme : option pystr)
    (sub_topic : pystr) : M W pystr :=
  let prompt := prompt_of kind theme sub_topic in
  try_except
    (response <- call (EGenerate prompt) (text_generation prompt) ;;
     let text := strip response in
     if (length text <? 60)%nat
     then raise (Exn ValueError (lit "Generated text too short"))
     else ret text)
    (fun e =>
       emit (EPrint [lit "HF generation failed:"; exn_str e]) ;;;
       ret (fallback_text kind sub_topic)).

(** [create_tts(text, filename, voice)] *)
Definition create_tts (text filename voice : pystr) : M W (option pystr) :=
  try_except
    (let spoken := without_hashtag_lines text in
     call (ETts spoken filename voice) (tts_save spoken filename voice) ;;;
     ret (Some filename))
    (fun e =>
       send_telegram (lit "TTS failed: " ++ exn_str e) ;;;
       emit (EPrint [lit "TTS error:"; exn_str e]) ;;;
       ret None).

(** The text [create_reel_video] puts on screen. *)
Definition screen_text (script : pystr) : pystr :=
  let spoken_text := strip (without_hashtag_lines script) in
  if truthy spoken_text then spoken_text else script.

(** [create_reel_video(script, audio_file, output_file)]; the clips, the
    audio track, which is set only when [audio_file] is given and the file
    exists, and the encoding are the renderer's. *)
Definition create_reel_video (script : pystr) (audio_file : option pystr)
    (output_file : pystr) : M W (option pystr) :=
  try_except
    (let spoken_text := screen_text script in
     chunks <- lift (split_script_into_chunks spoken_text 10) ;;
     match chunks with
     | [] => raise (Exn ValueError (lit "No chunks for reel"))
     | _ =>
         call (ERenderReel chunks audio_file output_file)
              (render_reel chunks audio_file output_file) ;;;
         ret (Some output_file)
     end)
    (fun e =>
       send_telegram (lit "Reel creation failed: " ++ exn_str e) ;;;
       emit (EPrint [lit "Reel creation error:"; exn_str e]) ;;;
       ret None).

(** [create_image(text, filename, title)]; the drawing is the renderer's. *)
Definition create_image (text filename : pystr) (title : option pystr)
  : M W (option pystr) :=
  try_except
    (call (EDrawImage text filename title) (draw_image text filename title) ;;;
     ret (Some filename))
    (fun e =>
       send_telegram (lit "Image creation failed: " ++ exn_str e) ;;;
       emit (EPrint [lit "Image creation error:"; exn_str e]) ;;;
       ret None).

(** [upload_to_cloudinary(path)] *)
Definition upload_to_cloudinary (path : pystr) : M W (option json) :=
  try_except
    (res <- call (EUpload path) (cloudinary_upload path) ;;
     let url := dict_get (lit "secure_url") res in
     match url with
     | Some u =>
         if truthy_json u then ret (Some u)
         else raise (Exn RuntimeError
                       (lit "No secure_url in Cloudinary response: "
                        ++ py_repr (JObj res)))
     | None =>
         raise (Exn RuntimeError
                  (lit "No secure_url in Cloudinary response: "
                   ++ py_repr (JObj res)))
     end)
    (fun e =>
       send_telegram (lit "Cloudinary upload failed for " ++ path ++ lit ": "
                      ++ exn_str e) ;;;
       emit (EPrint [lit "Cloudinary upload error:"; exn_str e]) ;;;
       ret None).

(** ** The publisher *)

Definition create_url : pystr :=
  GRAPH_BASE ++ lit "/" ++ str_opt (INSTA_ID cfg) ++ lit "/media".

Definition publish_url : pystr :=
  GRAPH_BASE ++ lit "/" ++ str_opt (INSTA_ID cfg) ++ lit "/media_publish".

Definition post (url : pystr) (data : list (pystr * json)) : M W response :=
  call_with (EPost url data) (requests_post url data).

(** [data = r.json(); if "id" not in data: raise ...; data["id"]] *)
Definition identifier_of (what : pystr) (r : response) : M W json :=
  data <- lift (resp_json r) ;;
  present <- lift (py_in (lit "id") data) ;;
  if negb present
  then raise (Exn RuntimeError (what ++ py_repr data))
  else lift (py_getitem data (lit "id")).

(** The request of the second phase. *)
Definition publish_payload (creation_id : json) : list (pystr * json) :=
  [ (lit "access_token", opt_json (ACCESS_TOKEN cfg));
    (lit "creation_id", creation_id) ].

(** The second phase, the same in the three kinds of post. *)
Definition publish (what : pystr) (creation_id : json) : M W unit :=
  r2 <- post publish_url (publish_payload creation_id) ;;
  if negb (resp_ok r2)
  then raise (Exn RuntimeError (what ++ resp_text r2))
  else ret tt.

(** The request that creates a video container. *)
Definition video_payload (video_url : json) (caption : pystr)
  : list (pystr * json) :=
  [ (lit "access_token", opt_json (ACCESS_TOKEN cfg));
    (lit "media_type", JStr (lit "VIDEO"));
    (lit "video_url", video_url);
    (lit "caption", JStr caption) ].

(** The request that creates an image container. *)
Definition image_payload (image_url : json) (caption : pystr)
  : list (pystr * json) :=
  [ (lit "access_token", opt_json (ACCESS_TOKEN cfg));
    (lit "image_url", image_url);
    (lit "caption", JStr caption) ].

(** The [try] body of [post_video_to_instagram]. *)
Definition video_job (video_url : json) (caption : pystr) : M W unit :=
  r <- post create_url (video_payload video_url caption) ;;
  creation_id <- identifier_of (lit "Create video failed: ") r ;;
  publish (lit "Publish video failed: ") creation_id.

(** [post_video_to_instagram(video_url, caption)] *)
Definition post_video_to_instagram (video_url : json) (caption : pystr)
  : M W unit :=
  try_except
    (video_job video_url caption)
    (fun e =>
       send_telegram (lit "Posting Reel error: " ++ exn_str e) ;;;
       emit (EPrint [lit "Posting Reel error:"; exn_str e])).

(** The [try] body of [post_image_to_instagram]. *)
Definition image_job (image_url : json) (caption : pystr) : M W unit :=
  r <- post create_url (image_payload image_url caption) ;;
  creation_id <- identifier_of (lit "Create image failed: ") r ;;
  publish (lit "Publish image failed: ") creation_id.

(** [post_image_to_instagram(image_url, caption)] *)
Definition post_image_to_instagram (image_url : json) (caption : pystr)
  : M W unit :=
  try_except
    (image_job image_url caption)
    (fun e =>
       send_telegram (lit "Posting image error: " ++ exn_str e) ;;;
       emit (EPrint [lit "Posting image error:"; exn_str e])).

(** The request that creates one child container. *)
Definition child_payload (url : json) : list (pystr * json) :=
  [ (lit "access_token", opt_json (ACCESS_TOKEN cfg));
    (lit "image_url", url) ].

(** The loop over [image_urls], collecting [child_ids]. *)
Fixpoint create_children (image_urls : list json) (child_ids : list json)
  : M W (list json) :=
  match image_urls with
  | [] => ret child_ids
  | url :: rest =>
      r <- post create_url (child_payload url) ;;
      id <- identifier_of (lit "Create carousel child failed: ") r ;;
      create_children rest (child_ids ++ [id])
  end.

(** The request that creates the parent container. *)
Definition parent_payload (caption children : pystr) : list (pystr * json) :=
  [ (lit "access_token", opt_json (ACCESS_TOKEN cfg));
    (lit "caption", JStr caption);
    (lit "media_type", JStr (lit "CAROUSEL"));
    (lit "children", JStr children) ].

(** The [try] body of [post_carousel_to_instagram]. *)
Definition carousel_job (image_urls : list json) (caption : pystr) : M W unit :=
  child_ids <- create_children image_urls [] ;;
  children <- lift (py_join_json (lit ",") child_ids) ;;
  parent_r <- post create_url (parent_payload caption children) ;;
  creation_id <- identifier_of (lit "Create carousel parent failed: ") parent_r ;;
  publish (lit "Publish carousel failed: ") creation_id.

(** [post_carousel_to_instagram(image_urls, caption)] *)
Definition post_carousel_to_instagram (image_urls : list json)
    (caption : pystr) : M W unit :=
  try_except
    (carousel_job image_urls caption)
    (fun e =>
       send_telegram (lit "Posting carousel error: " ++ exn_str e) ;;;
       emit (EPrint [lit "Posting carousel error:"; exn_str e])).

(** ** The orchestrator *)

Definition truthy_opt (x : option pystr) : bool :=
  match x with
  | Some s => truthy s
  | None => false
  end.

Definition truthy_url (x : option json) : bool :=
  match x with
  | Some u => truthy_json u
  | None => false
  end.

Definition url_value (x : option json) : json :=
  match x with
  | Some u => u
  | None => JNull
  end.

Definition COOLDOWN : Z := 120.

(** [time.sleep(120)] *)
Definition cooldown : M W unit := emit (ESleep COOLDOWN).

(** The blocks "Reel 1" and "Reel 2" of [main]. *)
Definition reel_block (reel_file : option pystr) (script : pystr) : M W unit :=
  if truthy_opt reel_file
  then
    url <- upload_to_cloudinary (str_opt reel_file) ;;
    if truthy_url url
    then post_video_to_instagram (url_value url) script ;;; cooldown
    else ret tt
  else ret tt.

(** The block "Static post" of [main]. *)
Definition static_block (post_file : option pystr) (post_caption : pystr)
  : M W unit :=
  if truthy_opt post_file
  then
    url <- upload_to_cloudinary (str_opt post_file) ;;
    if truthy_url url
    then post_image_to_instagram (url_value url) post_caption ;;; cooldown
    else ret tt
  else ret tt.

(** [for f in carousel_files[:4]: u = upload(f); if u: urls.append(u)] *)
Fixpoint upload_slides (files : list pystr) (urls : list json)
  : M W (list json) :=
  match files with
  | [] => ret urls
  | f :: rest =>
      u <- upload_to_cloudinary f ;;
      upload_slides rest (if truthy_url u then urls ++ [url_value u] else urls)
  end.

Definition carousel_caption (theme : option pystr) (sub_topic : pystr) : pystr :=
  lit "Today's " ++ str_opt theme ++ lit " carousel on " ++ sub_topic
  ++ lit "! Save this and comment your score " ++ point_glyph ++ lit " "
  ++ lit "#EnglishLearning #EnglishTips".

(** The block "Carousel" of [main]. *)
Definition carousel_block (carousel_files : list pystr)
    (theme : option pystr) (sub_topic : pystr) : M W unit :=
  if (4 <=? length carousel_files)%nat
  then
    urls <- upload_slides (py_slice carousel_files 0 4) [] ;;
    if (length urls =? 4)%nat
    then post_carousel_to_instagram urls (carousel_caption theme sub_topic)
    else ret tt
  else ret tt.

(** [[generate_piece(f"Carousel slide {i}", ...) for i in range(1, 5)]] *)
Fixpoint carousel_texts_for (theme : option pystr) (sub_topic : pystr)
    (indices : list nat) : M W (list pystr) :=
  match indices with
  | [] => ret []
  | i :: rest =>
      t <- generate_piece (lit "Carousel slide " ++ str_of_nat i) theme sub_topic ;;
      ts <- carousel_texts_for theme sub_topic rest ;;
      ret (t :: ts)
  end.

(** [for i, text in enumerate(carousel_texts, start=1): ...] *)
Fixpoint draw_slides (theme : option pystr) (i : nat) (texts : list pystr)
    (carousel_files : list pystr) : M W (list pystr) :=
  match texts with
  | [] => ret carousel_files
  | text :: rest =>
      f <- create_image text (lit "carousel" ++ str_of_nat i ++ lit ".png")
             (Some (str_opt theme ++ lit " - Slide " ++ str_of_nat i)) ;;
      draw_slides theme (S i) rest
        (if truthy_opt f then carousel_files ++ [str_opt f] else carousel_files)
  end.

(** The [try] around the schedule resolver: [None] is the early [return]. *)
Definition resolve_schedule : M W (option (option pystr * pystr)) :=
  try_except
    (res <- pick_today_theme_and_topic ;;
     send_telegram (lit "Today: Theme = " ++ str_opt (fst res)
                    ++ lit ", Topic = " ++ snd res) ;;;
     ret (Some res))
    (fun e =>
       send_telegram (lit "CSV / schedule error: " ++ exn_str e) ;;;
       emit (EPrint [lit "Schedule error:"; exn_str e]) ;;;
       ret None).

(** Everything of [main] between the schedule and the first upload. *)
Definition produce (theme : option pystr) (sub_topic : pystr)
  : M W (pystr * pystr * pystr * option pystr * option pystr * option pystr
         * list pystr) :=
  reel1_script <- generate_piece (lit "20-second Reel script") theme sub_topic ;;
  reel2_script <- generate_piece (lit "another 20-second Reel script") theme sub_topic ;;
  post_caption <- generate_piece (lit "Static post caption with poll-style CTA")
                    theme sub_topic ;;
  carousel_texts <- carousel_texts_for theme sub_topic [1; 2; 3; 4]%nat ;;
  reel1_audio <- create_tts reel1_script (lit "reel1_audio.mp3") default_voice ;;
  reel2_audio <- create_tts reel2_script (lit "reel2_audio.mp3") default_voice ;;
  reel1_file <- create_reel_video reel1_script reel1_audio (lit "reel1.mp4") ;;
  reel2_file <- create_reel_video reel2_script reel2_audio (lit "reel2.mp4") ;;
  post_file <- create_image post_caption (lit "post.png")
                 (Some (str_opt theme ++ lit ": " ++ sub_topic)) ;;
  carousel_files <- draw_slides theme 1 carousel_texts [] ;;
  ret (reel1_script, reel2_script, post_caption, reel1_file, reel2_file,
       post_file, carousel_files).

Definition started_message : pystr :=
  start_glyph ++ lit " Script started " ++ dash_glyph
  ++ lit " generating today's content...".

Definition complete_message : pystr :=
  done_glyph ++ lit " Daily automation complete " ++ dash_glyph
  ++ lit " posts should be live on Instagram.".

(** The last two statements of [main]. *)
Definition finish : M W unit :=
  send_telegram complete_message ;;;
  emit (EPrint [lit "Done."]).

(** [main()] *)
Definition main : M W unit :=
  send_telegram started_message ;;;
  resolved <- resolve_schedule ;;
  match resolved with
  | None => ret tt
  | Some (theme, sub_topic) =>
      assets <- produce theme sub_topic ;;
      let '(reel1_script, reel2_script, post_caption, reel1_file, reel2_file,
            post_file, carousel_files) := assets in
      reel_block reel1_file reel1_script ;;;
      reel_block reel2_file reel2_script ;;;
      static_block post_file post_caption ;;;
      carousel_block carousel_files theme sub_topic ;;;
      finish
  end.

End Pipeline.

(** The script from its first line: read the environment, validate it, and
    run [main].  The two set-up calls in between ([cloudinary.config] and
    the [InferenceClient] constructor) only store their arguments. *)
Definition program {I : Interp} {W : Type} {B : Backend W}
    (getenv : pystr -> option pystr) : M W unit :=
  let cfg := load_config getenv in
  lift (validate cfg) ;;;
  main cfg.

(** ** Reading a trace *)

(** The outcome of a create call carries an identifier: the call returned,
    its body parsed to an object, and the object has the key ["id"]. *)
Definition has_identifier (o : result response) : bool :=
  match o with
  | Ok r =>
      match resp_json r with
      | Ok (JObj f) =>
          match dict_get (lit "id") f with Some _ => true | None => false end
      | _ => false
      end
  | Raise _ => false
  end.

(** Any [requests.post]: the pipeline posts to the platform only. *)
Definition is_platform_call (e : event) : bool :=
  match e with
  | EPost _ _ _ => true
  | _ => false
  end.

(** A call to the publish endpoint. *)
Definition is_publish (cfg : config) (e : event) : bool :=
  match e with
  | EPost url _ _ => pystr_eqb url (publish_url cfg)
  | _ => false
  end.

(** A call that creates a carousel child: to the media endpoint, with an
    image and neither caption nor children. *)
Definition is_child_create (cfg : config) (e : event) : bool :=
  match e with
  | EPost url data _ =>
      pystr_eqb url (create_url cfg)
      && bool_decide (List.map fst data = [lit "access_token"; lit "image_url"])
  | _ => false
  end.

(** A call that creates a carousel parent: to the media endpoint, with the
    key [children]. *)
Definition is_parent_create (cfg : config) (e : event) : bool :=
  match e with
  | EPost url data _ =>
      pystr_eqb url (create_url cfg)
      && match dict_get (lit "children") data with Some _ => true | None => false end
  | _ => false
  end.

(** A child-create call that came back without an identifier. *)
Definition is_failed_child (cfg : config) (e : event) : bool :=
  match e with
  | EPost _ _ o => is_child_create cfg e && negb (has_identifier o)
  | _ => false
  end.

(** A message handed to the notification channel that begins with
    [prefix]. *)
Definition is_notification (prefix : pystr) (e : event) : bool :=
  match e with
  | EGet _ params =>
      match dict_get (lit "text") params with
      | Some (JStr text) => is_prefix_b prefix text
      | _ => false
      end
  | _ => false
  end.

(** The final status line. *)
Definition status_line : event := EPrint [lit "Done."].

(** ** Stand-ins for the collaborators, for running the model *)

Fixpoint digits_value (s : pystr) (acc : Z) : option Z :=
  match s with
  | [] => Some acc
  | c :: s' =>
      if ((48 <=? c) && (c <=? 57))%N
      then digits_value s' (acc * 10 + Z.of_N (c - 48))
      else None
  end.

(** [int] on plain ASCII decimal numerals, where Python agrees with it. *)
Definition ascii_int (s : pystr) : option Z :=
  match strip s with
  | [] => None
  | t => digits_value t 0
  end.

Definition plain_interp : Interp :=
  {| py_int := ascii_int;
     py_repr := fun _ => lit "<value>";
     fault_text := fun _ => lit "<fault>" |}.

(** A world that answers from a script; it counts the posts made. *)
Record script := Script {
  on_schedule : result (list row);
  on_day : nat;
  on_draw : nat;
  on_generate : pystr -> result pystr;
  on_tts : result unit;
  on_render : result unit;
  on_image : result unit;
  on_upload : pystr -> result (list (pystr * json));
  on_post : nat -> pystr -> list (pystr * json) -> result response;
  on_get : result unit;
}.

Definition scripted (s : script) : Backend nat :=
  {| read_schedule := fun _ n => (on_schedule s, n);
     utcnow_days := fun n => (on_day s, n);
     random_draw := fun n => (on_draw s, n);
     text_generation := fun p n => (on_generate s p, n);
     tts_save := fun _ _ _ n => (on_tts s, n);
     render_reel := fun _ _ _ n => (on_render s, n);
     draw_image := fun _ _ _ n => (on_image s, n);
     cloudinary_upload := fun p n => (on_upload s p, n);
     requests_post := fun url data n => (on_post s n url data, S n);
     requests_get := fun _ _ n => (on_get s, n) |}.

Definition sample_config : config :=
  {| ACCESS_TOKEN := Some (lit "token");
     INSTA_ID := Some (lit "17841400000000000");
     HUGGINGFACE_TOKEN := Some (lit "hf");
     HF_MODEL_ID := Some (lit "meta-llama/Meta-Llama-3-8B-Instruct");
     CLOUDINARY_CLOUD_NAME := Some (lit "cloud");
     CLOUDINARY_API_KEY := Some (lit "key");
     CLOUDINARY_API_SECRET := Some (lit "secret");
     TELEGRAM_BOT_TOKEN := Some (lit "bot");
     TELEGRAM_CHAT_ID := Some (lit "chat") |}.

Definition with_post (f : nat -> pystr -> list (pystr * json) -> result response)
    (s : script) : script :=
  Script (on_schedule s) (on_day s) (on_draw s) (on_generate s) (on_tts s)
    (on_render s) (on_image s) (on_upload s) f (on_get s).

Definition with_draw (d : nat) (s : script) : script :=
  Script (on_schedule s) (on_day s) d (on_generate s) (on_tts s)
    (on_render s) (on_image s) (on_upload s) (on_post s) (on_get s).

Definition with_schedule (rows : result (list row)) (s : script) : script :=
  Script rows (on_day s) (on_draw s) (on_generate s) (on_tts s)
    (on_render s) (on_image s) (on_upload s) (on_post s) (on_get s).

Definition created (id : pystr) : result response :=
  Ok (Response true [] (Ok (JObj [(lit "id", JStr id)]))).

Definition rejected : result response :=
  Ok (Response false [] (Ok (JObj [(lit "error", JStr (lit "invalid"))]))).

Definition uploaded (path : pystr) : result (list (pystr * json)) :=
  Ok [(lit "secure_url", JStr (lit "https://res.example/" ++ path))].

Definition schedule_row (day theme subtopics : string) : row :=
  <[lit "Day" := Some (lit day)]>
    (<[lit "Theme" := Some (lit theme)]>
       (<[lit "SubTopics" := Some (lit subtopics)]> ∅)).

(** A Wednesday on which the text backend is down and the platform
    accepts everything. *)
Definition wednesday : script :=
  {| on_schedule :=
       Ok [schedule_row "3" "Phrasal Verbs" "give up, look forward to"];
     on_day := 2;
     on_draw := 0;
     on_generate := fun _ => Raise (Exn LibraryError (lit "backend down"));
     on_tts := Ok tt;
     on_render := Ok tt;
     on_image := Ok tt;
     on_upload := uploaded;
     on_post := fun n _ _ => created (str_of_nat n);
     on_get := Ok tt |}.

(** The platform answers the call numbered [k] without an identifier. *)
Definition rejecting (k : nat) : script :=
  with_post (fun n _ _ => if (n =? k)%nat then rejected else created (str_of_nat n))
    wednesday.

(** The same Wednesday with a table that has a row for Monday only. *)
Definition monday_only : script :=
  with_schedule (Ok [schedule_row "1" "Tenses" "past, future"]) wednesday.

(** An environment with every variable set, and one without the token. *)
Definition full_env (name : pystr) : option pystr := Some (lit "value").

Definition no_token_env (name : pystr) : option pystr :=
  if pystr_eqb name (lit "INSTAGRAM_ACCESS_TOKEN") then None
  else Some (lit "value").

(** The calls to the platform and the sleeps of a trace, in order. *)
Inductive mark := Call | Publish | Sleep (seconds : Z).

Definition mark_of (cfg : config) (e : event) : option mark :=
  match e with
  | EPost _ _ _ => Some (if is_publish cfg e then Publish else Call)
  | ESleep s => Some (Sleep s)
  | _ => None
  end.

Definition marks (cfg : config) (t : list event) : list mark :=
  omap (mark_of cfg) t.

Definition four_urls : list json :=
  [JStr (lit "u1"); JStr (lit "u2"); JStr (lit "u3"); JStr (lit "u4")].

(** ** Vocabulary of the statements *)

(** No event of the trace is a call to the platform. *)
Definition quiet (t : list event) : Prop :=
  Forall (fun e => is_platform_call e = false) t.

(** A post's stretch of the trace respects the cooldown: it made no call
    to the platform, or it ends with the sleep of 120. *)
Definition cooled (t : list event) : Prop :=
  quiet t \/ exists body, t = body ++ [ESleep 120].

(** The backend failed to give a usable text: it raised, or returned fewer
    than 60 characters. *)
Definition generation_failed (o : result pystr) : Prop :=
  match o with
  | Raise _ => True
  | Ok response => (length response < 60)%nat
  end.

(** The run ended as a normal run does: [main] returned and the last thing
    it did was to print the final status line. *)
Definition exits_normally {W} (out : result unit * W * list event) : Prop :=
  result_of out = Ok tt /\ last (trace_of out) = Some status_line.

Section RowVocabulary.
Context {I : Interp}.

(** [int(r["Day"])] *)
Definition row_day (r : row) : result Z :=
  match row_get r (lit "Day") with
  | Ok cell => int_of_cell cell
  | Raise e => Raise e
  end.

(** The subtopic list the resolver builds from [r["SubTopics"]]. *)
Definition row_subtopics (r : row) : result (list pystr) :=
  match row_get r (lit "SubTopics") with
  | Ok cell => parse_subtopics cell
  | Raise e => Raise e
  end.

(** A row the resolver can use: an integer day, a theme cell, and at
    least one subtopic that is not blank. *)
Definition well_formed_row (r : row) : Prop :=
  exists d theme subs,
    row_day r = Ok d /\ row_get r (lit "Theme") = Ok theme /\
    row_subtopics r = Ok subs /\ subs <> [].

Definition row_matches (today_day : Z) (r : row) : Prop :=
  row_day r = Ok today_day.

End RowVocabulary.

(** The traces of a list of blocks run one after the other, each from the
    world the one before it left. *)
Fixpoint run_blocks {W} (blocks : list (M W unit)) (w : W)
  : list (list event) * W :=
  match blocks with
  | [] => ([], w)
  | b :: rest =>
      let '(_, w1, t) := b w in
      let '(ts, w2) := run_blocks rest w1 in
      (t :: ts, w2)
  end.

(** The four posts of a run, in the order [main] attempts them. *)
Definition posts_of {I : Interp} {W} {B : Backend W} (cfg : config)
    (theme : option pystr) (sub_topic : pystr)
    (assets : pystr * pystr * pystr * option pystr * option pystr
              * option pystr * list pystr) : list (M W unit) :=
  let '(reel1_script, reel2_script, post_caption, reel1_file, reel2_file,
        post_file, carousel_files) := assets in
  [ reel_block cfg reel1_file reel1_script;
    reel_block cfg reel2_file reel2_script;
    static_block cfg post_file post_caption;
    carousel_block cfg carousel_files theme sub_topic ].

(** ** The layout of an image card *)

(** The two fonts of [create_image]. *)
Inductive font := font_title | font_body.

Section ImageLayout.
(** [textwrap.wrap(line, width=24)], the library's. *)
Variable wrap : pystr -> list pystr.

(** [for line in text.splitlines(): wrapped.extend(wrap(line) or [""])] *)
Definition wrapped_lines (text : pystr) : list pystr :=
  concat (List.map (fun line => match wrap line with
                                | [] => [[]]
                                | pieces => pieces
                                end)
            (splitlines text)).

(** The loop that draws the body: a line at [y], then [y += 70], and out
    of the loop once [y > 980]. *)
Fixpoint draw_body (y : Z) (wrapped : list pystr) : list (Z * pystr) :=
  match wrapped with
  | [] => []
  | line :: rest =>
      (y, line) :: (if 980 <? y + 70 then [] else draw_body (y + 70) rest)
  end.

(** Where the body starts: under the title if there is one. *)
Definition body_start (title : option pystr) : Z :=
  if truthy_opt title then 60 + 140 else 60.

(** Every [draw.text] call of [create_image], in order: the font, the
    vertical position (the horizontal one is always 60) and the string. *)
Definition text_calls (text : pystr) (title : option pystr)
  : list (font * Z * pystr) :=
  (if truthy_opt title then [(font_title, 60, str_opt title)] else [])
  ++ List.map (fun yl => (font_body, fst yl, snd yl))
       (draw_body (body_start title) (wrapped_lines text)).

End ImageLayout.

(** ** More vocabulary *)

(** A notification or a line on the console, and nothing else. *)
Definition is_report (e : event) : bool :=
  match e with
  | EGet _ _ | EPrint _ => true
  | _ => false
  end.

(** The identifier an outcome carries, if it carries one. *)
Definition identifier_in (o : result response) : option json :=
  match o with
  | Ok r =>
      match resp_json r with
      | Ok (JObj f) => dict_get (lit "id") f
      | _ => None
      end
  | Raise _ => None
  end.

(** The child-create call for a URL, with what came back. *)
Definition child_call (cfg : config) (url : json) (o : result response) : event :=
  EPost (create_url cfg) (child_payload cfg url) o.

(** How many calls to the platform, and how many of them to the publish
    endpoint, a trace holds. *)
Definition calls (t : list event) : nat :=
  length (List.filter is_platform_call t).

Definition publishes (cfg : config) (t : list event) : nat :=
  length (List.filter (is_publish cfg) t).

(** The text of the message a [requests.get] to the notifier carries. *)
Definition notified_text (e : event) : option pystr :=
  match e with
  | EGet _ params =>
      match dict_get (lit "text") params with
      | Some (JStr text) => Some text
      | _ => None
      end
  | _ => None
  end.

(** ** More stand-ins *)

Definition with_upload (f : pystr -> result (list (pystr * json)))
    (s : script) : script :=
  Script (on_schedule s) (on_day s) (on_draw s) (on_generate s) (on_tts s)
    (on_render s) (on_image s) f (on_post s) (on_get s).

Definition with_generate (f : pystr -> result pystr) (s : script) : script :=
  Script (on_schedule s) (on_day s) (on_draw s) f (on_tts s)
    (on_render s) (on_image s) (on_upload s) (on_post s) (on_get s).

(** The platform answers with numbers for identifiers. *)
Definition numbering : script :=
  with_post (fun n _ _ =>
               Ok (Response true [] (Ok (JObj [(lit "id", JNum (Z.of_nat n))]))))
    wednesday.

(** The storage answers without a URL. *)
Definition no_url : script :=
  with_upload (fun _ => Ok [(lit "public_id", JStr (lit "abc"))]) wednesday.

(** A text of seventy characters with a space on either side. *)
Definition long_answer : pystr :=
  lit " Stop scrolling! Do you give up or give in? Comment A or B below. #English ".

(** The text backend answers. *)
Definition answering : script :=
  with_generate (fun _ => Ok long_answer) wednesday.

(** A table whose first row has no number for its day. *)
Definition unreadable_day : script :=
  with_schedule (Ok [ schedule_row "Wed" "Idioms" "a piece of cake";
                      schedule_row "3" "Phrasal Verbs" "give up" ])
    wednesday.

(** A table whose row for the day lists blanks only. *)
Definition blank_topics : script :=
  with_schedule (Ok [schedule_row "3" "Phrasal Verbs" " , "]) wednesday.

(** A table read from a file whose header has no Theme column. *)
Definition no_theme_column : script :=
  with_schedule
    (Ok [ <[lit "Day" := Some (lit "3")]>
            (<[lit "SubTopics" := Some (lit "give up")]> ∅) ])
    wednesday.

(** A table with a row that has no number for its day after the row for
    the day. *)
Definition unreadable_day_last : script :=
  with_schedule (Ok [ schedule_row "3" "Phrasal Verbs" "give up, look forward to";
                      schedule_row "Wed" "Idioms" "a piece of cake" ])
    wednesday.

(** The table of a scripted world has a row for the day of that world. *)
Definition has_row_for_today (s : script) : Prop :=
  exists rows,
    on_schedule s = Ok rows /\
    Exists (row_matches (I:=plain_interp) (Z.of_nat (on_day s mod 7) + 1)) rows.

(** A wrapper that keeps every line whole. *)
Definition no_wrap (line : pystr) : list pystr :=
  match line with
  | [] => []
  | _ => [line]
  end.

(** A text of [n] lines, each the letter x. *)
Definition lines_of_x (n : nat) : pystr :=
  join newline (replicate n (lit "x")).

(** * Properties *)

(** ** Running a computation *)

Section Running.
Context {W A B : Type}.

Lemma bind_ok (m : M W A) (k : A -> M W B) w a w1 t1 r w2 t2 :
  m w = (Ok a, w1, t1) -> k a w1 = (r, w2, t2) ->
  bind m k w = (r, w2, t1 ++ t2).
Proof. intros Hm Hk. unfold bind. by rewrite Hm, Hk. Qed.

Lemma bind_raise (m : M W A) (k : A -> M W B) w e w1 t1 :
  m w = (Raise e, w1, t1) -> bind m k w = (Raise e, w1, t1).
Proof. intros Hm. unfold bind. by rewrite Hm. Qed.

Lemma try_ok (m : M W A) (h : exn -> M W A) w a w1 t1 :
  m w = (Ok a, w1, t1) -> try_except m h w = (Ok a, w1, t1).
Proof. intros Hm. unfold try_except. by rewrite Hm. Qed.

Lemma try_raise (m : M W A) (h : exn -> M W A) w e w1 t1 r w2 t2 :
  m w = (Raise e, w1, t1) -> h e w1 = (r, w2, t2) ->
  try_except m h w = (r, w2, t1 ++ t2).
Proof. intros Hm Hh. unfold try_except. by rewrite Hm, Hh. Qed.

(** The trace of a sequence is the trace of its first part, then that of
    the rest if the first part returned. *)
Lemma trace_bind (m : M W A) (k : A -> M W B) w :
  trace_of (bind m k w)
  = trace_of (m w)
    ++ match result_of (m w) with
       | Ok a => trace_of (k a (world_of (m w)))
       | Raise _ => []
       end.
Proof.
  unfold bind, trace_of, result_of, world_of.
  destruct (m w) as [[[a|e] w1] t1]; simpl.
  - by destruct (k a w1) as [[r w2] t2].
  - by rewrite app_nil_r.
Qed.

Lemma trace_try (m : M W A) (h : exn -> M W A) w :
  trace_of (try_except m h w)
  = trace_of (m w)
    ++ match result_of (m w) with
       | Ok _ => []
       | Raise e => trace_of (h e (world_of (m w)))
       end.
Proof.
  unfold try_except, trace_of, result_of, world_of.
  destruct (m w) as [[[a|e] w1] t1]; simpl.
  - by rewrite app_nil_r.
  - by destruct (h e w1) as [[r w2] t2].
Qed.

End Running.


(** ** Strings *)

Lemma split_ws_aux_app (w cur s : pystr) :
  Forall (fun c => isspace c = false) w ->
  split_ws_aux cur (w ++ s) = split_ws_aux (cur ++ w) s.
Proof.
  intros Hw. revert cur. induction Hw as [|c w Hc Hw IH]; intros cur.
  - by rewrite app_nil_r.
  - simpl. rewrite Hc, IH. by rewrite <- app_assoc.
Qed.

Lemma split_ws_aux_words (cur s : pystr) :
  Forall (fun c => isspace c = false) cur ->
  Forall is_word (split_ws_aux cur s).
Proof.
  revert cur. induction s as [|c s IH]; intros cur Hcur; simpl.
  - destruct cur as [|a cur]; [constructor|].
    constructor; [|constructor]. split; [done|exact Hcur].
  - destruct (isspace c) eqn:Hc.
    + destruct cur as [|a cur].
      * apply IH. constructor.
      * constructor; [split; [done|exact Hcur]|]. apply IH. constructor.
    + apply IH. apply Forall_app. split; [exact Hcur|]. by constructor.
Qed.

Lemma split_ws_words (s : pystr) : Forall is_word (split_ws s).
Proof. apply split_ws_aux_words. constructor. Qed.

Lemma split_ws_one_word (w : pystr) : is_word w -> split_ws_aux [] w = [w].
Proof.
  intros [Hne Hw]. rewrite <- (app_nil_r w) at 1.
  rewrite split_ws_aux_app by exact Hw. simpl.
  destruct w; [done|reflexivity].
Qed.

(** Splitting what [" ".join] made of words gives the words back. *)
Lemma split_ws_join (ws : list pystr) :
  Forall is_word ws -> split_ws (join space ws) = ws.
Proof.
  unfold split_ws. induction 1 as [|w ws Hw Hws IH]; [reflexivity|].
  destruct ws as [|w' ws].
  - simpl. by apply split_ws_one_word.
  - change (join space (w :: w' :: ws)) with (w ++ space ++ join space (w' :: ws)).
    destruct Hw as [Hne Hw]. rewrite split_ws_aux_app by exact Hw.
    destruct w as [|a w]; [done|].
    change (split_ws_aux ([] ++ a :: w) (space ++ join space (w' :: ws)))
      with ((a :: w) :: split_ws_aux [] (join space (w' :: ws))).
    by rewrite IH.
Qed.

Lemma lstrip_length (s : pystr) : (length (lstrip s) <= length s)%nat.
Proof.
  induction s as [|c s IH]; simpl; [lia|].
  destruct (isspace c); simpl; lia.
Qed.

(** Stripping never lengthens a string. *)
Lemma strip_length (s : pystr) : (length (strip s) <= length s)%nat.
Proof.
  unfold strip, rstrip. rewrite length_rev.
  etransitivity; [apply lstrip_length|].
  rewrite length_rev. apply lstrip_length.
Qed.

Lemma lit_length (s : string) : length (lit s) = String.length s.
Proof.
  unfold lit. rewrite length_map.
  induction s as [|a s IH]; simpl; [reflexivity|]. by rewrite IH.
Qed.

(** ** Ranges and slices *)

Lemma py_slice_window {A} (l : list A) (i n : Z) :
  0 <= i < Z.of_nat (length l) -> 1 <= n ->
  py_slice l i (i + n) = take (Z.to_nat n) (drop (Z.to_nat i) l).
Proof.
  intros Hi Hn. unfold py_slice, clamp.
  destruct (Z.ltb_spec i 0); [lia|].
  destruct (Z.ltb_spec (i + n) 0); [lia|].
  rewrite (Z.min_l i) by lia.
  destruct (Z.le_gt_cases (i + n) (Z.of_nat (length l))) as [Hle|Hgt].
  - rewrite Z.min_l by lia. f_equal. lia.
  - rewrite Z.min_r by lia.
    rewrite !take_ge; [reflexivity| |]; rewrite length_drop; lia.
Qed.

(** The windows of the loop, laid end to end, are the rest of the list. *)
Lemma windows_concat {A} (l : list A) (n : Z) (fuel : nat) (i : Z) :
  1 <= n -> 0 <= i -> (Z.of_nat (length l) - i <= Z.of_nat fuel) ->
  concat (List.map (fun i => py_slice l i (i + n))
            (range_up fuel i (Z.of_nat (length l)) n))
  = drop (Z.to_nat i) l.
Proof.
  intros Hn. revert i. induction fuel as [|fuel IH]; intros i Hi Hfuel; simpl.
  - rewrite drop_ge; [reflexivity|lia].
  - destruct (Z.ltb_spec i (Z.of_nat (length l))) as [Hlt|Hge]; simpl.
    + rewrite IH by lia. rewrite py_slice_window by lia.
      replace (Z.to_nat (i + n)) with (Z.to_nat i + Z.to_nat n)%nat by lia.
      rewrite <- drop_drop. apply take_drop.
    + rewrite drop_ge; [reflexivity|lia].
Qed.

(** Every start of the loop is inside the list, and one that has a
    successor leaves room for a full window. *)
Lemma windows_sizes (len n : Z) (fuel : nat) (i : Z) :
  1 <= n -> 0 <= i ->
  forall k j, range_up fuel i len n !! k = Some j ->
    0 <= j < len /\
    (is_Some (range_up fuel i len n !! S k) -> j + n < len).
Proof.
  intros Hn. revert i. induction fuel as [|fuel IH]; intros i Hi k j; simpl.
  - intros Hk. by destruct k.
  - destruct (Z.ltb_spec i len) as [Hlt|Hge]; [|intros Hk; by destruct k].
    destruct k as [|k]; simpl.
    + intros [= <-]. split; [lia|]. intros [j' Hj'].
      destruct fuel as [|fuel]; simpl in Hj'; [done|].
      destruct (Z.ltb_spec (i + n) len); [lia|done].
    + intros Hk. apply (IH (i + n)); [lia|exact Hk].
Qed.

Lemma py_slice_Forall {A} (P : A -> Prop) (l : list A) (i j : Z) :
  Forall P l -> Forall P (py_slice l i j).
Proof. intros Hl. unfold py_slice. by apply Forall_take, Forall_drop. Qed.

(** A chunk splits back into the window of words it was joined from. *)
Lemma chunk_words (text : pystr) (i j : Z) :
  split_ws (join space (py_slice (split_ws text) i j))
  = py_slice (split_ws text) i j.
Proof. apply split_ws_join, py_slice_Forall, split_ws_words. Qed.

(** ** The caption chunker *)

(** C5: for every text and every chunk size [n] of one word or more,
    [split_script_into_chunks] returns; the words of its chunks, taken in
    order, are the words of the text, so that their order and their number
    are kept; every chunk that has a successor, that is every chunk but
    possibly the last, has exactly [n] words, and none has more or is
    without a word; the empty text gives no chunk. *)
Theorem chunks_preserve_words {I : Interp} (text : pystr) (n : Z) :
  1 <= n ->
  exists chunks,
    split_script_into_chunks text n = Ok chunks /\
    concat (List.map split_ws chunks) = split_ws text /\
    (forall k c, chunks !! k = Some c -> is_Some (chunks !! S k) ->
       Z.of_nat (length (split_ws c)) = n) /\
    (forall c, c ∈ chunks -> 1 <= Z.of_nat (length (split_ws c)) <= n) /\
    (text = [] -> chunks = []).
Proof.
  intros Hn. unfold split_script_into_chunks, py_range0.
  destruct (Z.eqb_spec n 0); [lia|]. destruct (Z.ltb_spec n 0); [lia|].
  set (words := split_ws text).
  set (len := Z.of_nat (length words)).
  set (starts := range_up (Z.to_nat len) 0 len n).
  eexists. split; [reflexivity|].
  assert (Hcw : forall i j,
            split_ws (join space (py_slice words i j)) = py_slice words i j)
    by apply chunk_words.
  assert (Hstart : forall k j, starts !! k = Some j ->
            0 <= j < len /\ (is_Some (starts !! S k) -> j + n < len)).
  { intros k j. apply windows_sizes; lia. }
  assert (Hat : forall k c,
            List.map (fun i => join space (py_slice words i (i + n))) starts !! k
            = Some c ->
            exists j, starts !! k = Some j /\ 0 <= j < len /\
              length (split_ws c)
              = (Z.to_nat n `min` (length words - Z.to_nat j))%nat).
  { intros k c Hc. change (List.map ?f ?l) with (f <$> l) in Hc.
    rewrite list_lookup_fmap in Hc.
    destruct (starts !! k) as [j|] eqn:Hj; [|done].
    injection Hc as <-. exists j. destruct (Hstart k j Hj) as [Hj0 _].
    split; [reflexivity|]. split; [exact Hj0|].
    rewrite Hcw, py_slice_window by (fold len; lia).
    by rewrite length_take, length_drop. }
  split; [|split; [|split]].
  - rewrite List.map_map.
    rewrite (List.map_ext _ (fun i => py_slice words i (i + n)))
      by (intros i; apply Hcw).
    unfold starts, len. rewrite windows_concat by lia. reflexivity.
  - intros k c Hc Hnext.
    destruct (Hat k c Hc) as (j & Hj & Hj0 & ->).
    assert (j + n < len).
    { apply (Hstart k j Hj). change (List.map ?f ?l) with (f <$> l) in Hnext.
      rewrite list_lookup_fmap in Hnext.
      destruct (starts !! S k); [eauto|by destruct Hnext]. }
    unfold len in *. lia.
  - intros c Hin. apply list_elem_of_lookup in Hin as [k Hk].
    destruct (Hat k c Hk) as (j & Hj & Hj0 & ->). unfold len in *. lia.
  - intros ->. reflexivity.
Qed.

Lemma chunks_preserve_words_witness :
  exists chunks,
    @split_script_into_chunks plain_interp (lit "one two three") 2 = Ok chunks /\
    concat (List.map split_ws chunks) = split_ws (lit "one two three") /\
    (forall k c, chunks !! k = Some c -> is_Some (chunks !! S k) ->
       Z.of_nat (length (split_ws c)) = 2) /\
    (forall c, c ∈ chunks -> 1 <= Z.of_nat (length (split_ws c)) <= 2) /\
    (lit "one two three" = [] -> chunks = []).
Proof.
  apply (@chunks_preserve_words plain_interp (lit "one two three") 2). lia.
Defined.

(** [max_words] is an unguarded [int]; a value below one is no chunk
    size, and the function is then no chunker: with [-1] the loop never
    runs, and the two words of the text are in no chunk. *)
Lemma chunks_negative_size_lose_words :
  ~ exists chunks,
      @split_script_into_chunks plain_interp (lit "one two") (-1) = Ok chunks /\
      concat (List.map split_ws chunks) = split_ws (lit "one two").
Proof.
  intros (chunks & Hrun & Hwords).
  vm_compute in Hrun. injection Hrun as <-.
  vm_compute in Hwords. discriminate Hwords.
Qed.

(** With [0] the call does not return at all: [range] refuses the step. *)
Example chunks_zero_size_raises :
  @split_script_into_chunks plain_interp (lit "one two") 0
  = Raise (Exn ValueError (lit "<fault>")).
Proof. reflexivity. Qed.

(** ** The content generator *)

Section Generator.
Context {I : Interp} {W : Type} {B : Backend W}.

Lemma fallback_text_length (kind sub_topic : pystr) :
  (60 <= length (fallback_text kind sub_topic))%nat.
Proof.
  unfold fallback_text. rewrite !length_app, !lit_length. simpl. lia.
Qed.

Lemma fallback_text_subtopic (kind sub_topic : pystr) :
  substring sub_topic (fallback_text kind sub_topic).
Proof.
  exists (kind ++ lit " about "). eexists.
  unfold fallback_text. rewrite <- !app_assoc. reflexivity.
Qed.

Lemma fallback_text_hashtag (kind sub_topic : pystr) :
  substring (lit "#EnglishLearning") (fallback_text kind sub_topic).
Proof.
  exists (kind ++ lit " about " ++ sub_topic ++ lit ": What does it mean to you? "
          ++ lit "Comment your own example! " ++ fallback_glyph ++ lit " ").
  exists (lit " #EnglishReels").
  unfold fallback_text. rewrite <- !app_assoc. reflexivity.
Qed.

(** [generate_piece] returns a text whatever the backend does. *)
Lemma generate_piece_returns (kind : pystr) (theme : option pystr)
    (sub_topic : pystr) (w : W) :
  exists text w' t,
    generate_piece kind theme sub_topic w = (Ok text, w', t) /\ quiet t.
Proof.
  unfold generate_piece, try_except, bind, call, raise, ret, emit.
  destruct (text_generation _ w) as [[response|e] w1].
  - destruct (length (strip response) <? 60)%nat.
    + do 3 eexists. split; [reflexivity|]. repeat constructor.
    + do 3 eexists. split; [reflexivity|]. repeat constructor.
  - do 3 eexists. split; [reflexivity|]. repeat constructor.
Qed.

(** C3: when the backend raises or returns fewer than 60 characters,
    [generate_piece] returns the fallback text, which is not empty,
    contains the subtopic, contains a hashtag and has at least 60
    characters; and on every input and world [generate_piece] returns a
    text rather than raising. *)
Theorem generate_piece_falls_back (kind : pystr) (theme : option pystr)
    (sub_topic : pystr) (w w1 : W) (o : result pystr) :
  text_generation (prompt_of kind theme sub_topic) w = (o, w1) ->
  generation_failed o ->
  let text := fallback_text kind sub_topic in
  result_of (generate_piece kind theme sub_topic w) = Ok text /\
  text <> [] /\
  substring sub_topic text /\
  substring (lit "#EnglishLearning") text /\
  contains hash text = true /\
  (60 <= length text)%nat /\
  (forall kind' theme' sub_topic' w',
     exists text', result_of (generate_piece kind' theme' sub_topic' w') = Ok text').
Proof.
  intros Hcall Hfail text.
  assert (Hlen := fallback_text_length kind sub_topic).
  split; [|split; [|split; [|split; [|split; [|split]]]]].
  - unfold generate_piece, try_except, bind, call, raise, ret, emit, result_of.
    rewrite Hcall. destruct o as [response|e]; simpl in *; [|reflexivity].
    assert (Hs := strip_length response).
    destruct (Nat.ltb_spec (length (strip response)) 60); [reflexivity|lia].
  - intros Hnil. fold text in Hlen. rewrite Hnil in Hlen. simpl in Hlen. lia.
  - apply fallback_text_subtopic.
  - apply fallback_text_hashtag.
  - unfold text, fallback_text, contains.
    rewrite !existsb_app. rewrite !orb_true_iff. do 6 right. reflexivity.
  - exact Hlen.
  - intros kind' theme' sub_topic' w'.
    destruct (generate_piece_returns kind' theme' sub_topic' w')
      as (text' & w2 & t & -> & _).
    by exists text'.
Qed.

End Generator.

Lemma generate_piece_falls_back_witness :
  result_of (generate_piece (B:=scripted wednesday)
               (lit "20-second Reel script") (Some (lit "Phrasal Verbs"))
               (lit "give up") 0%nat)
  = Ok (fallback_text (lit "20-second Reel script") (lit "give up")) /\
  (60 <= length (fallback_text (lit "20-second Reel script") (lit "give up")))%nat.
Proof.
  destruct (generate_piece_falls_back (B:=scripted wednesday)
              (lit "20-second Reel script") (Some (lit "Phrasal Verbs"))
              (lit "give up") 0%nat 0%nat
              (Raise (Exn LibraryError (lit "backend down"))) eq_refl I)
    as (Hres & _ & _ & _ & _ & Hlen & _).
  split; [exact Hres|exact Hlen].
Defined.

(** ** The notifier and the publisher *)

Lemma is_prefix_b_app (p x : pystr) : is_prefix_b p (p ++ x) = true.
Proof.
  induction p as [|a p IH]; simpl; [by destruct x|].
  by rewrite N.eqb_refl, IH.
Qed.

Lemma quiet_app (t1 t2 : list event) : quiet t1 -> quiet t2 -> quiet (t1 ++ t2).
Proof. intros H1 H2. apply Forall_app. by split. Qed.

Lemma quiet_nil : quiet [].
Proof. constructor. Qed.

Lemma validate_ok_missing (cfg : config) : validate cfg = Ok tt -> missing cfg = [].
Proof. unfold validate. by destruct (missing cfg). Qed.

(** After the validation the notifier has its two credentials. *)
Lemma validate_telegram (cfg : config) :
  validate cfg = Ok tt ->
  falsy_opt (TELEGRAM_BOT_TOKEN cfg) || falsy_opt (TELEGRAM_CHAT_ID cfg) = false.
Proof.
  intros Hv. apply validate_ok_missing in Hv. unfold missing in Hv.
  apply (f_equal (@length pystr)) in Hv. rewrite length_map in Hv.
  simpl in Hv.
  destruct (falsy_opt (TELEGRAM_BOT_TOKEN cfg)), (falsy_opt (TELEGRAM_CHAT_ID cfg));
    try reflexivity; exfalso;
    repeat match type of Hv with
           | context [if ?b then _ else _] => destruct b; simpl in Hv
           end; discriminate Hv.
Qed.

Section Publisher.
Context {I : Interp} {W : Type} {B : Backend W}.
Variable cfg : config.

(** The notifier returns whatever happens to its request, and never calls
    the platform. *)
Lemma send_telegram_returns (message : pystr) (w : W) :
  exists w' t, send_telegram cfg message w = (Ok tt, w', t) /\ quiet t.
Proof.
  unfold send_telegram.
  destruct (falsy_opt (TELEGRAM_BOT_TOKEN cfg) || falsy_opt (TELEGRAM_CHAT_ID cfg)).
  - do 2 eexists. split; [reflexivity|apply quiet_nil].
  - unfold try_except, call, emit.
    destruct (requests_get _ _ w) as [[[]|e] w1].
    + do 2 eexists. split; [reflexivity|]. repeat constructor.
    + do 2 eexists. split; [reflexivity|]. repeat constructor.
Qed.

(** With its credentials, the notifier sends the message, cut at 4000
    characters, before anything else. *)
Lemma send_telegram_sends (prefix detail : pystr) (w : W) :
  falsy_opt (TELEGRAM_BOT_TOKEN cfg) || falsy_opt (TELEGRAM_CHAT_ID cfg) = false ->
  (length prefix <= 4000)%nat ->
  exists e t, trace_of (send_telegram cfg (prefix ++ detail) w) = e :: t /\
              is_notification prefix e = true.
Proof.
  intros Hcred Hlen. unfold send_telegram. rewrite Hcred.
  unfold try_except, call, emit, trace_of.
  assert (Hn : forall url,
            is_notification prefix
              (EGet url [ (lit "chat_id", opt_json (TELEGRAM_CHAT_ID cfg));
                          (lit "text", JStr (take 4000 (prefix ++ detail))) ])
            = true).
  { intros url. unfold is_notification.
    change (dict_get (lit "text") _)
      with (Some (JStr (take 4000 (prefix ++ detail)))).
    rewrite take_app, (take_ge prefix) by exact Hlen. apply is_prefix_b_app. }
  destruct (requests_get _ _ w) as [[[]|e] w1]; simpl; eauto.
Qed.

(** The handler of every [except] branch: tell the notifier, print. *)
Lemma report_returns (message : pystr) (line : list pystr) (w : W) :
  exists w' t,
    (send_telegram cfg message ;;; emit (EPrint line)) w = (Ok tt, w', t) /\
    quiet t.
Proof.
  destruct (send_telegram_returns message w) as (w1 & t1 & Hs & Hq).
  unfold bind, emit. rewrite Hs. do 2 eexists. split; [reflexivity|].
  apply quiet_app; [exact Hq|repeat constructor].
Qed.

(** [identifier_of] succeeds exactly on an outcome with an identifier, and
    touches nothing. *)
Lemma identifier_of_spec (what : pystr) (r : response) (w : W) :
  if has_identifier (Ok r)
  then exists id, identifier_of what r w = (Ok id, w, [])
  else exists e, identifier_of what r w = (Raise e, w, []).
Proof.
  unfold has_identifier, identifier_of, bind, lift, raise.
  destruct (resp_json r) as [data|e]; [|eauto].
  destruct data as [| | | |l|f]; simpl; eauto.
  - destruct (is_infix_b (lit "id") s); simpl; eauto.
  - destruct (existsb (json_is_str (lit "id")) l); simpl; eauto.
  - destruct (dict_get (lit "id") f); simpl; eauto.
Qed.

Lemma url_lengths :
  length (publish_url cfg) = (length (create_url cfg) + 8)%nat.
Proof.
  unfold publish_url, create_url. rewrite !length_app, !lit_length. simpl. lia.
Qed.

Lemma create_is_not_publish : pystr_eqb (create_url cfg) (publish_url cfg) = false.
Proof.
  unfold pystr_eqb. apply bool_decide_eq_false. intros Heq.
  apply (f_equal (@length N)) in Heq. rewrite url_lengths in Heq. lia.
Qed.

Lemma quiet_not_publish (t : list event) :
  quiet t ->
  Forall (fun e => is_parent_create cfg e = false /\ is_publish cfg e = false
                   /\ is_failed_child cfg e = false) t.
Proof.
  intros Hq. eapply Forall_impl; [exact Hq|].
  intros e He. by destruct e.
Qed.

Lemma report_sends (prefix detail : pystr) (line : list pystr) (w : W) :
  validate cfg = Ok tt -> (length prefix <= 4000)%nat ->
  exists w' e t,
    (send_telegram cfg (prefix ++ detail) ;;; emit (EPrint line)) w
    = (Ok tt, w', e :: t) /\
    is_notification prefix e = true /\ quiet (e :: t).
Proof.
  intros Hv Hlen. apply validate_telegram in Hv.
  destruct (send_telegram_sends prefix detail w Hv Hlen) as (e & t & Ht & He).
  destruct (send_telegram_returns (prefix ++ detail) w) as (w1 & t1 & Hs & Hq).
  rewrite Hs in Ht. unfold trace_of in Ht. simpl in Ht. subst t1.
  exists w1, e, (t ++ [EPrint line]). split; [|split; [exact He|]].
  - erewrite bind_ok; [|exact Hs|reflexivity]. reflexivity.
  - change (quiet ((e :: t) ++ [EPrint line])).
    apply quiet_app; [exact Hq|repeat constructor].
Qed.

(** What a create call without identifier leads to, whatever follows it in
    the [try] body and whatever the handler says. *)
Lemma create_failure_reported (payload : list (pystr * json))
    (what prefix : pystr) (line : exn -> list pystr)
    (next : json -> M W unit) (w w1 : W) (o : result response) :
  validate cfg = Ok tt -> (length prefix <= 4000)%nat ->
  requests_post (create_url cfg) payload w = (o, w1) ->
  has_identifier o = false ->
  exists w2 t,
    try_except
      (r <- post (create_url cfg) payload ;;
       creation_id <- identifier_of what r ;;
       next creation_id)
      (fun e =>
         send_telegram cfg (prefix ++ exn_str e) ;;; emit (EPrint (line e))) w
    = (Ok tt, w2, EPost (create_url cfg) payload o :: t) /\
    quiet t /\
    Exists (fun e => is_notification prefix e = true) t.
Proof.
  intros Hv Hlen Hpost Hid.
  assert (Hbody : exists e,
            (r <- post (create_url cfg) payload ;;
             creation_id <- identifier_of what r ;;
             next creation_id) w
            = (Raise e, w1, [EPost (create_url cfg) payload o])).
  { destruct o as [r|e].
    - pose proof (identifier_of_spec what r w1) as Hspec. rewrite Hid in Hspec.
      destruct Hspec as [e He]. exists e.
      unfold bind at 1, post, call_with. rewrite Hpost. cbv beta iota.
      rewrite (bind_raise _ _ _ _ _ _ He). reflexivity.
    - exists e. apply bind_raise. unfold post, call_with. by rewrite Hpost. }
  destruct Hbody as [e Hbody].
  destruct (report_sends prefix (exn_str e) (line e) w1 Hv Hlen)
    as (w2 & ev & t & Hh & Hn & Hq).
  exists w2, (ev :: t). split; [|split; [exact Hq|by constructor]].
  unfold try_except. rewrite Hbody. cbv beta iota. rewrite Hh. reflexivity.
Qed.

(** C2: in the video path and in the image path alike, when the create
    call comes back without an identifier the function still returns, the
    create call is the only call to the platform (so the publish endpoint
    is not called), and the notifier is given the error. *)
Theorem missing_identifier_stops_publish (media_url : json) (caption : pystr)
    (w w1 : W) (o : result response) :
  validate cfg = Ok tt ->
  has_identifier o = false ->
  (requests_post (create_url cfg) (video_payload cfg media_url caption) w = (o, w1) ->
   exists w2 t,
     post_video_to_instagram cfg media_url caption w
     = (Ok tt, w2, EPost (create_url cfg) (video_payload cfg media_url caption) o :: t) /\
     quiet t /\
     Forall (fun e => is_publish cfg e = false)
       (trace_of (post_video_to_instagram cfg media_url caption w)) /\
     Exists (fun e => is_notification (lit "Posting Reel error: ") e = true) t) /\
  (requests_post (create_url cfg) (image_payload cfg media_url caption) w = (o, w1) ->
   exists w2 t,
     post_image_to_instagram cfg media_url caption w
     = (Ok tt, w2, EPost (create_url cfg) (image_payload cfg media_url caption) o :: t) /\
     quiet t /\
     Forall (fun e => is_publish cfg e = false)
       (trace_of (post_image_to_instagram cfg media_url caption w)) /\
     Exists (fun e => is_notification (lit "Posting image error: ") e = true) t).
Proof.
  intros Hv Hid. split; intros Hpost.
  - destruct (create_failure_reported (video_payload cfg media_url caption)
                (lit "Create video failed: ") (lit "Posting Reel error: ")
                (fun e => [lit "Posting Reel error:"; exn_str e])
                (publish cfg (lit "Publish video failed: ")) w w1 o Hv
                ltac:(rewrite lit_length; simpl; lia) Hpost Hid)
      as (w2 & t & Hrun & Hq & Hn).
    exists w2, t. unfold post_video_to_instagram, video_job. rewrite Hrun.
    split; [reflexivity|]. split; [exact Hq|]. split; [|exact Hn].
    constructor; [simpl; apply create_is_not_publish|].
    eapply Forall_impl; [apply quiet_not_publish, Hq|]. by intros e (_ & ? & _).
  - destruct (create_failure_reported (image_payload cfg media_url caption)
                (lit "Create image failed: ") (lit "Posting image error: ")
                (fun e => [lit "Posting image error:"; exn_str e])
                (publish cfg (lit "Publish image failed: ")) w w1 o Hv
                ltac:(rewrite lit_length; simpl; lia) Hpost Hid)
      as (w2 & t & Hrun & Hq & Hn).
    exists w2, t. unfold post_image_to_instagram, image_job. rewrite Hrun.
    split; [reflexivity|]. split; [exact Hq|]. split; [|exact Hn].
    constructor; [simpl; apply create_is_not_publish|].
    eapply Forall_impl; [apply quiet_not_publish, Hq|]. by intros e (_ & ? & _).
Qed.

(** A [try] whose handler only reports always returns. *)
Lemma guarded_returns (body : M W unit) (message : exn -> pystr)
    (line : exn -> list pystr) (w : W) :
  exists w' t,
    try_except body
      (fun e => send_telegram cfg (message e) ;;; emit (EPrint (line e))) w
    = (Ok tt, w', t).
Proof.
  unfold try_except. destruct (body w) as [[[[]|e] w1] t1]; [eauto|].
  destruct (report_returns (message e) (line e) w1) as (w2 & t2 & -> & _).
  eauto.
Qed.

(** When the body raises, the handler gives the error to the notifier
    and prints it, and the [try] returns. *)
Lemma guarded_reports (body : M W unit) (message : exn -> pystr)
    (line : exn -> list pystr) (w w1 : W) (e : exn) (t1 : list event) :
  body w = (Raise e, w1, t1) ->
  exists w2 t2,
    send_telegram cfg (message e) w1 = (Ok tt, w2, t2) /\
    try_except body
      (fun e => send_telegram cfg (message e) ;;; emit (EPrint (line e))) w
    = (Ok tt, w2, t1 ++ t2 ++ [EPrint (line e)]).
Proof.
  intros Hbody.
  destruct (send_telegram_returns (message e) w1) as (w2 & t2 & Hs & _).
  exists w2, t2. split; [exact Hs|].
  unfold try_except. rewrite Hbody. cbv beta iota.
  unfold bind, emit. rewrite Hs. reflexivity.
Qed.

Lemma post_video_returns (video_url : json) (caption : pystr) (w : W) :
  exists w' t, post_video_to_instagram cfg video_url caption w = (Ok tt, w', t).
Proof.
  apply (guarded_returns _ (fun e => lit "Posting Reel error: " ++ exn_str e)
           (fun e => [lit "Posting Reel error:"; exn_str e])).
Qed.

Lemma post_image_returns (image_url : json) (caption : pystr) (w : W) :
  exists w' t, post_image_to_instagram cfg image_url caption w = (Ok tt, w', t).
Proof.
  apply (guarded_returns _ (fun e => lit "Posting image error: " ++ exn_str e)
           (fun e => [lit "Posting image error:"; exn_str e])).
Qed.

Lemma post_carousel_returns (image_urls : list json) (caption : pystr) (w : W) :
  exists w' t,
    post_carousel_to_instagram cfg image_urls caption w = (Ok tt, w', t).
Proof.
  apply (guarded_returns _ (fun e => lit "Posting carousel error: " ++ exn_str e)
           (fun e => [lit "Posting carousel error:"; exn_str e])).
Qed.

Lemma child_is_not_parent (url : json) (o : result response) :
  is_parent_create cfg (EPost (create_url cfg) (child_payload cfg url) o) = false
  /\ is_publish cfg (EPost (create_url cfg) (child_payload cfg url) o) = false.
Proof.
  split; [|apply create_is_not_publish].
  unfold is_parent_create. apply andb_false_iff. right. reflexivity.
Qed.

(** The loop over the images makes child-create calls only, and if it
    completes, every one of them came back with an identifier. *)
Lemma create_children_shape (image_urls child_ids : list json) (w w' : W)
    (r : result (list json)) (t : list event) :
  create_children cfg image_urls child_ids w = (r, w', t) ->
  Forall (fun e => is_parent_create cfg e = false /\ is_publish cfg e = false) t /\
  (forall ids, r = Ok ids -> Forall (fun e => is_failed_child cfg e = false) t).
Proof.
  revert child_ids w w' r t. induction image_urls as [|url rest IH];
    intros child_ids w w' r t Hrun.
  - injection Hrun as <- <- <-. split; [constructor|]. intros _ _. constructor.
  - cbn [create_children] in Hrun. unfold bind at 1, post, call_with in Hrun.
    destruct (requests_post _ _ w) as [[rp|e] w1] eqn:Hpost; cbv beta iota in Hrun.
    + pose proof (identifier_of_spec (lit "Create carousel child failed: ") rp w1)
        as Hspec.
      destruct (has_identifier (Ok rp)) eqn:Hid.
      * destruct Hspec as [id Hid']. unfold bind at 1 in Hrun.
        rewrite Hid' in Hrun. cbv beta iota in Hrun.
        destruct (create_children cfg rest (child_ids ++ [id]) w1)
          as [[r' w2] t2] eqn:Hrest.
        destruct (IH _ _ _ _ _ Hrest) as [IH1 IH2].
        injection Hrun as <- <- <-. cbn [app]. split.
        -- constructor; [apply child_is_not_parent|exact IH1].
        -- intros ids ->. constructor; [|by eapply IH2].
           unfold is_failed_child. rewrite Hid. apply andb_false_r.
      * destruct Hspec as [e He]. rewrite (bind_raise _ _ _ _ _ _ He) in Hrun.
        injection Hrun as <- <- <-. cbn [app].
        split; [|intros ids [=]].
        constructor; [apply child_is_not_parent|constructor].
    + injection Hrun as <- <- <-.
      split; [|intros ids [=]].
      constructor; [apply child_is_not_parent|constructor].
Qed.

Lemma parent_is_not_child (caption children : pystr) (o : result response) :
  is_failed_child cfg
    (EPost (create_url cfg) (parent_payload cfg caption children) o) = false.
Proof.
  unfold is_failed_child, is_child_create.
  apply andb_false_iff. left. apply andb_false_iff. right. reflexivity.
Qed.

Lemma publish_is_not_child (creation_id : json) (o : result response) :
  is_failed_child cfg
    (EPost (publish_url cfg) (publish_payload cfg creation_id) o) = false.
Proof.
  unfold is_failed_child, is_child_create.
  apply andb_false_iff. left. apply andb_false_iff. right. reflexivity.
Qed.

(** The second phase makes one call, to the publish endpoint. *)
Lemma publish_shape (what : pystr) (creation_id : json) (w : W) :
  exists r w' o,
    publish cfg what creation_id w
    = (r, w', [EPost (publish_url cfg) (publish_payload cfg creation_id) o]).
Proof.
  unfold publish, bind, post, call_with, raise, ret.
  destruct (requests_post _ _ w) as [[r2|e2] w2]; cbv beta iota.
  - destruct (negb (resp_ok r2)); eauto.
  - eauto.
Qed.

(** What follows the loop makes no child-create call. *)
Lemma carousel_tail_shape (caption : pystr) (child_ids : list json) (w : W) :
  Forall (fun e => is_failed_child cfg e = false)
    (trace_of
       ((children <- lift (py_join_json (lit ",") child_ids) ;;
         parent_r <- post (create_url cfg) (parent_payload cfg caption children) ;;
         creation_id <- identifier_of (lit "Create carousel parent failed: ")
                          parent_r ;;
         publish cfg (lit "Publish carousel failed: ") creation_id) w)).
Proof.
  unfold bind at 1, lift.
  destruct (py_join_json (lit ",") child_ids) as [children|e];
    [|constructor].
  cbv beta iota. unfold bind at 1, post at 1, call_with.
  destruct (requests_post _ _ w) as [[r|e] w1]; cbv beta iota.
  2: { constructor; [apply parent_is_not_child|constructor]. }
  pose proof (identifier_of_spec (lit "Create carousel parent failed: ") r w1)
    as Hspec.
  destruct (has_identifier (Ok r)); destruct Hspec as [x Hx].
  - unfold bind at 1. rewrite Hx. cbv beta iota.
    destruct (publish_shape (lit "Publish carousel failed: ") x w1)
      as (r2 & w2 & o2 & ->).
    constructor; [apply parent_is_not_child|].
    constructor; [apply publish_is_not_child|constructor].
  - rewrite (bind_raise _ _ _ _ _ _ Hx).
    constructor; [apply parent_is_not_child|constructor].
Qed.

Lemma carousel_run (image_urls : list json) (caption : pystr) (w w' : W)
    (r : result unit) (t : list event) :
  post_carousel_to_instagram cfg image_urls caption w = (r, w', t) ->
  Exists (fun e => is_failed_child cfg e = true) t ->
  Forall (fun e => is_parent_create cfg e = false /\ is_publish cfg e = false) t.
Proof.
  unfold post_carousel_to_instagram, carousel_job, try_except.
  unfold bind at 1. intros Hrun Hfailed.
  assert (Hclean : forall l : list event,
            Forall (fun e => is_failed_child cfg e = false) l ->
            Exists (fun e => is_failed_child cfg e = true) l -> False).
  { intros l Hall Hex. apply Exists_exists in Hex as (ev & Hin & Hev).
    rewrite Forall_forall in Hall. by rewrite (Hall ev Hin) in Hev. }
  assert (Hquiet : forall l : list event,
            quiet l -> Forall (fun e => is_failed_child cfg e = false) l).
  { intros l Hq. eapply Forall_impl; [apply quiet_not_publish, Hq|].
    by intros ev (_ & _ & ?). }
  destruct (create_children cfg image_urls [] w) as [[[ids|e] w1] t1] eqn:Hloop;
    destruct (create_children_shape _ _ _ _ _ _ Hloop) as [Hshape Hdone];
    cbv beta iota in Hrun.
  - exfalso. specialize (Hdone ids eq_refl).
    pose proof (carousel_tail_shape caption ids w1) as Htail.
    unfold trace_of in Htail.
    match type of Htail with
    | Forall _ (snd (?tail w1)) =>
        destruct (tail w1) as [[[[]|e] w2] t2] eqn:Htl
    end; cbn [fst snd] in Htail; cbv beta iota in Hrun.
    + injection Hrun as <- <- <-.
      apply (Hclean (t1 ++ t2)); [|exact Hfailed]. apply Forall_app. by split.
    + destruct (report_returns (lit "Posting carousel error: " ++ exn_str e)
                  [lit "Posting carousel error:"; exn_str e] w2)
        as (w3 & t3 & Hr & Hq).
      rewrite Hr in Hrun. injection Hrun as <- <- <-.
      apply (Hclean ((t1 ++ t2) ++ t3)); [|exact Hfailed].
      apply Forall_app. split; [apply Forall_app; by split|by apply Hquiet].
  - destruct (report_returns (lit "Posting carousel error: " ++ exn_str e)
                [lit "Posting carousel error:"; exn_str e] w1)
      as (w3 & t3 & Hr & Hq).
    rewrite Hr in Hrun. injection Hrun as <- <- <-.
    apply Forall_app. split; [exact Hshape|].
    eapply Forall_impl; [apply quiet_not_publish, Hq|].
    by intros ev (? & ? & _).
Qed.

(** C1: in any run of the carousel path, if some child-create call came
    back without an identifier, the run makes no parent-create call and no
    publish call, and the function returns. *)
Theorem failed_child_aborts_carousel (image_urls : list json)
    (caption : pystr) (w : W) :
  Exists (fun e => is_failed_child cfg e = true)
    (trace_of (post_carousel_to_instagram cfg image_urls caption w)) ->
  Forall (fun e => is_parent_create cfg e = false /\ is_publish cfg e = false)
    (trace_of (post_carousel_to_instagram cfg image_urls caption w)) /\
  result_of (post_carousel_to_instagram cfg image_urls caption w) = Ok tt.
Proof.
  intros Hfailed.
  destruct (post_carousel_returns image_urls caption w) as (w' & t & Hrun).
  rewrite Hrun in *. split; [|reflexivity].
  eapply carousel_run; [exact Hrun|exact Hfailed].
Qed.

End Publisher.

Lemma failed_child_aborts_carousel_witness :
  Forall (fun e => is_parent_create sample_config e = false
                   /\ is_publish sample_config e = false)
    (trace_of (post_carousel_to_instagram (I:=plain_interp)
                 (B:=scripted (rejecting 3)) sample_config four_urls
                 (lit "caption") 0%nat)) /\
  result_of (post_carousel_to_instagram (I:=plain_interp)
               (B:=scripted (rejecting 3)) sample_config four_urls
               (lit "caption") 0%nat) = Ok tt.
Proof.
  apply (failed_child_aborts_carousel (I:=plain_interp)
           (B:=scripted (rejecting 3)) sample_config four_urls
           (lit "caption") 0%nat).
  vm_compute. do 3 apply Exists_cons_tl. apply Exists_cons_hd. reflexivity.
Defined.

(** Three children created, the fourth refused: four calls to the
    platform in all, none of them a parent or a publish. *)
Example three_children_then_a_failure :
  List.map (fun e => (is_child_create sample_config e,
                      is_failed_child sample_config e))
    (List.filter is_platform_call
       (trace_of (post_carousel_to_instagram (I:=plain_interp)
                    (B:=scripted (rejecting 3)) sample_config four_urls
                    (lit "caption") 0%nat)))
  = [(true, false); (true, false); (true, false); (true, true)].
Proof. vm_compute. reflexivity. Qed.

Lemma missing_identifier_stops_publish_witness :
  Forall (fun e => is_publish sample_config e = false)
    (trace_of (post_video_to_instagram (I:=plain_interp)
                 (B:=scripted (rejecting 0)) sample_config
                 (JStr (lit "https://res.example/reel1.mp4"))
                 (lit "caption") 0%nat)) /\
  Forall (fun e => is_publish sample_config e = false)
    (trace_of (post_image_to_instagram (I:=plain_interp)
                 (B:=scripted (rejecting 0)) sample_config
                 (JStr (lit "https://res.example/reel1.mp4"))
                 (lit "caption") 0%nat)).
Proof.
  destruct (missing_identifier_stops_publish (I:=plain_interp)
              (B:=scripted (rejecting 0)) sample_config
              (JStr (lit "https://res.example/reel1.mp4")) (lit "caption")
              0%nat 1%nat rejected eq_refl eq_refl) as [Hvideo Himage].
  destruct (Hvideo eq_refl) as (? & ? & _ & _ & Hv & _).
  destruct (Himage eq_refl) as (? & ? & _ & _ & Hi & _).
  split; [exact Hv|exact Hi].
Defined.

(** ** Speech and the reel *)

Section Speech.
Context {I : Interp} {W : Type} {B : Backend W}.
Variable cfg : config.

Lemma filter_none {A} (p : A -> bool) (l : list A) :
  Forall (fun x => p x = false) l -> List.filter p l = [].
Proof.
  induction 1 as [|x l Hx Hl IH]; simpl; [reflexivity|]. by rewrite Hx.
Qed.

(** A text of hashtag lines only has no spoken part. *)
Lemma only_hashtag_lines (text : pystr) :
  Forall (fun line => contains hash line = true) (splitlines text) ->
  without_hashtag_lines text = [].
Proof.
  intros Hall. unfold without_hashtag_lines. rewrite filter_none; [reflexivity|].
  eapply Forall_impl; [exact Hall|]. intros line ->. reflexivity.
Qed.

(** C9: when every line of the text contains [#], [create_tts] hands the
    empty string to the speech backend, while [create_reel_video] puts the
    raw script on screen: the chunks it renders are the chunks of the raw
    script. *)
Theorem hashtag_only_text_is_spoken_empty (text : pystr) :
  Forall (fun line => contains hash line = true) (splitlines text) ->
  (forall filename voice w,
     exists t, trace_of (create_tts cfg text filename voice w)
               = ETts [] filename voice :: t) /\
  screen_text text = text /\
  (forall audio_file output_file w chunks,
     split_script_into_chunks text 10 = Ok chunks -> chunks <> [] ->
     exists t, trace_of (create_reel_video cfg text audio_file output_file w)
               = ERenderReel chunks audio_file output_file :: t).
Proof.
  intros Hall. pose proof (only_hashtag_lines text Hall) as Hspoken.
  assert (Hscreen : screen_text text = text).
  { unfold screen_text. rewrite Hspoken. reflexivity. }
  split; [|split; [exact Hscreen|]].
  - intros filename voice w. unfold create_tts. rewrite Hspoken. cbv zeta.
    rewrite trace_try, trace_bind. unfold call at 1, trace_of at 1.
    destruct (tts_save [] filename voice w) as [r w1]. cbn [fst snd app].
    eauto.
  - intros audio_file output_file w chunks Hchunks Hne.
    unfold create_reel_video. rewrite Hscreen, Hchunks. cbv zeta.
    destruct chunks as [|c chunks]; [done|].
    rewrite trace_try, trace_bind.
    unfold lift, result_of, world_of, trace_of. cbn [fst snd app].
    unfold bind at 1, call at 1.
    destruct (render_reel _ _ _ w) as [r w1]. cbv beta iota.
    destruct r; cbn [fst snd app]; eauto.
Qed.

End Speech.

(** A script of two hashtag lines: nothing is spoken, both lines are shown. *)
Lemma hashtag_only_text_is_spoken_empty_witness :
  screen_text (lit "#English" ++ newline ++ lit "#Learning")
  = lit "#English" ++ newline ++ lit "#Learning".
Proof.
  apply (hashtag_only_text_is_spoken_empty (I:=plain_interp)
           (B:=scripted wednesday) sample_config
           (lit "#English" ++ newline ++ lit "#Learning")).
  vm_compute. repeat constructor.
Defined.

(** ** The schedule resolver *)

Section Resolver.
Context {I : Interp} {W : Type} {B : Backend W}.

Lemma choice_member {A} (d : nat) (l : list A) :
  l <> [] -> exists x, choice d l = Ok x /\ l !! (d mod length l)%nat = Some x.
Proof.
  intros Hne. unfold choice.
  destruct (l !! (d mod length l)%nat) as [x|] eqn:Hx; [eauto|].
  apply lookup_ge_None in Hx. destruct l as [|a l]; [done|].
  pose proof (Nat.mod_upper_bound d (length (a :: l))) as Hlt.
  simpl in *. lia.
Qed.

(** On a usable row the resolver returns its theme and the subtopic the
    draw points at. *)
Lemma theme_and_topic_of_run (r : row) (theme : option pystr)
    (subs : list pystr) (d : nat) (w w1 : W) :
  row_get r (lit "Theme") = Ok theme ->
  row_subtopics r = Ok subs -> subs <> [] ->
  random_draw w = (d, w1) ->
  exists s, theme_and_topic_of r w = (Ok (theme, s), w1, []) /\
            subs !! (d mod length subs)%nat = Some s.
Proof.
  intros Htheme Hsubs Hne Hdraw. unfold row_subtopics in Hsubs.
  destruct (choice_member d subs Hne) as (s & Hs & Hlook).
  exists s. split; [|exact Hlook].
  unfold theme_and_topic_of, bind, lift, ask, ret. rewrite Htheme.
  destruct (row_get r (lit "SubTopics")) as [cell|e]; [|done].
  rewrite Hsubs, Hdraw, Hs. reflexivity.
Qed.

Lemma scan_rows_skip (today_day : Z) (r : row) (rows : list row) (d : Z) (w : W) :
  row_day r = Ok d -> d <> today_day ->
  scan_rows today_day (r :: rows) w = scan_rows today_day rows w.
Proof.
  intros Hday Hne. unfold row_day in Hday. cbn [scan_rows].
  unfold bind at 1, lift at 1.
  destruct (row_get r (lit "Day")) as [cell|e]; [|done].
  unfold bind at 1, lift at 1. rewrite Hday.
  destruct (Z.eqb_spec d today_day); [done|].
  by destruct (scan_rows today_day rows w) as [[? ?] ?].
Qed.

(** A table without a row for the day is scanned to its end. *)
Lemma scan_rows_no_match (today_day : Z) (rows : list row) (w : W) :
  Forall (fun r => exists d, row_day r = Ok d /\ d <> today_day) rows ->
  scan_rows today_day rows w = (Ok None, w, []).
Proof.
  induction 1 as [|r rows (d & Hd & Hne) _ IH]; [reflexivity|].
  by rewrite (scan_rows_skip today_day r rows d w Hd Hne).
Qed.

(** The scan stops at the first row of the day. *)
Lemma scan_rows_first_match (today_day : Z) (before after : list row)
    (r : row) (res : option pystr * pystr) (w w1 : W) :
  Forall (fun x => exists d, row_day x = Ok d /\ d <> today_day) before ->
  row_day r = Ok today_day ->
  theme_and_topic_of r w = (Ok res, w1, []) ->
  scan_rows today_day (before ++ r :: after) w = (Ok (Some res), w1, []).
Proof.
  intros Hbefore Hday Hrun.
  induction Hbefore as [|x before (d & Hd & Hne) _ IH]; cbn [app].
  - unfold row_day in Hday. cbn [scan_rows]. unfold bind at 1, lift at 1.
    destruct (row_get r (lit "Day")) as [cell|e]; [|done].
    unfold bind at 1, lift at 1. rewrite Hday, Z.eqb_refl.
    unfold bind, ret. rewrite Hrun. reflexivity.
  - by rewrite (scan_rows_skip today_day x _ d w Hd Hne).
Qed.

(** A well-formed table with a row for the day splits at the first one. *)
Lemma first_match_split (today_day : Z) (rows : list row) :
  Forall well_formed_row rows -> Exists (row_matches today_day) rows ->
  exists before r after,
    rows = before ++ r :: after /\
    Forall (fun x => exists d, row_day x = Ok d /\ d <> today_day) before /\
    row_matches today_day r.
Proof.
  intros Hwf. induction Hwf as [|x rows (d & _ & _ & Hd & _) Hwf IH];
    intros Hex; [by apply Exists_nil in Hex|].
  destruct (Z.eq_dec d today_day) as [->|Hne].
  - exists [], x, rows. split; [reflexivity|]. split; [constructor|exact Hd].
  - apply Exists_cons in Hex as [Hx|Hex].
    + unfold row_matches in Hx. congruence.
    + destruct (IH Hex) as (before & r & after & -> & Hbefore & Hr).
      exists (x :: before), r, after. split; [reflexivity|].
      split; [|exact Hr]. constructor; [eauto|exact Hbefore].
Qed.

Lemma pick_run (rows : list row) (days : nat) (w w1 w2 : W) :
  read_schedule CSV_FILE w = (Ok rows, w1) ->
  utcnow_days w1 = (days, w2) ->
  pick_today_theme_and_topic w
  = (found <- scan_rows (Z.of_nat (days mod 7) + 1) rows ;;
     match found with
     | Some res => ret res
     | None =>
         match rows with
         | first :: _ => theme_and_topic_of first
         | [] => raise (fault_exn IndexError EmptyIndex)
         end
     end) w2.
Proof.
  intros Hread Hdays. unfold pick_today_theme_and_topic.
  unfold bind at 1, ask_result. rewrite Hread.
  unfold bind at 1, ask. rewrite Hdays. cbv beta iota zeta.
  match goal with
  | |- context [bind ?m ?k w2] => destruct (bind m k w2) as [[? ?] ?]
  end.
  reflexivity.
Qed.

(** C6, as amended: today's weekday is between 1 and 7; when the table
    has a row for it, every row before the first such row has an integer
    day, and that first row has a theme cell and at least one subtopic
    that is not blank, the resolver returns the theme of that row and the
    subtopic of that row's list that the random draw selects; the rows
    after it are not read. *)
Theorem matching_day_gives_row_theme (before after : list row) (r : row)
    (theme : option pystr) (subs : list pystr) (days d : nat)
    (w w1 w2 w3 : W) :
  read_schedule CSV_FILE w = (Ok (before ++ r :: after), w1) ->
  utcnow_days w1 = (days, w2) ->
  random_draw w2 = (d, w3) ->
  let today_day := Z.of_nat (days mod 7) + 1 in
  Forall (fun x => exists k, row_day x = Ok k /\ k <> today_day) before ->
  row_matches today_day r ->
  row_get r (lit "Theme") = Ok theme ->
  row_subtopics r = Ok subs -> subs <> [] ->
  1 <= today_day <= 7 /\
  exists s,
    pick_today_theme_and_topic w = (Ok (theme, s), w3, []) /\
    s ∈ subs /\ subs !! (d mod length subs)%nat = Some s.
Proof.
  intros Hread Hdays Hdraw today_day Hbefore Hr Htheme Hsubs Hne.
  split. { pose proof (Nat.mod_upper_bound days 7). unfold today_day. lia. }
  destruct (theme_and_topic_of_run r theme subs d w2 w3 Htheme Hsubs Hne Hdraw)
    as (s & Hrun & Hlook).
  exists s. split; [|split; [by eapply list_elem_of_lookup_2|exact Hlook]].
  rewrite (pick_run _ days w w1 w2 Hread Hdays). fold today_day.
  unfold bind.
  rewrite (scan_rows_first_match today_day before after r _ w2 w3 Hbefore Hr Hrun).
  reflexivity.
Qed.

(** C4, as amended: on a table whose rows all have a day other than
    today's, the resolver returns, if the first row has a theme cell and a
    subtopic, the first row's theme and the subtopic of the first row that
    the random draw selects; the choice of the row is determined, and so
    is that of the subtopic when the row lists a single one. *)
Theorem no_match_falls_back_to_first_row (first : row) (rest : list row)
    (theme : option pystr) (subs : list pystr) (days d : nat)
    (w w1 w2 w3 : W) :
  read_schedule CSV_FILE w = (Ok (first :: rest), w1) ->
  utcnow_days w1 = (days, w2) ->
  random_draw w2 = (d, w3) ->
  let today_day := Z.of_nat (days mod 7) + 1 in
  Forall (fun r => exists k, row_day r = Ok k /\ k <> today_day) (first :: rest) ->
  row_get first (lit "Theme") = Ok theme ->
  row_subtopics first = Ok subs -> subs <> [] ->
  exists s,
    pick_today_theme_and_topic w = (Ok (theme, s), w3, []) /\
    subs !! (d mod length subs)%nat = Some s /\
    (forall only, subs = [only] -> s = only).
Proof.
  intros Hread Hdays Hdraw today_day Hnone Htheme Hsubs Hne.
  destruct (theme_and_topic_of_run first theme subs d w2 w3 Htheme Hsubs Hne Hdraw)
    as (s & Hrun & Hlook).
  exists s. split; [|split; [exact Hlook|]].
  - rewrite (pick_run _ days w w1 w2 Hread Hdays). fold today_day.
    unfold bind. rewrite (scan_rows_no_match today_day _ w2 Hnone).
    rewrite Hrun. reflexivity.
  - intros only ->. change (length [only]) with 1%nat in Hlook.
    rewrite Nat.mod_1_r in Hlook. by injection Hlook.
Qed.

End Resolver.

(** Scenario A of the specification, the row of day 3 on a Wednesday; and
    the same row followed by a row whose day reads [Wed]. *)
Lemma matching_day_gives_row_theme_witness :
  pick_today_theme_and_topic (I:=plain_interp) (B:=scripted wednesday) 0%nat
  = (Ok (Some (lit "Phrasal Verbs"), lit "give up"), 0%nat, []) /\
  pick_today_theme_and_topic (I:=plain_interp)
    (B:=scripted unreadable_day_last) 0%nat
  = (Ok (Some (lit "Phrasal Verbs"), lit "give up"), 0%nat, []).
Proof.
  split.
  - destruct (matching_day_gives_row_theme (I:=plain_interp)
                (B:=scripted wednesday) [] []
                (schedule_row "3" "Phrasal Verbs" "give up, look forward to")
                (Some (lit "Phrasal Verbs"))
                [lit "give up"; lit "look forward to"]
                2 0 0%nat 0%nat 0%nat 0%nat eq_refl eq_refl eq_refl)
      as [_ (s & Hrun & _ & Hlook)].
    + constructor.
    + vm_compute. reflexivity.
    + vm_compute. reflexivity.
    + vm_compute. reflexivity.
    + discriminate.
    + vm_compute in Hlook. injection Hlook as <-. exact Hrun.
  - destruct (matching_day_gives_row_theme (I:=plain_interp)
                (B:=scripted unreadable_day_last) []
                [schedule_row "Wed" "Idioms" "a piece of cake"]
                (schedule_row "3" "Phrasal Verbs" "give up, look forward to")
                (Some (lit "Phrasal Verbs"))
                [lit "give up"; lit "look forward to"]
                2 0 0%nat 0%nat 0%nat 0%nat eq_refl eq_refl eq_refl)
      as [_ (s & Hrun & _ & Hlook)].
    + constructor.
    + vm_compute. reflexivity.
    + vm_compute. reflexivity.
    + vm_compute. reflexivity.
    + discriminate.
    + vm_compute in Hlook. injection Hlook as <-. exact Hrun.
Defined.

(** C6, as stated, fails: a row for the day does not make the resolver
    return.  On a Wednesday, day 3, each of three tables has a row whose
    day is 3, and the resolver raises: behind a row whose day reads [Wed]
    the error of [int]; on a row that lists blanks only the error of
    [random.choice]; without a Theme column the error of the missing
    key. *)
Lemma row_for_today_does_not_suffice :
  (has_row_for_today unreadable_day /\
   pick_today_theme_and_topic (I:=plain_interp) (B:=scripted unreadable_day) 0%nat
   = (Raise (Exn ValueError (lit "<fault>")), 0%nat, [])) /\
  (has_row_for_today blank_topics /\
   pick_today_theme_and_topic (I:=plain_interp) (B:=scripted blank_topics) 0%nat
   = (Raise (Exn IndexError (lit "<fault>")), 0%nat, [])) /\
  (has_row_for_today no_theme_column /\
   pick_today_theme_and_topic (I:=plain_interp) (B:=scripted no_theme_column) 0%nat
   = (Raise (Exn KeyError (lit "<fault>")), 0%nat, [])).
Proof.
  split; [|split]; (split; [eexists; split; [reflexivity|]|reflexivity]).
  - apply Exists_cons_tl, Exists_cons_hd. vm_compute. reflexivity.
  - apply Exists_cons_hd. vm_compute. reflexivity.
  - apply Exists_cons_hd. vm_compute. reflexivity.
Qed.

Lemma no_match_falls_back_to_first_row_witness :
  exists s,
    pick_today_theme_and_topic (I:=plain_interp) (B:=scripted monday_only) 0%nat
    = (Ok (Some (lit "Tenses"), s), 0%nat, []) /\
    [lit "past"; lit "future"] !! 0%nat = Some s.
Proof.
  destruct (no_match_falls_back_to_first_row (I:=plain_interp)
              (B:=scripted monday_only)
              (schedule_row "1" "Tenses" "past, future") []
              (Some (lit "Tenses")) [lit "past"; lit "future"]
              2 0 0%nat 0%nat 0%nat 0%nat eq_refl eq_refl eq_refl)
    as (s & Hrun & Hlook & _).
  - repeat constructor. exists 1. split; [vm_compute; reflexivity|discriminate].
  - vm_compute. reflexivity.
  - vm_compute. reflexivity.
  - discriminate.
  - exists s. split; [exact Hrun|exact Hlook].
Defined.

(** C4, as stated, fails: on one table and one day, with no row for the
    day, two draws of the random generator make the resolver return two
    different subtopics of the first row. *)
Lemma fallback_subtopic_follows_the_draw :
  result_of (pick_today_theme_and_topic (I:=plain_interp)
               (B:=scripted (with_draw 0 monday_only)) 0%nat)
  = Ok (Some (lit "Tenses"), lit "past") /\
  result_of (pick_today_theme_and_topic (I:=plain_interp)
               (B:=scripted (with_draw 1 monday_only)) 0%nat)
  = Ok (Some (lit "Tenses"), lit "future") /\
  result_of (pick_today_theme_and_topic (I:=plain_interp)
               (B:=scripted (with_draw 0 monday_only)) 0%nat)
  <> result_of (pick_today_theme_and_topic (I:=plain_interp)
                  (B:=scripted (with_draw 1 monday_only)) 0%nat).
Proof.
  split; [vm_compute; reflexivity|]. split; [vm_compute; reflexivity|].
  vm_compute. discriminate.
Qed.

(** ** The orchestrator *)

(** One step of a sequence whose first part is known. *)
Ltac step H := unfold bind at 1; rewrite H; cbv beta iota.

Section Orchestrator.
Context {I : Interp} {W : Type} {B : Backend W}.
Variable cfg : config.

(** A [try] whose handler reports and gives [None] always returns; it is
    as quiet as its body, and what it returns other than [None] its body
    returned. *)
Lemma guarded_option_returns {A} (body : M W (option A))
    (message : exn -> pystr) (line : exn -> list pystr) (w : W) :
  quiet (trace_of (body w)) ->
  exists r w' t,
    try_except body
      (fun e => send_telegram cfg (message e) ;;;
                emit (EPrint (line e)) ;;; ret None) w
    = (Ok r, w', t) /\
    quiet t /\
    (forall x, r = Some x -> result_of (body w) = Ok (Some x)).
Proof.
  unfold try_except, trace_of, result_of.
  destruct (body w) as [[[x|e] w1] t1]; cbn [fst snd]; intros Hq.
  - exists x, w1, t1. split; [reflexivity|]. split; [exact Hq|]. by intros ? ->.
  - destruct (send_telegram_returns cfg (message e) w1) as (w2 & t2 & Hs & Hq2).
    step Hs. unfold bind, emit, ret. exists None. do 2 eexists.
    split; [reflexivity|]. split; [|intros x [=]].
    apply quiet_app; [exact Hq|]. apply quiet_app; [exact Hq2|repeat constructor].
Qed.

(** The uploader always returns, calls no platform, and a URL it returns
    is a true value. *)
Lemma upload_returns (path : pystr) (w : W) :
  exists r w' t,
    upload_to_cloudinary cfg path w = (Ok r, w', t) /\ quiet t /\
    truthy_url r = match r with Some _ => true | None => false end.
Proof.
  unfold upload_to_cloudinary.
  match goal with
  | |- context [try_except ?body _ w] =>
      destruct (guarded_option_returns body
                  (fun e => lit "Cloudinary upload failed for " ++ path
                            ++ lit ": " ++ exn_str e)
                  (fun e => [lit "Cloudinary upload error:"; exn_str e]) w)
        as (r & w' & t & Hrun & Hq & Hsome);
      [|exists r, w', t; split; [exact Hrun|]; split; [exact Hq|]]
  end.
  - unfold bind, call, raise, ret, trace_of.
    destruct (cloudinary_upload path w) as [[res|e] w1]; cbv beta iota.
    + destruct (dict_get (lit "secure_url") res) as [u|];
        [destruct (truthy_json u)|]; repeat constructor.
    + repeat constructor.
  - destruct r as [u|]; [|reflexivity]. specialize (Hsome u eq_refl).
    revert Hsome. unfold bind, call, raise, ret, result_of.
    destruct (cloudinary_upload path w) as [[res|e] w1]; cbv beta iota;
      [|discriminate].
    destruct (dict_get (lit "secure_url") res) as [u'|]; [|discriminate].
    destruct (truthy_json u') eqn:Htrue; cbn [fst]; [|discriminate].
    intros [= <-]. exact Htrue.
Qed.

Lemma create_tts_returns (text filename voice : pystr) (w : W) :
  exists r w' t, create_tts cfg text filename voice w = (Ok r, w', t) /\ quiet t.
Proof.
  unfold create_tts. cbv zeta.
  match goal with
  | |- context [try_except ?body _ w] =>
      destruct (guarded_option_returns body
                  (fun e => lit "TTS failed: " ++ exn_str e)
                  (fun e => [lit "TTS error:"; exn_str e]) w)
        as (r & w' & t & Hrun & Hq & _); [|by eauto]
  end.
  unfold bind, call, ret, trace_of.
  destruct (tts_save _ filename voice w) as [[[]|e] w1]; repeat constructor.
Qed.

Lemma create_reel_video_returns (script : pystr) (audio_file : option pystr)
    (output_file : pystr) (w : W) :
  exists r w' t,
    create_reel_video cfg script audio_file output_file w = (Ok r, w', t) /\
    quiet t.
Proof.
  unfold create_reel_video. cbv zeta.
  match goal with
  | |- context [try_except ?body _ w] =>
      destruct (guarded_option_returns body
                  (fun e => lit "Reel creation failed: " ++ exn_str e)
                  (fun e => [lit "Reel creation error:"; exn_str e]) w)
        as (r & w' & t & Hrun & Hq & _); [|by eauto]
  end.
  unfold bind at 1, lift.
  destruct (split_script_into_chunks (screen_text script) 10) as [chunks|e];
    cbv beta iota; [|constructor].
  destruct chunks as [|c chunks]; [constructor|].
  unfold bind, call, ret, trace_of.
  destruct (render_reel _ audio_file output_file w) as [[[]|e] w1];
    repeat constructor.
Qed.

Lemma create_image_returns (text filename : pystr) (title : option pystr)
    (w : W) :
  exists r w' t, create_image cfg text filename title w = (Ok r, w', t) /\ quiet t.
Proof.
  unfold create_image.
  match goal with
  | |- context [try_except ?body _ w] =>
      destruct (guarded_option_returns body
                  (fun e => lit "Image creation failed: " ++ exn_str e)
                  (fun e => [lit "Image creation error:"; exn_str e]) w)
        as (r & w' & t & Hrun & Hq & _); [|by eauto]
  end.
  unfold bind, call, ret, trace_of.
  destruct (draw_image text filename title w) as [[[]|e] w1]; repeat constructor.
Qed.

Lemma carousel_texts_for_returns (theme : option pystr) (sub_topic : pystr)
    (indices : list nat) (w : W) :
  exists r w' t,
    carousel_texts_for theme sub_topic indices w = (Ok r, w', t) /\ quiet t.
Proof.
  revert w. induction indices as [|i rest IH]; intros w; cbn [carousel_texts_for].
  - do 3 eexists. split; [reflexivity|constructor].
  - destruct (generate_piece_returns (lit "Carousel slide " ++ str_of_nat i)
                theme sub_topic w) as (x & w1 & t1 & Hg & Hq1).
    step Hg. destruct (IH w1) as (xs & w2 & t2 & Hrest & Hq2).
    step Hrest. unfold ret. do 3 eexists. split; [reflexivity|].
    apply quiet_app; [exact Hq1|]. apply quiet_app; [exact Hq2|constructor].
Qed.

Lemma draw_slides_returns (theme : option pystr) (i : nat) (texts : list pystr)
    (carousel_files : list pystr) (w : W) :
  exists r w' t,
    draw_slides cfg theme i texts carousel_files w = (Ok r, w', t) /\ quiet t.
Proof.
  revert i carousel_files w. induction texts as [|text rest IH];
    intros i carousel_files w; cbn [draw_slides].
  - do 3 eexists. split; [reflexivity|constructor].
  - destruct (create_image_returns text
                (lit "carousel" ++ str_of_nat i ++ lit ".png")
                (Some (str_opt theme ++ lit " - Slide " ++ str_of_nat i)) w)
      as (f & w1 & t1 & Hf & Hq1).
    step Hf.
    destruct (IH (S i)
                (if truthy_opt f then carousel_files ++ [str_opt f]
                 else carousel_files) w1) as (r & w2 & t2 & -> & Hq2).
    do 3 eexists. split; [reflexivity|]. by apply quiet_app.
Qed.

(** Everything before the first upload returns and calls no platform. *)
Lemma produce_returns (theme : option pystr) (sub_topic : pystr) (w : W) :
  exists assets w' t,
    produce cfg theme sub_topic w = (Ok assets, w', t) /\ quiet t.
Proof.
  unfold produce.
  destruct (generate_piece_returns (lit "20-second Reel script") theme
              sub_topic w) as (s1 & w1 & t1 & H1 & Hq1). step H1.
  destruct (generate_piece_returns (lit "another 20-second Reel script") theme
              sub_topic w1) as (s2 & w2 & t2 & H2 & Hq2). step H2.
  destruct (generate_piece_returns
              (lit "Static post caption with poll-style CTA") theme
              sub_topic w2) as (s3 & w3 & t3 & H3 & Hq3). step H3.
  destruct (carousel_texts_for_returns theme sub_topic [1; 2; 3; 4]%nat w3)
    as (ts & w4 & t4 & H4 & Hq4). step H4.
  destruct (create_tts_returns s1 (lit "reel1_audio.mp3") default_voice w4)
    as (a1 & w5 & t5 & H5 & Hq5). step H5.
  destruct (create_tts_returns s2 (lit "reel2_audio.mp3") default_voice w5)
    as (a2 & w6 & t6 & H6 & Hq6). step H6.
  destruct (create_reel_video_returns s1 a1 (lit "reel1.mp4") w6)
    as (f1 & w7 & t7 & H7 & Hq7). step H7.
  destruct (create_reel_video_returns s2 a2 (lit "reel2.mp4") w7)
    as (f2 & w8 & t8 & H8 & Hq8). step H8.
  destruct (create_image_returns s3 (lit "post.png")
              (Some (str_opt theme ++ lit ": " ++ sub_topic)) w8)
    as (pf & w9 & t9 & H9 & Hq9). step H9.
  destruct (draw_slides_returns theme 1 ts [] w9)
    as (cf & w10 & t10 & H10 & Hq10). step H10.
  unfold ret. do 3 eexists. split; [reflexivity|].
  repeat (apply quiet_app; [assumption|]). constructor.
Qed.

Lemma upload_slides_returns (files : list pystr) (urls : list json) (w : W) :
  exists r w' t, upload_slides cfg files urls w = (Ok r, w', t) /\ quiet t.
Proof.
  revert urls w. induction files as [|f rest IH]; intros urls w;
    cbn [upload_slides].
  - do 3 eexists. split; [reflexivity|constructor].
  - destruct (upload_returns f w) as (u & w1 & t1 & Hu & Hq1 & _). step Hu.
    destruct (IH (if truthy_url u then urls ++ [url_value u] else urls) w1)
      as (r & w2 & t2 & -> & Hq2).
    do 3 eexists. split; [reflexivity|]. by apply quiet_app.
Qed.

Lemma carousel_block_returns (carousel_files : list pystr)
    (theme : option pystr) (sub_topic : pystr) (w : W) :
  exists w' t, carousel_block cfg carousel_files theme sub_topic w = (Ok tt, w', t).
Proof.
  unfold carousel_block.
  destruct (4 <=? length carousel_files)%nat; [|by do 2 eexists].
  destruct (upload_slides_returns (py_slice carousel_files 0 4) [] w)
    as (urls & w1 & t1 & Hu & _). step Hu.
  destruct (length urls =? 4)%nat; [|by do 2 eexists].
  destruct (post_carousel_returns cfg urls (carousel_caption theme sub_topic) w1)
    as (w2 & t2 & ->).
  by do 2 eexists.
Qed.

(** A reel block whose upload gave a URL publishes and then sleeps. *)
Lemma reel_block_after_upload (reel_file : option pystr) (script : pystr)
    (u : json) (w w1 : W) (t1 : list event) :
  truthy_opt reel_file = true ->
  upload_to_cloudinary cfg (str_opt reel_file) w = (Ok (Some u), w1, t1) ->
  exists w2 t2,
    post_video_to_instagram cfg u script w1 = (Ok tt, w2, t2) /\
    reel_block cfg reel_file script w = (Ok tt, w2, t1 ++ t2 ++ [ESleep 120]).
Proof.
  intros Hfile Hup.
  destruct (upload_returns (str_opt reel_file) w) as (r & w' & t & Hr & _ & Htrue).
  rewrite Hup in Hr. injection Hr as <- <- <-.
  destruct (post_video_returns cfg u script w1) as (w2 & t2 & Hpost).
  exists w2, t2. split; [exact Hpost|].
  unfold reel_block. rewrite Hfile. step Hup. rewrite Htrue.
  cbn [url_value]. step Hpost. reflexivity.
Qed.

Lemma static_block_after_upload (post_file : option pystr) (caption : pystr)
    (u : json) (w w1 : W) (t1 : list event) :
  truthy_opt post_file = true ->
  upload_to_cloudinary cfg (str_opt post_file) w = (Ok (Some u), w1, t1) ->
  exists w2 t2,
    post_image_to_instagram cfg u caption w1 = (Ok tt, w2, t2) /\
    static_block cfg post_file caption w = (Ok tt, w2, t1 ++ t2 ++ [ESleep 120]).
Proof.
  intros Hfile Hup.
  destruct (upload_returns (str_opt post_file) w) as (r & w' & t & Hr & _ & Htrue).
  rewrite Hup in Hr. injection Hr as <- <- <-.
  destruct (post_image_returns cfg u caption w1) as (w2 & t2 & Hpost).
  exists w2, t2. split; [exact Hpost|].
  unfold static_block. rewrite Hfile. step Hup. rewrite Htrue.
  cbn [url_value]. step Hpost. reflexivity.
Qed.

Lemma cooled_after (t1 t2 : list event) : cooled (t1 ++ t2 ++ [ESleep 120]).
Proof. right. exists (t1 ++ t2). by rewrite app_assoc. Qed.

(** A reel block returns, and respects the cooldown. *)
Lemma reel_block_run (reel_file : option pystr) (script : pystr) (w : W) :
  exists w' t, reel_block cfg reel_file script w = (Ok tt, w', t) /\ cooled t.
Proof.
  destruct (truthy_opt reel_file) eqn:Hfile.
  - destruct (upload_returns (str_opt reel_file) w)
      as ([u|] & w1 & t1 & Hup & Hq & Htrue).
    + destruct (reel_block_after_upload reel_file script u w w1 t1 Hfile Hup)
        as (w2 & t2 & _ & ->).
      do 2 eexists. split; [reflexivity|apply cooled_after].
    + unfold reel_block. rewrite Hfile. step Hup. rewrite Htrue.
      do 2 eexists. split; [reflexivity|]. left. by rewrite app_nil_r.
  - unfold reel_block. rewrite Hfile. do 2 eexists.
    split; [reflexivity|]. left. constructor.
Qed.

Lemma static_block_run (post_file : option pystr) (caption : pystr) (w : W) :
  exists w' t, static_block cfg post_file caption w = (Ok tt, w', t) /\ cooled t.
Proof.
  destruct (truthy_opt post_file) eqn:Hfile.
  - destruct (upload_returns (str_opt post_file) w)
      as ([u|] & w1 & t1 & Hup & Hq & Htrue).
    + destruct (static_block_after_upload post_file caption u w w1 t1 Hfile Hup)
        as (w2 & t2 & _ & ->).
      do 2 eexists. split; [reflexivity|apply cooled_after].
    + unfold static_block. rewrite Hfile. step Hup. rewrite Htrue.
      do 2 eexists. split; [reflexivity|]. left. by rewrite app_nil_r.
  - unfold static_block. rewrite Hfile. do 2 eexists.
    split; [reflexivity|]. left. constructor.
Qed.

(** C10: the three publishers return the same nothing whatever happened
    and never raise, an exception of their body being given to the
    notifier and printed; so in the blocks of the two reels and of the
    static post, once the upload has given a URL, the block ends with the
    sleep of 120 whether the publisher managed to publish or not. *)
Theorem cooldown_follows_upload (media_file : option pystr) (text : pystr)
    (u : json) (w w1 : W) (t1 : list event) :
  truthy_opt media_file = true ->
  upload_to_cloudinary cfg (str_opt media_file) w = (Ok (Some u), w1, t1) ->
  (exists w2 t2,
     post_video_to_instagram cfg u text w1 = (Ok tt, w2, t2) /\
     reel_block cfg media_file text w = (Ok tt, w2, t1 ++ t2 ++ [ESleep 120])) /\
  (exists w2 t2,
     post_image_to_instagram cfg u text w1 = (Ok tt, w2, t2) /\
     static_block cfg media_file text w = (Ok tt, w2, t1 ++ t2 ++ [ESleep 120])) /\
  (forall url caption w',
     result_of (post_video_to_instagram cfg url caption w') = Ok tt) /\
  (forall url caption w',
     result_of (post_image_to_instagram cfg url caption w') = Ok tt) /\
  (forall urls caption w',
     result_of (post_carousel_to_instagram cfg urls caption w') = Ok tt) /\
  (forall url caption w' e w1' t1',
     video_job cfg url caption w' = (Raise e, w1', t1') ->
     exists w2 t2,
       send_telegram cfg (lit "Posting Reel error: " ++ exn_str e) w1'
       = (Ok tt, w2, t2) /\
       post_video_to_instagram cfg url caption w'
       = (Ok tt, w2,
          t1' ++ t2 ++ [EPrint [lit "Posting Reel error:"; exn_str e]])) /\
  (forall url caption w' e w1' t1',
     image_job cfg url caption w' = (Raise e, w1', t1') ->
     exists w2 t2,
       send_telegram cfg (lit "Posting image error: " ++ exn_str e) w1'
       = (Ok tt, w2, t2) /\
       post_image_to_instagram cfg url caption w'
       = (Ok tt, w2,
          t1' ++ t2 ++ [EPrint [lit "Posting image error:"; exn_str e]])) /\
  (forall urls caption w' e w1' t1',
     carousel_job cfg urls caption w' = (Raise e, w1', t1') ->
     exists w2 t2,
       send_telegram cfg (lit "Posting carousel error: " ++ exn_str e) w1'
       = (Ok tt, w2, t2) /\
       post_carousel_to_instagram cfg urls caption w'
       = (Ok tt, w2,
          t1' ++ t2 ++ [EPrint [lit "Posting carousel error:"; exn_str e]])).
Proof.
  intros Hfile Hup.
  split; [by apply reel_block_after_upload|].
  split; [by apply static_block_after_upload|].
  split; [|split; [|split; [|split; [|split]]]].
  - intros url caption w'.
    by destruct (post_video_returns cfg url caption w') as (? & ? & ->).
  - intros url caption w'.
    by destruct (post_image_returns cfg url caption w') as (? & ? & ->).
  - intros urls caption w'.
    by destruct (post_carousel_returns cfg urls caption w') as (? & ? & ->).
  - intros url caption w' e w1' t1' Hbody.
    apply (guarded_reports cfg _
             (fun e => lit "Posting Reel error: " ++ exn_str e)
             (fun e => [lit "Posting Reel error:"; exn_str e]) _ _ _ _ Hbody).
  - intros url caption w' e w1' t1' Hbody.
    apply (guarded_reports cfg _
             (fun e => lit "Posting image error: " ++ exn_str e)
             (fun e => [lit "Posting image error:"; exn_str e]) _ _ _ _ Hbody).
  - intros urls caption w' e w1' t1' Hbody.
    apply (guarded_reports cfg _
             (fun e => lit "Posting carousel error: " ++ exn_str e)
             (fun e => [lit "Posting carousel error:"; exn_str e]) _ _ _ _ Hbody).
Qed.

(** *** The resolver under its [try] *)

Lemma silent_bind {A C} (m : M W A) (k : A -> M W C) (w : W) :
  trace_of (m w) = [] -> (forall a w', trace_of (k a w') = []) ->
  trace_of (bind m k w) = [].
Proof.
  intros Hm Hk. rewrite trace_bind, Hm.
  destruct (result_of (m w)); [apply Hk|reflexivity].
Qed.

Lemma silent_lift {A} (r : result A) (w : W) : trace_of (lift r w) = [].
Proof. reflexivity. Qed.

Lemma silent_ask {A} (f : W -> A * W) (w : W) : trace_of (ask f w) = [].
Proof. unfold ask, trace_of. by destruct (f w). Qed.

Lemma silent_ask_result {A} (f : W -> result A * W) (w : W) :
  trace_of (ask_result f w) = [].
Proof. unfold ask_result, trace_of. by destruct (f w). Qed.

Lemma theme_and_topic_of_silent (r : row) (w : W) :
  trace_of (theme_and_topic_of r w) = [].
Proof.
  unfold theme_and_topic_of.
  repeat (apply silent_bind;
          [first [apply silent_lift | apply silent_ask]|intros ? ?]).
  reflexivity.
Qed.

Lemma scan_rows_silent (today_day : Z) (rows : list row) (w : W) :
  trace_of (scan_rows today_day rows w) = [].
Proof.
  revert w. induction rows as [|r rows IH]; intros w; [reflexivity|].
  cbn [scan_rows].
  apply silent_bind; [apply silent_lift|intros cell w1].
  apply silent_bind; [apply silent_lift|intros day w2].
  destruct (day =? today_day); [|apply IH].
  apply silent_bind; [apply theme_and_topic_of_silent|reflexivity].
Qed.

(** The resolver reads and computes; it emits nothing. *)
Lemma pick_silent (w : W) : trace_of (pick_today_theme_and_topic w) = [].
Proof.
  unfold pick_today_theme_and_topic.
  apply silent_bind; [apply silent_ask_result|intros rows w1].
  apply silent_bind; [apply silent_ask|intros days w2]. cbv zeta.
  apply silent_bind; [apply scan_rows_silent|intros found w3].
  destruct found; [reflexivity|].
  destruct rows; [reflexivity|apply theme_and_topic_of_silent].
Qed.

(** [resolve_schedule] returns the topic when the resolver does, and
    otherwise reports, prints the schedule error and gives [None]. *)
Lemma resolve_schedule_run (w : W) :
  (exists res w1 w2 t,
     pick_today_theme_and_topic w = (Ok res, w1, []) /\
     resolve_schedule cfg w = (Ok (Some res), w2, t) /\ quiet t) \/
  (exists e w1 w2 t,
     pick_today_theme_and_topic w = (Raise e, w1, []) /\
     resolve_schedule cfg w
     = (Ok None, w2, t ++ [EPrint [lit "Schedule error:"; exn_str e]]) /\
     quiet t).
Proof.
  pose proof (pick_silent w) as Hsilent. unfold trace_of in Hsilent.
  destruct (pick_today_theme_and_topic w) as [[[res|e] w1] t] eqn:Hpick;
    cbn [snd] in Hsilent; subst t.
  - left.
    destruct (send_telegram_returns cfg
                (lit "Today: Theme = " ++ str_opt (fst res)
                 ++ lit ", Topic = " ++ snd res) w1) as (w2 & t2 & Hs & Hq).
    exists res, w1, w2, t2. split; [reflexivity|]. split; [|exact Hq].
    unfold resolve_schedule, try_except. step Hpick. step Hs.
    unfold ret. by rewrite app_nil_r.
  - right.
    destruct (send_telegram_returns cfg
                (lit "CSV / schedule error: " ++ exn_str e) w1)
      as (w2 & t2 & Hs & Hq).
    exists e, w1, w2, t2. split; [reflexivity|]. split; [|exact Hq].
    unfold resolve_schedule, try_except. step Hpick. step Hs.
    unfold bind, emit, ret. by rewrite app_nil_r.
Qed.

Lemma finish_run (w : W) :
  exists w' t, finish cfg w = (Ok tt, w', t ++ [status_line]) /\ quiet t.
Proof.
  destruct (send_telegram_returns cfg complete_message w) as (w1 & t1 & Hs & Hq).
  exists w1, t1. split; [|exact Hq]. unfold finish. step Hs. reflexivity.
Qed.

(** The whole of [main]: it always returns; either the schedule failed and
    the run ends on the schedule error, or the run is the preparation, the
    four posts in order, and the final status line. *)
Lemma main_run (w : W) :
  exists w0 t0,
    send_telegram cfg started_message w = (Ok tt, w0, t0) /\ quiet t0 /\
    ((exists e w1 w2 t1,
        pick_today_theme_and_topic w0 = (Raise e, w1, []) /\
        main cfg w
        = (Ok tt, w2, t0 ++ t1 ++ [EPrint [lit "Schedule error:"; exn_str e]]) /\
        quiet t1) \/
     (exists theme sub_topic w1 assets w2 w3 w4 t1 t2 t3,
        pick_today_theme_and_topic w0 = (Ok (theme, sub_topic), w1, []) /\
        run_blocks (posts_of cfg theme sub_topic assets) w2 = (t2, w3) /\
        main cfg w
        = (Ok tt, w4, (t0 ++ t1) ++ concat t2 ++ t3 ++ [status_line]) /\
        quiet t1 /\ quiet t3 /\ length t2 = 4%nat /\
        Forall cooled (take 3 t2))).
Proof.
  destruct (send_telegram_returns cfg started_message w) as (w0 & t0 & Hs & Hq0).
  exists w0, t0. split; [exact Hs|]. split; [exact Hq0|].
  destruct (resolve_schedule_run w0)
    as [(res & w1 & w2 & t1 & Hpick & Hres & Hq1)
       |(e & w1 & w2 & t1 & Hpick & Hres & Hq1)].
  - right. destruct res as [theme sub_topic].
    destruct (produce_returns theme sub_topic w2)
      as (assets & w3 & tp & Hprod & Hqp).
    destruct assets as [[[[[[s1 s2] s3] f1] f2] pf] cf] eqn:Hassets.
    destruct (reel_block_run f1 s1 w3) as (w4 & b1 & Hb1 & Hc1).
    destruct (reel_block_run f2 s2 w4) as (w5 & b2 & Hb2 & Hc2).
    destruct (static_block_run pf s3 w5) as (w6 & b3 & Hb3 & Hc3).
    destruct (carousel_block_returns cf theme sub_topic w6) as (w7 & b4 & Hb4).
    destruct (finish_run w7) as (w8 & tf & Hfin & Hqf).
    exists theme, sub_topic, w1, assets, w3, w7, w8, (t1 ++ tp),
      [b1; b2; b3; b4], tf.
    split; [exact Hpick|]. split.
    { subst assets. cbn [posts_of run_blocks].
      rewrite Hb1, Hb2, Hb3, Hb4. reflexivity. }
    split.
    { unfold main. step Hs. step Hres. step Hprod.
      step Hb1. step Hb2. step Hb3. step Hb4. rewrite Hfin.
      cbn [concat]. rewrite app_nil_r, <- !app_assoc. reflexivity. }
    split; [by apply quiet_app|]. split; [exact Hqf|].
    split; [reflexivity|].
    change (take 3 [b1; b2; b3; b4]) with [b1; b2; b3].
    constructor; [exact Hc1|]. constructor; [exact Hc2|].
    constructor; [exact Hc3|constructor].
  - left. exists e, w1, w2, t1. split; [exact Hpick|]. split; [|exact Hq1].
    unfold main. step Hs. step Hres. unfold ret.
    by rewrite app_nil_r.
Qed.

Lemma quiet_last_sleep (seg : list event) :
  cooled seg -> ~ quiet seg -> last seg = Some (ESleep 120).
Proof.
  intros [Hq|[body ->]] Hloud; [done|]. apply last_snoc.
Qed.

(** C8: a run that posts at all is the preparation, then the stretches of
    the four posts in the order reel 1, reel 2, static image, carousel,
    then the closing; only the stretches call the platform, and each of
    the first three that does so ends with the sleep of 120, so that the
    sleep lies between its calls and everything a later post does. *)
Theorem cooldown_between_posts (w : W) :
  quiet (trace_of (main cfg w)) \/
  exists theme sub_topic assets w2 w3 before segments after,
    run_blocks (posts_of cfg theme sub_topic assets) w2 = (segments, w3) /\
    trace_of (main cfg w) = before ++ concat segments ++ after /\
    quiet before /\ quiet after /\ length segments = 4%nat /\
    Forall cooled (take 3 segments) /\
    (forall i j earlier later,
       (i < j)%nat -> segments !! i = Some earlier ->
       segments !! j = Some later -> ~ quiet earlier ->
       last earlier = Some (ESleep 120)).
Proof.
  destruct (main_run w) as (w0 & t0 & Hs & Hq0 & Hcases).
  destruct Hcases
    as [(e & w1 & w2 & t1 & _ & -> & Hq1)
       |(theme & sub_topic & w1 & assets & w2 & w3 & w4 & t1 & t2 & t3
         & _ & Hblocks & -> & Hq1 & Hq3 & Hlen & Hcool)].
  - left. unfold trace_of. cbn [snd].
    apply quiet_app; [exact Hq0|]. apply quiet_app; [exact Hq1|repeat constructor].
  - right. exists theme, sub_topic, assets, w2, w3, (t0 ++ t1), t2,
      (t3 ++ [status_line]).
    split; [exact Hblocks|]. split; [reflexivity|].
    split; [by apply quiet_app|].
    split; [apply quiet_app; [exact Hq3|repeat constructor]|].
    split; [exact Hlen|]. split; [exact Hcool|].
    intros i j earlier later Hij Hi Hj Hloud.
    apply quiet_last_sleep; [|exact Hloud].
    apply lookup_lt_Some in Hj. rewrite Hlen in Hj.
    rewrite Forall_forall in Hcool. apply Hcool.
    apply list_elem_of_lookup. exists i. rewrite lookup_take_lt by lia. exact Hi.
Qed.

End Orchestrator.

Lemma cooldown_follows_upload_witness :
  exists w2 t2,
    post_video_to_instagram (I:=plain_interp) (B:=scripted (rejecting 1))
      sample_config (JStr (lit "https://res.example/reel1.mp4"))
      (lit "script") 0%nat = (Ok tt, w2, t2) /\
    reel_block (I:=plain_interp) (B:=scripted (rejecting 1)) sample_config
      (Some (lit "reel1.mp4")) (lit "script") 0%nat
    = (Ok tt, w2, [EUpload (lit "reel1.mp4")] ++ t2 ++ [ESleep 120]).
Proof.
  apply (cooldown_follows_upload (I:=plain_interp) (B:=scripted (rejecting 1))
           sample_config (Some (lit "reel1.mp4")) (lit "script")
           (JStr (lit "https://res.example/reel1.mp4")) 0%nat 0%nat
           [EUpload (lit "reel1.mp4")]).
  - reflexivity.
  - vm_compute. reflexivity.
Defined.

(** In that run the publish call is refused, and the sleep is taken. *)
Example cooldown_after_refused_publish :
  List.map (fun e => (is_platform_call e, is_publish sample_config e))
    (trace_of (reel_block (I:=plain_interp) (B:=scripted (rejecting 1))
                 sample_config (Some (lit "reel1.mp4")) (lit "script") 0%nat))
  = [(false, false); (true, false); (true, true); (false, false);
     (false, false); (false, false)] /\
  last (trace_of (reel_block (I:=plain_interp) (B:=scripted (rejecting 1))
                    sample_config (Some (lit "reel1.mp4")) (lit "script") 0%nat))
  = Some (ESleep 120).
Proof. split; vm_compute; reflexivity. Qed.

(** ** The exit of the process *)

Section Exit.
Context {I : Interp} {W : Type} {B : Backend W}.

Lemma program_run (getenv : pystr -> option pystr) (w : W) :
  match validate (load_config getenv) with
  | Ok _ => program getenv w = main (load_config getenv) w
  | Raise e => program getenv w = (Raise e, w, [])
  end.
Proof.
  unfold program, bind, lift. cbv zeta.
  destruct (validate (load_config getenv)) as [[]|e]; [|reflexivity].
  by destruct (main (load_config getenv) w) as [[r w'] t].
Qed.

Lemma validate_cases (cfg : config) :
  (missing cfg = [] /\ validate cfg = Ok tt) \/
  (missing cfg <> [] /\ exists e, validate cfg = Raise e).
Proof.
  unfold validate. destruct (missing cfg) as [|name names]; [by left|].
  right. split; [done|eauto].
Qed.

(** An unreadable or empty table makes the resolver raise. *)
Lemma pick_needs_rows (w : W) :
  (forall e w1, read_schedule CSV_FILE w = (Raise e, w1) ->
     result_of (pick_today_theme_and_topic w) = Raise e) /\
  (forall w1, read_schedule CSV_FILE w = (Ok [], w1) ->
     exists e, result_of (pick_today_theme_and_topic w) = Raise e).
Proof.
  split.
  - intros e w1 Hread. unfold pick_today_theme_and_topic, bind, ask_result.
    by rewrite Hread.
  - intros w1 Hread. destruct (utcnow_days w1) as [days w2] eqn:Hdays.
    rewrite (pick_run [] days w w1 w2 Hread Hdays).
    eexists. reflexivity.
Qed.

(** C7: the run ends normally, printing the final status line last,
    exactly when the configuration is complete and the schedule resolver
    returns, whatever happens to the posts; an exception leaves the
    program exactly when the configuration is incomplete; and an
    unreadable or empty table makes the resolver fail. *)
Theorem run_exits (getenv : pystr -> option pystr) (w : W) :
  let cfg := load_config getenv in
  let out := program getenv w in
  let w0 := world_of (send_telegram cfg started_message w) in
  (exits_normally out <->
   missing cfg = [] /\
   exists res, result_of (pick_today_theme_and_topic w0) = Ok res) /\
  ((exists e, result_of out = Raise e) <-> missing cfg <> []) /\
  (missing cfg = [] -> result_of out = Ok tt) /\
  (forall e w1, read_schedule CSV_FILE w0 = (Raise e, w1) ->
     result_of (pick_today_theme_and_topic w0) = Raise e) /\
  (forall w1, read_schedule CSV_FILE w0 = (Ok [], w1) ->
     exists e, result_of (pick_today_theme_and_topic w0) = Raise e).
Proof.
  intros cfg out w0.
  split; [|split; [|split; [|apply pick_needs_rows]]].
  - pose proof (program_run getenv w) as Hprog. fold cfg in Hprog.
    destruct (validate_cases cfg) as [[Hnone Hv]|[Hsome [e Hv]]];
      rewrite Hv in Hprog; subst out; rewrite Hprog.
    + destruct (main_run cfg w) as (w0' & t0 & Hs & _ & Hcases).
      assert (Hw0 : w0 = w0') by (unfold w0; by rewrite Hs). rewrite Hw0.
      destruct Hcases
        as [(e & w1 & w2 & t1 & Hpick & -> & _)
           |(theme & sub_topic & w1 & assets & w2 & w3 & w4 & t1 & t2 & t3
             & Hpick & _ & -> & _)];
        rewrite Hpick; unfold exits_normally, result_of, trace_of; cbn [fst snd].
      * split.
        -- intros [_ Hlast]. rewrite !app_assoc, last_snoc in Hlast. done.
        -- intros [_ [res [=]]].
      * split; [eauto|]. intros _. split; [reflexivity|].
        by rewrite !app_assoc, last_snoc.
    + unfold exits_normally, result_of. cbn [fst]. split; [by intros [[=] _]|].
      by intros [Hnone _].
  - pose proof (program_run getenv w) as Hprog. fold cfg in Hprog.
    destruct (validate_cases cfg) as [[Hnone Hv]|[Hsome [e Hv]]];
      rewrite Hv in Hprog; subst out; rewrite Hprog.
    + destruct (main_run cfg w) as (w0' & t0 & _ & _ & Hcases).
      split; [|by intros ?].
      destruct Hcases
        as [(e & w1 & w2 & t1 & _ & -> & _)
           |(theme & sub_topic & w1 & assets & w2 & w3 & w4 & t1 & t2 & t3
             & _ & _ & -> & _)]; by intros [e' [=]].
    + split; [by intros _|]. intros _. by exists e.
  - intros Hnone. pose proof (program_run getenv w) as Hprog. fold cfg in Hprog.
    destruct (validate_cases cfg) as [[_ Hv]|[Hsome _]]; [|done].
    rewrite Hv in Hprog. subst out. rewrite Hprog.
    destruct (main_run cfg w) as (w0' & t0 & _ & _ & Hcases).
    destruct Hcases
      as [(e & w1 & w2 & t1 & _ & -> & _)
         |(theme & sub_topic & w1 & assets & w2 & w3 & w4 & t1 & t2 & t3
           & _ & _ & -> & _)]; reflexivity.
Qed.

End Exit.

(** A run in which the publish call of the first reel is refused still
    ends on the status line. *)
Lemma run_exits_witness :
  exits_normally (program (I:=plain_interp) (B:=scripted (rejecting 1))
                    full_env 0%nat).
Proof.
  apply (proj1 (run_exits (I:=plain_interp) (B:=scripted (rejecting 1))
                  full_env 0%nat)).
  split; [vm_compute; reflexivity|]. eexists. vm_compute. reflexivity.
Defined.

(** Without the access token the script raises before [main] starts. *)
Example missing_token_is_fatal :
  program (I:=plain_interp) (B:=scripted wednesday) no_token_env 0%nat
  = (Raise (Exn RuntimeError
              (lit "Missing environment variables: INSTAGRAM_ACCESS_TOKEN")),
     0%nat, []).
Proof. vm_compute. reflexivity. Qed.

(** An unreadable table ends the run early: [main] returns, nothing is
    posted, and the last line printed is the schedule error. *)
Example unreadable_table_ends_the_run :
  let out := program (I:=plain_interp)
               (B:=scripted (with_schedule
                              (Raise (Exn LibraryError (lit "no such file")))
                              wednesday))
               full_env 0%nat in
  result_of out = Ok tt /\
  marks (load_config full_env) (trace_of out) = [] /\
  last (trace_of out)
  = Some (EPrint [lit "Schedule error:"; lit "no such file"]).
Proof. vm_compute. repeat split; reflexivity. Qed.

(** The calls and sleeps of a whole run: create and publish of each reel
    and of the static post, each followed by the sleep, then the four
    children, the parent and the publish of the carousel. *)
Example calls_and_sleeps_of_a_run :
  marks (load_config full_env)
    (trace_of (program (I:=plain_interp) (B:=scripted wednesday)
                 full_env 0%nat))
  = [ Call; Publish; Sleep 120;
      Call; Publish; Sleep 120;
      Call; Publish; Sleep 120;
      Call; Call; Call; Call; Call; Publish ].
Proof. vm_compute. reflexivity. Qed.

(** The same when the platform refuses the first create call: the first
    reel is not published, and the sleep is taken all the same. *)
Example calls_and_sleeps_after_a_refusal :
  marks (load_config full_env)
    (trace_of (program (I:=plain_interp) (B:=scripted (rejecting 0))
                 full_env 0%nat))
  = [ Call; Sleep 120;
      Call; Publish; Sleep 120;
      Call; Publish; Sleep 120;
      Call; Call; Call; Call; Call; Publish ].
Proof. vm_compute. reflexivity. Qed.

(** * Further properties of the code *)

(** ** The validation of the environment *)

Lemma filter_nil_Forall {A} (p : A -> bool) (l : list A) :
  List.filter p l = [] <-> Forall (fun x => p x = false) l.
Proof.
  induction l as [|x l IH]; simpl.
  - split; [constructor|reflexivity].
  - destruct (p x) eqn:Hx.
    + split; [discriminate|]. intros Hall. inversion Hall; congruence.
    + rewrite IH. split; [by constructor|]. intros Hall. by inversion Hall.
Qed.

Lemma missing_nil_iff (cfg : config) :
  missing cfg = [] <->
  Forall (fun v => falsy_opt v = false)
    [ ACCESS_TOKEN cfg; INSTA_ID cfg; HUGGINGFACE_TOKEN cfg; HF_MODEL_ID cfg;
      CLOUDINARY_CLOUD_NAME cfg; CLOUDINARY_API_KEY cfg;
      CLOUDINARY_API_SECRET cfg; TELEGRAM_BOT_TOKEN cfg; TELEGRAM_CHAT_ID cfg ].
Proof.
  unfold missing. split.
  - intros Hnil. apply (f_equal (@length pystr)) in Hnil.
    rewrite length_map in Hnil. apply length_zero_iff_nil in Hnil.
    apply filter_nil_Forall in Hnil.
    repeat match goal with
           | H : Forall _ (_ :: _) |- _ => inversion H; clear H; subst
           end.
    by repeat constructor.
  - intros Hall.
    repeat match goal with
           | H : Forall _ (_ :: _) |- _ => inversion H; clear H; subst
           end.
    cbn [List.filter snd].
    repeat match goal with
           | H : falsy_opt _ = false |- _ => rewrite H; clear H
           end.
    reflexivity.
Qed.

(** X1: the script gets past its validation exactly when the eight
    variables without default are set to something non-empty and the model
    id is either unset (the default is taken) or non-empty; set to the
    empty string, the model id is reported missing like the others. *)
Theorem validation_accepts_exactly_complete_environments
    (getenv : pystr -> option pystr) :
  validate (load_config getenv) = Ok tt <->
  Forall (fun name => falsy_opt (getenv name) = false)
    [ lit "INSTAGRAM_ACCESS_TOKEN"; lit "INSTAGRAM_BUSINESS_ID";
      lit "HUGGINGFACE_TOKEN"; lit "CLOUDINARY_CLOUD_NAME";
      lit "CLOUDINARY_API_KEY"; lit "CLOUDINARY_API_SECRET";
      lit "TELEGRAM_BOT_TOKEN"; lit "TELEGRAM_CHAT_ID" ] /\
  getenv (lit "HF_MODEL_ID") <> Some [].
Proof.
  assert (Hv : validate (load_config getenv) = Ok tt
               <-> missing (load_config getenv) = []).
  { unfold validate. by destruct (missing (load_config getenv)). }
  rewrite Hv, missing_nil_iff. cbn [load_config ACCESS_TOKEN INSTA_ID
    HUGGINGFACE_TOKEN HF_MODEL_ID CLOUDINARY_CLOUD_NAME CLOUDINARY_API_KEY
    CLOUDINARY_API_SECRET TELEGRAM_BOT_TOKEN TELEGRAM_CHAT_ID].
  assert (Hid : falsy_opt
                  match getenv (lit "HF_MODEL_ID") with
                  | Some v => Some v
                  | None => Some (lit "meta-llama/Meta-Llama-3-8B-Instruct")
                  end = false
                <-> getenv (lit "HF_MODEL_ID") <> Some []).
  { destruct (getenv (lit "HF_MODEL_ID")) as [[|c v]|]; simpl;
      split; try done. }
  split.
  - intros Hall.
    repeat match goal with
           | H : Forall _ (_ :: _) |- _ => inversion H; clear H; subst
           end.
    split; [by repeat constructor|by apply Hid].
  - intros [Hall Hmodel].
    repeat match goal with
           | H : Forall _ (_ :: _) |- _ => inversion H; clear H; subst
           end.
    repeat constructor; try assumption. by apply Hid.
Qed.

(** A model id set to the empty string stops the script, the default
    notwithstanding. *)
Example empty_model_id_is_missing :
  validate (load_config (fun name =>
                           if pystr_eqb name (lit "HF_MODEL_ID") then Some []
                           else Some (lit "value")))
  = Raise (Exn RuntimeError (lit "Missing environment variables: HF_MODEL_ID")).
Proof. vm_compute. reflexivity. Qed.

(** ** The notifier *)

Section Notifier.
Context {W : Type} {B : Backend W}.
Variable cfg : config.

(** X2: [send_telegram] returns whatever happens; without both
    credentials it does nothing at all; with them it makes one request,
    whose text is the message cut at 4000 characters, and if the request
    raises it prints the failure and goes on. *)
Theorem send_telegram_is_best_effort (message : pystr) (w : W) :
  exists w' t,
    send_telegram cfg message w = (Ok tt, w', t) /\
    Forall (fun e => is_report e = true) t /\
    (falsy_opt (TELEGRAM_BOT_TOKEN cfg) || falsy_opt (TELEGRAM_CHAT_ID cfg) = true ->
     w' = w /\ t = []) /\
    (falsy_opt (TELEGRAM_BOT_TOKEN cfg) || falsy_opt (TELEGRAM_CHAT_ID cfg) = false ->
     exists request rest,
       t = request :: rest /\
       notified_text request = Some (take 4000 message) /\
       (length (take 4000 message) <= 4000)%nat /\
       (rest = [] \/
        exists e, rest = [EPrint [lit "Telegram send failed:"; exn_str e]])).
Proof.
  unfold send_telegram.
  destruct (falsy_opt (TELEGRAM_BOT_TOKEN cfg) || falsy_opt (TELEGRAM_CHAT_ID cfg)).
  - exists w, []. split; [reflexivity|]. split; [constructor|].
    split; [done|discriminate].
  - unfold try_except, call, emit. cbv zeta.
    destruct (requests_get _ _ w) as [[[]|e] w1].
    + do 2 eexists. split; [reflexivity|]. split; [by repeat constructor|].
      split; [discriminate|]. intros _. do 2 eexists. split; [reflexivity|].
      split; [reflexivity|]. split; [|by left].
      rewrite length_take. lia.
    + do 2 eexists. split; [reflexivity|]. split; [by repeat constructor|].
      split; [discriminate|]. intros _. do 2 eexists. split; [reflexivity|].
      split; [reflexivity|]. split; [|right; by exists e].
      rewrite length_take. lia.
Qed.

(** The notifier emits reports only, and returns. *)
Lemma send_telegram_reports (message : pystr) (w : W) :
  exists w' t,
    send_telegram cfg message w = (Ok tt, w', t) /\
    Forall (fun e => is_report e = true) t.
Proof.
  unfold send_telegram.
  destruct (falsy_opt (TELEGRAM_BOT_TOKEN cfg) || falsy_opt (TELEGRAM_CHAT_ID cfg)).
  - exists w, []. split; [reflexivity|constructor].
  - unfold try_except, call, emit. cbv zeta.
    destruct (requests_get _ _ w) as [[[]|e] w1];
      do 2 eexists; (split; [reflexivity|by repeat constructor]).
Qed.

End Notifier.

(** ** The content generator, on every path *)

Section GeneratorPaths.
Context {W : Type} {B : Backend W}.

(** X3: [generate_piece] begins by asking the backend, with the prompt
    built from its arguments, and what it returns has at least 60
    characters on every path; when the answer, stripped, has 60 characters or more, that
    stripped answer is returned and nothing is printed. *)
Theorem generated_piece_is_long_enough (kind : pystr) (theme : option pystr)
    (sub_topic : pystr) (w : W) :
  exists text w' rest,
    generate_piece kind theme sub_topic w
    = (Ok text, w', EGenerate (prompt_of kind theme sub_topic) :: rest) /\
    (60 <= length text)%nat /\
    (forall response w1,
       text_generation (prompt_of kind theme sub_topic) w = (Ok response, w1) ->
       (60 <= length (strip response))%nat ->
       text = strip response /\ w' = w1 /\ rest = []).
Proof.
  unfold generate_piece, try_except, bind, call, raise, ret, emit. cbv zeta.
  destruct (text_generation _ w) as [[response|e] w1].
  - destruct (Nat.ltb_spec (length (strip response)) 60) as [Hshort|Hlong].
    + do 3 eexists. split; [reflexivity|].
      split; [apply fallback_text_length|].
      intros response' w1' [= <- <-] Hlen. lia.
    + do 3 eexists. split; [reflexivity|]. split; [exact Hlong|].
      by intros response' w1' [= <- <-] _.
  - do 3 eexists. split; [reflexivity|].
    split; [apply fallback_text_length|]. intros response' w1' [=].
Qed.

End GeneratorPaths.

(** A backend that answers: the answer comes back without its outer
    spaces. *)
Example generated_piece_is_the_stripped_answer :
  generate_piece (B:=scripted answering) (lit "20-second Reel script")
    (Some (lit "Phrasal Verbs")) (lit "give up") 0%nat
  = (Ok (strip long_answer), 0%nat,
     [EGenerate (prompt_of (lit "20-second Reel script")
                   (Some (lit "Phrasal Verbs")) (lit "give up"))]).
Proof. vm_compute. reflexivity. Qed.

(** ** What is spoken *)

Lemma contains_app (c : N) (a b : pystr) :
  contains c (a ++ b) = contains c a || contains c b.
Proof. apply existsb_app. Qed.

Lemma contains_join (c : N) (sep : pystr) (l : list pystr) :
  contains c sep = false ->
  Forall (fun x => contains c x = false) l ->
  contains c (join sep l) = false.
Proof.
  intros Hsep. induction 1 as [|x l Hx Hl IH]; [reflexivity|].
  destruct l as [|y l]; [exact Hx|].
  change (join sep (x :: y :: l)) with (x ++ sep ++ join sep (y :: l)).
  by rewrite !contains_app, Hx, Hsep, IH.
Qed.

Lemma filter_Forall_true {A} (p : A -> bool) (l : list A) :
  Forall (fun x => p x = true) (List.filter p l).
Proof.
  induction l as [|x l IH]; simpl; [constructor|].
  destruct (p x) eqn:Hx; [by constructor|exact IH].
Qed.

(** No hashtag survives in the spoken text. *)
Lemma spoken_text_has_no_hash (text : pystr) :
  contains hash (without_hashtag_lines text) = false.
Proof.
  unfold without_hashtag_lines. apply contains_join; [reflexivity|].
  eapply Forall_impl; [apply filter_Forall_true|].
  intros line Hline. by apply negb_true_iff in Hline.
Qed.

Section SpeechPaths.
Context {W : Type} {B : Backend W}.
Variable cfg : config.

(** X4: [create_tts] calls the speech backend once, with a text in which
    no [#] is left, and returns the file name exactly when the backend
    returned; when the backend raises it reports and returns [None]. *)
Theorem speech_never_says_a_hashtag (text filename voice : pystr) (w : W) :
  exists r w' rest,
    create_tts cfg text filename voice w
    = (Ok r, w',
       ETts (without_hashtag_lines text) filename voice :: rest) /\
    contains hash (without_hashtag_lines text) = false /\
    Forall (fun e => is_report e = true) rest /\
    (forall w1,
       tts_save (without_hashtag_lines text) filename voice w = (Ok tt, w1) ->
       r = Some filename /\ w' = w1 /\ rest = []) /\
    (forall e w1,
       tts_save (without_hashtag_lines text) filename voice w = (Raise e, w1) ->
       r = None /\
       last rest = Some (EPrint [lit "TTS error:"; exn_str e])).
Proof.
  unfold create_tts, try_except. cbv zeta. unfold bind at 1, call at 1.
  destruct (tts_save _ filename voice w) as [[[]|e] w1]; cbv beta iota.
  - unfold ret. do 3 eexists. split; [reflexivity|].
    split; [apply spoken_text_has_no_hash|]. split; [constructor|].
    split; [by intros w1' [= <-]|]. intros e w1' [=].
  - destruct (send_telegram_reports cfg (lit "TTS failed: " ++ exn_str e) w1)
      as (w2 & t2 & Hs & Hrep).
    step Hs. unfold bind, emit, ret. do 3 eexists. split; [reflexivity|].
    split; [apply spoken_text_has_no_hash|]. cbn [app]. split.
    { apply Forall_app. split; [exact Hrep|by repeat constructor]. }
    split; [intros w1' [=]|]. intros e' w1' [= <- <-]. split; [reflexivity|].
    change (t2 ++ [EPrint [lit "TTS error:"; exn_str e]] ++ [])
      with (t2 ++ [EPrint [lit "TTS error:"; exn_str e]]).
    apply last_snoc.
Qed.

End SpeechPaths.

(** ** More on running a computation *)

Lemma bind_inv_ok {W A C} (m : M W A) (k : A -> M W C) (w w' : W) (c : C)
    (t : list event) :
  bind m k w = (Ok c, w', t) ->
  exists a w1 t1 t2,
    m w = (Ok a, w1, t1) /\ k a w1 = (Ok c, w', t2) /\ t = t1 ++ t2.
Proof.
  unfold bind. destruct (m w) as [[[a|e] w1] t1]; [|discriminate].
  destruct (k a w1) as [[r w2] t2] eqn:Hk. intros [= -> -> <-].
  by exists a, w1, t1, t2.
Qed.

Lemma lift_inv_ok {W A} (r : result A) (w w' : W) (a : A) (t : list event) :
  lift r w = (Ok a, w', t) -> r = Ok a /\ w' = w /\ t = [].
Proof. unfold lift. by intros [= -> -> <-]. Qed.

(** ** More on strings *)

Lemma lstrip_head (s : pystr) (c : N) :
  head (lstrip s) = Some c -> isspace c = false.
Proof.
  induction s as [|a s IH]; simpl; [discriminate|].
  destruct (isspace a) eqn:Ha; [exact IH|]. simpl. by intros [= <-].
Qed.

Lemma lstrip_fixed (s : pystr) :
  (forall c, head s = Some c -> isspace c = false) -> lstrip s = s.
Proof.
  destruct s as [|a s]; [reflexivity|]. intros Hhead. simpl.
  by rewrite (Hhead a eq_refl).
Qed.

Lemma lstrip_suffix (s : pystr) : exists a, s = a ++ lstrip s.
Proof.
  induction s as [|c s [a IH]]; simpl; [by exists []|].
  destruct (isspace c).
  - exists (c :: a). simpl. by rewrite <- IH.
  - by exists [].
Qed.

Lemma rstrip_prefix (s : pystr) : exists a, s = rstrip s ++ a.
Proof.
  unfold rstrip. destruct (lstrip_suffix (rev s)) as [a Ha].
  exists (rev a). rewrite <- rev_app_distr, <- Ha. by rewrite rev_involutive.
Qed.

(** Stripping twice is stripping once. *)
Lemma strip_strip (s : pystr) : strip (strip s) = strip s.
Proof.
  unfold strip at 1. set (u := strip s).
  assert (Hhead : forall c, head u = Some c -> isspace c = false).
  { unfold u, strip. destruct (rstrip_prefix (lstrip s)) as [a Ha].
    intros c Hc. apply (lstrip_head s). rewrite Ha.
    destruct (rstrip (lstrip s)); [discriminate|exact Hc]. }
  rewrite (lstrip_fixed u Hhead). unfold rstrip.
  rewrite lstrip_fixed; [apply rev_involutive|].
  unfold u, strip, rstrip. rewrite rev_involutive. apply lstrip_head.
Qed.

Lemma contains_rev (c : N) (s : pystr) : contains c (rev s) = contains c s.
Proof.
  induction s as [|a s IH]; [reflexivity|]. simpl.
  rewrite contains_app, IH. simpl. rewrite orb_false_r. apply orb_comm.
Qed.

Lemma contains_lstrip (c : N) (s : pystr) :
  contains c s = false -> contains c (lstrip s) = false.
Proof.
  induction s as [|a s IH]; [done|]. simpl. intros Hs.
  apply orb_false_iff in Hs as [Ha Hs].
  destruct (isspace a); [by apply IH|]. simpl. by rewrite Ha, Hs.
Qed.

Lemma contains_strip (c : N) (s : pystr) :
  contains c s = false -> contains c (strip s) = false.
Proof.
  intros Hs. unfold strip, rstrip. rewrite contains_rev.
  apply contains_lstrip. rewrite contains_rev. by apply contains_lstrip.
Qed.

Lemma split_on_aux_free (sep : N) (cur s : pystr) :
  contains sep cur = false ->
  Forall (fun piece => contains sep piece = false) (split_on_aux sep cur s).
Proof.
  revert cur. induction s as [|c s IH]; intros cur Hcur; simpl.
  - by repeat constructor.
  - destruct (N.eqb_spec c sep) as [->|Hne].
    + constructor; [exact Hcur|]. by apply IH.
    + apply IH. rewrite contains_app, Hcur. simpl.
      rewrite orb_false_r. apply N.eqb_neq. congruence.
Qed.

(** The pieces between separators hold no separator. *)
Lemma split_on_free (sep : N) (s : pystr) :
  Forall (fun piece => contains sep piece = false) (split_on sep s).
Proof. by apply split_on_aux_free. Qed.

(** ** The resolver: what it returns and where it stops *)

Section ResolverPaths.
Context {I : Interp} {W : Type} {B : Backend W}.

(** Every item of a parsed subtopic list is a stripped, non-empty piece
    between two commas. *)
Lemma parsed_subtopic_clean (cell : option pystr) (subs : list pystr) (s : pystr) :
  parse_subtopics cell = Ok subs -> s ∈ subs ->
  s <> [] /\ strip s = s /\ contains comma s = false.
Proof.
  unfold parse_subtopics. destruct cell as [text|]; [|discriminate].
  intros [= <-] Hin. apply list_elem_of_In, in_map_iff in Hin as (x & <- & Hx).
  apply filter_In in Hx as [Hx Htrue].
  split; [by destruct (strip x)|]. split; [apply strip_strip|].
  apply contains_strip.
  pose proof (split_on_free comma text) as Hfree.
  rewrite Forall_forall in Hfree. apply Hfree. by apply list_elem_of_In.
Qed.

Lemma choice_inv {A} (d : nat) (l : list A) (x : A) :
  choice d l = Ok x -> x ∈ l.
Proof.
  unfold choice. destruct (l !! (d mod length l)%nat) as [y|] eqn:Hy; [|discriminate].
  intros [= <-]. by eapply list_elem_of_lookup_2.
Qed.

Lemma theme_and_topic_of_inv (r : row) (w w' : W) (theme : option pystr)
    (s : pystr) (t : list event) :
  theme_and_topic_of r w = (Ok (theme, s), w', t) ->
  exists cell subs, parse_subtopics cell = Ok subs /\ s ∈ subs.
Proof.
  unfold theme_and_topic_of. intros Hrun.
  apply bind_inv_ok in Hrun as (th & w1 & t1 & t1' & _ & Hrun & _).
  apply bind_inv_ok in Hrun as (cell & w2 & t2 & t2' & _ & Hrun & _).
  apply bind_inv_ok in Hrun as (subs & w3 & t3 & t3' & Hsubs & Hrun & _).
  apply bind_inv_ok in Hrun as (d & w4 & t4 & t4' & _ & Hrun & _).
  apply bind_inv_ok in Hrun as (s' & w5 & t5 & t5' & Hs & Hret & _).
  apply lift_inv_ok in Hsubs as (Hsubs & _ & _).
  apply lift_inv_ok in Hs as (Hs & _ & _).
  unfold ret in Hret. injection Hret as _ <- _ _.
  exists cell, subs. split; [exact Hsubs|by eapply choice_inv].
Qed.

Lemma scan_rows_inv (today_day : Z) (rows : list row) (w w' : W)
    (res : option pystr * pystr) (t : list event) :
  scan_rows today_day rows w = (Ok (Some res), w', t) ->
  exists r w0 t0, theme_and_topic_of r w0 = (Ok res, w', t0).
Proof.
  revert w t. induction rows as [|r rows IH]; intros w t; [discriminate|].
  cbn [scan_rows]. intros Hrun.
  apply bind_inv_ok in Hrun as (cell & w1 & t1 & t1' & _ & Hrun & _).
  apply bind_inv_ok in Hrun as (day & w2 & t2 & t2' & _ & Hrun & _).
  destruct (day =? today_day); [|by eapply IH].
  apply bind_inv_ok in Hrun as (res' & w3 & t3 & t3' & Hrow & Hret & _).
  unfold ret in Hret. injection Hret as <- <- _. eauto.
Qed.

(** X5: whatever the table, a subtopic the resolver returns is not empty,
    has no whitespace at either end and holds no comma. *)
Theorem picked_subtopic_is_clean (w w' : W) (theme : option pystr)
    (s : pystr) (t : list event) :
  pick_today_theme_and_topic w = (Ok (theme, s), w', t) ->
  s <> [] /\ strip s = s /\ contains comma s = false.
Proof.
  unfold pick_today_theme_and_topic. intros Hrun.
  apply bind_inv_ok in Hrun as (rows & w1 & t1 & t1' & _ & Hrun & _).
  apply bind_inv_ok in Hrun as (days & w2 & t2 & t2' & _ & Hrun & _).
  cbv zeta in Hrun.
  apply bind_inv_ok in Hrun as (found & w3 & t3 & t3' & Hscan & Hrun & _).
  assert (Hrow : exists r w0 t0,
            theme_and_topic_of r w0 = (Ok (theme, s), w', t0)).
  { destruct found as [res|].
    - unfold ret in Hrun. injection Hrun as -> <- _.
      by eapply scan_rows_inv.
    - destruct rows as [|first rest]; [discriminate|]. eauto. }
  destruct Hrow as (r & w0 & t0 & Hrow).
  apply theme_and_topic_of_inv in Hrow as (cell & subs & Hsubs & Hin).
  by eapply parsed_subtopic_clean.
Qed.

Lemma scan_rows_stops_at_bad_day (today_day : Z) (before after : list row)
    (bad : row) (e : exn) (w : W) :
  Forall (fun x => exists d, row_day x = Ok d /\ d <> today_day) before ->
  row_day bad = Raise e ->
  scan_rows today_day (before ++ bad :: after) w = (Raise e, w, []).
Proof.
  intros Hbefore Hbad.
  induction Hbefore as [|x before (d & Hd & Hne) _ IH]; cbn [app].
  - unfold row_day in Hbad. cbn [scan_rows]. unfold bind at 1, lift at 1.
    destruct (row_get bad (lit "Day")) as [cell|e']; [|by injection Hbad as ->].
    unfold bind at 1, lift at 1. by rewrite Hbad.
  - by rewrite (scan_rows_skip today_day x _ d w Hd Hne).
Qed.

(** X6: the scan reads the day of every row it passes: a row whose day is
    no integer (or is missing) makes the resolver raise that error when the
    scan reaches it, whatever rows follow, one for today included. *)
Theorem unreadable_day_aborts_resolution (before after : list row) (bad : row)
    (e : exn) (days : nat) (w w1 w2 : W) :
  read_schedule CSV_FILE w = (Ok (before ++ bad :: after), w1) ->
  utcnow_days w1 = (days, w2) ->
  Forall (fun x => exists d, row_day x = Ok d /\ d <> Z.of_nat (days mod 7) + 1)
    before ->
  row_day bad = Raise e ->
  pick_today_theme_and_topic w = (Raise e, w2, []).
Proof.
  intros Hread Hdays Hbefore Hbad.
  rewrite (pick_run _ days w w1 w2 Hread Hdays).
  apply bind_raise. by apply scan_rows_stops_at_bad_day.
Qed.

Lemma theme_and_topic_of_blank (r : row) (theme : option pystr) (w : W) :
  row_get r (lit "Theme") = Ok theme -> row_subtopics r = Ok [] ->
  result_of (theme_and_topic_of r w)
  = Raise (fault_exn IndexError EmptyChoice).
Proof.
  intros Htheme Hsubs. unfold row_subtopics in Hsubs.
  unfold theme_and_topic_of, bind, lift, ask, ret, result_of. rewrite Htheme.
  destruct (row_get r (lit "SubTopics")) as [cell|e]; [|done].
  rewrite Hsubs. by destruct (random_draw w).
Qed.

(** X7: when the row the resolver settles on, the first one for today or,
    without any, the first of the table, lists no subtopic but blanks, the
    resolver raises the [IndexError] of [random.choice]. *)
Theorem blank_subtopics_abort_resolution (rows : list row) (days : nat)
    (w w1 w2 : W) :
  read_schedule CSV_FILE w = (Ok rows, w1) ->
  utcnow_days w1 = (days, w2) ->
  let today_day := Z.of_nat (days mod 7) + 1 in
  (forall before r after theme,
     rows = before ++ r :: after ->
     Forall (fun x => exists d, row_day x = Ok d /\ d <> today_day) before ->
     row_day r = Ok today_day ->
     row_get r (lit "Theme") = Ok theme -> row_subtopics r = Ok [] ->
     result_of (pick_today_theme_and_topic w)
     = Raise (fault_exn IndexError EmptyChoice)) /\
  (forall first rest theme,
     rows = first :: rest ->
     Forall (fun x => exists d, row_day x = Ok d /\ d <> today_day) rows ->
     row_get first (lit "Theme") = Ok theme -> row_subtopics first = Ok [] ->
     result_of (pick_today_theme_and_topic w)
     = Raise (fault_exn IndexError EmptyChoice)).
Proof.
  intros Hread Hdays today_day.
  rewrite (pick_run rows days w w1 w2 Hread Hdays). fold today_day. split.
  - intros before r after theme -> Hbefore Hday Htheme Hsubs.
    pose proof (theme_and_topic_of_blank r theme w2 Htheme Hsubs) as Hblank.
    unfold bind at 1.
    assert (Hscan : exists w3,
              scan_rows today_day (before ++ r :: after) w2
              = (Raise (fault_exn IndexError EmptyChoice), w3, [])).
    { clear Hread. induction Hbefore as [|x before (d & Hd & Hne) _ IH]; cbn [app].
      - unfold row_day in Hday. cbn [scan_rows]. unfold bind at 1, lift at 1.
        destruct (row_get r (lit "Day")) as [cell|e']; [|discriminate].
        unfold bind at 1, lift at 1. rewrite Hday, Z.eqb_refl.
        pose proof (theme_and_topic_of_silent r w2) as Hsilent.
        unfold bind, result_of, trace_of in *.
        destruct (theme_and_topic_of r w2) as [[[res|e] w3] t3];
          cbn [fst snd] in *; [discriminate|].
        injection Hblank as ->. subst t3. by exists w3.
      - by rewrite (scan_rows_skip today_day x _ d w2 Hd Hne). }
    destruct Hscan as [w3 ->]. reflexivity.
  - intros first rest theme -> Hnone Htheme Hsubs.
    unfold bind at 1. rewrite (scan_rows_no_match today_day _ w2 Hnone).
    pose proof (theme_and_topic_of_blank first theme w2 Htheme Hsubs) as Hblank.
    unfold result_of in *.
    by destruct (theme_and_topic_of first w2) as [[r w3] t3].
Qed.

End ResolverPaths.

Lemma picked_subtopic_is_clean_witness :
  lit "give up" <> [] /\ strip (lit "give up") = lit "give up" /\
  contains comma (lit "give up") = false.
Proof.
  apply (picked_subtopic_is_clean (I:=plain_interp) (B:=scripted wednesday)
           0%nat 0%nat (Some (lit "Phrasal Verbs")) (lit "give up") []).
  vm_compute. reflexivity.
Defined.

(** The row for Wednesday is never reached behind a row whose day reads
    [Wed]. *)
Lemma unreadable_day_aborts_resolution_witness :
  pick_today_theme_and_topic (I:=plain_interp) (B:=scripted unreadable_day) 0%nat
  = (Raise (Exn ValueError (lit "<fault>")), 0%nat, []).
Proof.
  apply (unreadable_day_aborts_resolution (I:=plain_interp)
           (B:=scripted unreadable_day) []
           [schedule_row "3" "Phrasal Verbs" "give up"]
           (schedule_row "Wed" "Idioms" "a piece of cake")
           (Exn ValueError (lit "<fault>")) 2 0%nat 0%nat 0%nat
           eq_refl eq_refl).
  - constructor.
  - vm_compute. reflexivity.
Defined.

Lemma blank_subtopics_abort_resolution_witness :
  result_of (pick_today_theme_and_topic (I:=plain_interp)
               (B:=scripted blank_topics) 0%nat)
  = Raise (Exn IndexError (lit "<fault>")).
Proof.
  apply (proj1 (blank_subtopics_abort_resolution (I:=plain_interp)
                  (B:=scripted blank_topics)
                  [schedule_row "3" "Phrasal Verbs" " , "] 2
                  0%nat 0%nat 0%nat eq_refl eq_refl)
           [] (schedule_row "3" "Phrasal Verbs" " , ") []
           (Some (lit "Phrasal Verbs")) eq_refl).
  - constructor.
  - vm_compute. reflexivity.
  - vm_compute. reflexivity.
  - vm_compute. reflexivity.
Defined.

(** ** The chunker, rejoined and counted *)

Lemma range_up_length (len n : Z) (fuel : nat) (i : Z) :
  1 <= n -> 0 <= i -> len - i <= Z.of_nat fuel ->
  Z.of_nat (length (range_up fuel i len n))
  = if i <? len then (len - i - 1) / n + 1 else 0.
Proof.
  intros Hn. revert i. induction fuel as [|fuel IH]; intros i Hi Hfuel; simpl.
  - destruct (Z.ltb_spec i len); [lia|reflexivity].
  - destruct (Z.ltb_spec i len) as [Hlt|Hge]; [|reflexivity].
    cbn [length]. rewrite Nat2Z.inj_succ, IH by lia.
    destruct (Z.ltb_spec (i + n) len) as [Hmore|Hlast].
    + replace (len - i - 1) with ((len - (i + n) - 1) + 1 * n) by lia.
      rewrite Z.div_add by lia. lia.
    + rewrite Z.div_small by lia. lia.
Qed.

Lemma join_app (sep : pystr) (l1 l2 : list pystr) :
  l1 <> [] -> l2 <> [] ->
  join sep (l1 ++ l2) = join sep l1 ++ sep ++ join sep l2.
Proof.
  intros H1 H2. induction l1 as [|x l1 IH]; [done|].
  destruct l1 as [|x' l1].
  - destruct l2 as [|y l2]; [done|]. reflexivity.
  - change (join sep ((x :: x' :: l1) ++ l2))
      with (x ++ sep ++ join sep ((x' :: l1) ++ l2)).
    rewrite IH by done.
    change (join sep (x :: x' :: l1)) with (x ++ sep ++ join sep (x' :: l1)).
    by rewrite <- !app_assoc.
Qed.

(** Joining the joined groups is joining all their items, as long as no
    group is empty. *)
Lemma join_concat (sep : pystr) (groups : list (list pystr)) :
  Forall (fun g => g <> []) groups ->
  join sep (List.map (join sep) groups) = join sep (concat groups).
Proof.
  induction 1 as [|g groups Hg Hgroups IH]; [reflexivity|].
  destruct groups as [|g' groups].
  - simpl. by rewrite app_nil_r.
  - change (join sep (List.map (join sep) (g :: g' :: groups)))
      with (join sep g ++ sep ++ join sep (List.map (join sep) (g' :: groups))).
    rewrite IH. cbn [concat]. rewrite (join_app sep g); [reflexivity|exact Hg|].
    inversion Hgroups as [|? ? Hg' _]; subst. by destruct g'.
Qed.

(** For a size of at least one the chunks are the joined windows of the
    words: the windows lie end to end, none is empty, none exceeds the
    size, and their number is the number of words over the size, rounded
    up. *)
Lemma chunk_windows {I : Interp} (text : pystr) (n : Z) :
  1 <= n ->
  exists windows,
    split_script_into_chunks text n = Ok (List.map (join space) windows) /\
    concat windows = split_ws text /\
    Forall (fun win => (1 <= length win)%nat /\ Z.of_nat (length win) <= n
                       /\ Forall is_word win) windows /\
    Z.of_nat (length windows) = (Z.of_nat (length (split_ws text)) + n - 1) / n.
Proof.
  intros Hn. unfold split_script_into_chunks, py_range0.
  destruct (Z.eqb_spec n 0); [lia|]. destruct (Z.ltb_spec n 0); [lia|].
  set (words := split_ws text).
  set (len := Z.of_nat (length words)).
  set (starts := range_up (Z.to_nat len) 0 len n).
  exists (List.map (fun i => py_slice words i (i + n)) starts).
  split; [by rewrite List.map_map|].
  split; [unfold starts, len; by rewrite windows_concat by lia|].
  split.
  - apply Forall_forall. intros win Hin.
    apply list_elem_of_In, in_map_iff in Hin as (j & <- & Hj).
    apply list_elem_of_In, list_elem_of_lookup in Hj as [k Hk].
    destruct (windows_sizes len n (Z.to_nat len) 0 Hn ltac:(lia) k j Hk)
      as [Hj0 _].
    split; [|split].
    + rewrite py_slice_window by (fold len; lia).
      rewrite length_take, length_drop. unfold len in *. lia.
    + rewrite py_slice_window by (fold len; lia).
      rewrite length_take, length_drop. unfold len in *. lia.
    + apply py_slice_Forall, split_ws_words.
  - rewrite length_map. unfold starts.
    rewrite range_up_length by lia.
    destruct (Z.ltb_spec 0 len) as [Hpos|Hzero].
    + replace (len + n - 1) with ((len - 0 - 1) + 1 * n) by lia.
      rewrite Z.div_add by lia. reflexivity.
    + assert (len = 0) as -> by (unfold len in *; lia).
      rewrite Z.div_small by lia. reflexivity.
Qed.

(** X8: for a chunk size of at least one, the chunks joined by single
    spaces are the words of the text joined by single spaces, and there
    are as many chunks as the number of words divided by the size, rounded
    up. *)
Theorem chunks_rejoin_to_the_words {I : Interp} (text : pystr) (n : Z) :
  1 <= n ->
  exists chunks,
    split_script_into_chunks text n = Ok chunks /\
    join space chunks = join space (split_ws text) /\
    Z.of_nat (length chunks) = (Z.of_nat (length (split_ws text)) + n - 1) / n.
Proof.
  intros Hn.
  destruct (chunk_windows text n Hn) as (windows & Hrun & Hcat & Hsizes & Hcount).
  exists (List.map (join space) windows). split; [exact Hrun|].
  split; [|by rewrite length_map].
  rewrite join_concat, Hcat; [reflexivity|].
  eapply Forall_impl; [exact Hsizes|].
  intros win (Hlen & _ & _) ->. simpl in Hlen. lia.
Qed.

Lemma chunks_rejoin_to_the_words_witness :
  exists chunks,
    split_script_into_chunks (I:=plain_interp) (lit " one  two three ") 2
    = Ok chunks /\
    join space chunks = join space (split_ws (lit " one  two three ")) /\
    Z.of_nat (length chunks)
    = (Z.of_nat (length (split_ws (lit " one  two three "))) + 2 - 1) / 2.
Proof.
  apply (chunks_rejoin_to_the_words (I:=plain_interp) (lit " one  two three ") 2).
  lia.
Defined.

(** ** The reel: what is rendered, and when nothing is *)

Lemma split_ws_aux_nil (cur s : pystr) :
  split_ws_aux cur s = [] -> cur = [] /\ Forall (fun c => isspace c = true) s.
Proof.
  revert cur. induction s as [|c s IH]; intros cur; simpl.
  - destruct cur; [by split|discriminate].
  - destruct (isspace c) eqn:Hc.
    + destruct cur; [|discriminate]. intros Hs.
      destruct (IH [] Hs) as [_ Hall]. by split; [|constructor].
    + intros Hs. destruct (IH _ Hs) as [Hcur _]. by destruct cur.
Qed.

Lemma splitlines_aux_Forall (P : N -> Prop) (cur s : pystr) :
  Forall P cur -> Forall P s -> Forall (Forall P) (splitlines_aux cur s).
Proof.
  revert cur. induction s as [|c s IH]; intros cur Hcur Hs; simpl.
  - destruct cur; [constructor|]. constructor; [exact Hcur|constructor].
  - inversion Hs as [|? ? Hc Hs']; subst.
    destruct (c =? 13)%N.
    + destruct s as [|c' s'].
      * constructor; [exact Hcur|constructor].
      * destruct (c' =? 10)%N eqn:Hc'.
        -- constructor; [exact Hcur|].
           specialize (IH [] ltac:(constructor) Hs').
           simpl in IH. apply N.eqb_eq in Hc'. subst c'. simpl in IH.
           by inversion IH.
        -- constructor; [exact Hcur|]. by apply IH.
    + destruct (is_linebreak c).
      * constructor; [exact Hcur|]. by apply IH.
      * apply IH; [|exact Hs']. apply Forall_app. by split; [|constructor].
Qed.

Lemma join_Forall (P : N -> Prop) (sep : pystr) (l : list pystr) :
  Forall P sep -> Forall (Forall P) l -> Forall P (join sep l).
Proof.
  intros Hsep. induction 1 as [|x l Hx Hl IH]; [constructor|].
  destruct l as [|y l]; [exact Hx|].
  change (join sep (x :: y :: l)) with (x ++ sep ++ join sep (y :: l)).
  apply Forall_app. split; [exact Hx|]. apply Forall_app. by split.
Qed.

Lemma lstrip_blank (s : pystr) :
  Forall (fun c => isspace c = true) s -> lstrip s = [].
Proof. induction 1 as [|c s Hc Hs IH]; simpl; [reflexivity|by rewrite Hc]. Qed.

Lemma filter_Forall_kept {A} (P : A -> Prop) (p : A -> bool) (l : list A) :
  Forall P l -> Forall P (List.filter p l).
Proof.
  induction 1 as [|x l Hx Hl IH]; simpl; [constructor|].
  destruct (p x); [by constructor|exact IH].
Qed.

(** A script without a word is put on screen as it is. *)
Lemma wordless_screen_text (script : pystr) :
  split_ws script = [] -> screen_text script = script.
Proof.
  intros Hnone. apply split_ws_aux_nil in Hnone as [_ Hblank].
  unfold screen_text, strip, without_hashtag_lines.
  rewrite lstrip_blank; [reflexivity|].
  apply join_Forall; [by repeat constructor|].
  apply filter_Forall_kept, splitlines_aux_Forall; [constructor|exact Hblank].
Qed.

Section ReelPaths.
Context {I : Interp} {W : Type} {B : Backend W}.
Variable cfg : config.

(** X9: a script without a single word, the empty one included, gives no
    reel: nothing is rendered, the notifier is told that there are no
    chunks, the same is printed, and [None] is returned. *)
Theorem wordless_script_gives_no_reel (script : pystr)
    (audio_file : option pystr) (output_file : pystr) (w : W) :
  split_ws script = [] ->
  exists w' t,
    send_telegram cfg (lit "Reel creation failed: No chunks for reel") w
    = (Ok tt, w', t) /\
    create_reel_video cfg script audio_file output_file w
    = (Ok None, w',
       t ++ [EPrint [lit "Reel creation error:"; lit "No chunks for reel"]]) /\
    Forall (fun e => is_report e = true)
      (t ++ [EPrint [lit "Reel creation error:"; lit "No chunks for reel"]]).
Proof.
  intros Hnone.
  destruct (send_telegram_reports cfg
              (lit "Reel creation failed: No chunks for reel") w)
    as (w' & t & Hs & Hrep).
  exists w', t. split; [exact Hs|]. split.
  - unfold create_reel_video. cbv zeta.
    rewrite (wordless_screen_text script Hnone).
    unfold split_script_into_chunks. rewrite Hnone. cbn [length py_range0].
    change (py_range0 (Z.of_nat 0) 10) with (Some (@nil Z)). cbn [List.map].
    unfold try_except. unfold bind at 1, lift, raise. cbv beta iota.
    change (lit "Reel creation failed: "
            ++ exn_str (Exn ValueError (lit "No chunks for reel")))
      with (lit "Reel creation failed: No chunks for reel").
    step Hs. unfold bind, emit, ret. reflexivity.
  - apply Forall_app. split; [exact Hrep|by repeat constructor].
Qed.

(** X10: whatever the script, [create_reel_video] returns, and a list
    of chunks it hands to the renderer is not empty and has one to ten
    words in each of its chunks. *)
Theorem rendered_chunks_are_bounded (script : pystr)
    (audio_file : option pystr) (output_file : pystr) (w : W) :
  exists r w' t,
    create_reel_video cfg script audio_file output_file w = (Ok r, w', t) /\
    forall chunks a o,
      ERenderReel chunks a o ∈ t ->
      chunks <> [] /\
      Forall (fun c => (1 <= length (split_ws c) <= 10)%nat) chunks.
Proof.
  unfold create_reel_video. cbv zeta.
  destruct (chunk_windows (screen_text script) 10 ltac:(lia))
    as (windows & Hrun & _ & Hsizes & _).
  rewrite Hrun. unfold try_except. unfold bind at 1, lift. cbv beta iota.
  assert (Hhandler : forall e w1,
            exists w2 t2,
              (send_telegram cfg (lit "Reel creation failed: " ++ exn_str e) ;;;
               emit (EPrint [lit "Reel creation error:"; exn_str e]) ;;;
               ret None) w1 = (Ok (@None pystr), w2, t2) /\
              Forall (fun e => is_report e = true) t2).
  { intros e w1.
    destruct (send_telegram_reports cfg
                (lit "Reel creation failed: " ++ exn_str e) w1)
      as (w2 & t2 & Hs & Hrep).
    step Hs. unfold bind, emit, ret. do 2 eexists. split; [reflexivity|].
    apply Forall_app. split; [exact Hrep|by repeat constructor]. }
  assert (Hnone : forall t2 chunks a o,
            Forall (fun e => is_report e = true) t2 ->
            ERenderReel chunks a o ∈ t2 -> False).
  { intros t2 chunks a o Hrep Hin. rewrite Forall_forall in Hrep.
    specialize (Hrep _ Hin). discriminate Hrep. }
  destruct windows as [|win windows]; cbn [List.map].
  - unfold raise.
    destruct (Hhandler (Exn ValueError (lit "No chunks for reel")) w)
      as (w2 & t2 & -> & Hrep).
    do 3 eexists. split; [reflexivity|].
    intros chunks a o Hin. destruct (Hnone _ _ _ _ Hrep Hin).
  - set (chunks := join space win :: List.map (join space) windows).
    assert (Hbound : Forall (fun c => (1 <= length (split_ws c) <= 10)%nat) chunks).
    { change chunks with (List.map (join space) (win :: windows)).
      apply Forall_forall. intros c Hin.
      apply list_elem_of_In, in_map_iff in Hin as (g & <- & Hg).
      rewrite Forall_forall in Hsizes.
      destruct (Hsizes g ltac:(by apply list_elem_of_In)) as (H1 & H10 & Hwords).
      rewrite split_ws_join by exact Hwords. lia. }
    assert (Hsent : forall rest given a o,
              Forall (fun e => is_report e = true) rest ->
              ERenderReel given a o
                ∈ ERenderReel chunks audio_file output_file :: rest ->
              given <> [] /\
              Forall (fun c => (1 <= length (split_ws c) <= 10)%nat) given).
    { intros rest given a o Hrep Hin.
      apply elem_of_cons in Hin as [Heq|Hin].
      - injection Heq as -> _ _. split; [done|exact Hbound].
      - destruct (Hnone _ _ _ _ Hrep Hin). }
    unfold bind at 1, call at 1.
    destruct (render_reel chunks audio_file output_file w) as [[[]|e] w1];
      cbv beta iota.
    + unfold ret. do 3 eexists. split; [reflexivity|].
      intros given a o. apply Hsent. constructor.
    + destruct (Hhandler e w1) as (w2 & t2 & -> & Hrep).
      do 3 eexists. split; [reflexivity|].
      intros given a o. apply Hsent. exact Hrep.
Qed.

End ReelPaths.

Lemma wordless_script_gives_no_reel_witness :
  result_of (create_reel_video (I:=plain_interp) (B:=scripted wednesday)
               sample_config (lit "  " ++ newline ++ lit " ")
               (Some (lit "reel1_audio.mp3")) (lit "reel1.mp4") 0%nat)
  = Ok None.
Proof.
  destruct (wordless_script_gives_no_reel (I:=plain_interp)
              (B:=scripted wednesday) sample_config
              (lit "  " ++ newline ++ lit " ")
              (Some (lit "reel1_audio.mp3")) (lit "reel1.mp4") 0%nat eq_refl)
    as (w' & t & _ & Hrun & _).
  by rewrite Hrun.
Defined.

(** ** The image card *)

(** The body loop, line by line: line [i] of the wrapped text is drawn at
    [y + 70 i] as long as [i] is at most [(980 - y) / 70], and not after. *)
Lemma draw_body_lookup (y : Z) (wrapped : list pystr) (i : nat) :
  y <= 980 ->
  draw_body y wrapped !! i
  = if Z.of_nat i <? (980 - y) / 70 + 1
    then (fun line => (y + 70 * Z.of_nat i, line)) <$> wrapped !! i
    else None.
Proof.
  revert y i. induction wrapped as [|line rest IH]; intros y i Hy.
  - simpl. by destruct (Z.of_nat i <? (980 - y) / 70 + 1).
  - assert (Hk : 0 <= (980 - y) / 70) by (apply Z.div_pos; lia).
    destruct i as [|i]; cbn [draw_body lookup list_lookup].
    + destruct (Z.ltb_spec (Z.of_nat 0) ((980 - y) / 70 + 1)); [|lia].
      simpl. do 2 f_equal. lia.
    + destruct (Z.ltb_spec 980 (y + 70)) as [Hout|Hin].
      * rewrite Z.div_small by lia.
        by destruct (Z.ltb_spec (Z.of_nat (S i)) (0 + 1)); [lia|].
      * rewrite IH by lia.
        replace (980 - y) with ((980 - (y + 70)) + 1 * 70) by lia.
        rewrite Z.div_add by lia.
        destruct (Z.ltb_spec (Z.of_nat i) ((980 - (y + 70)) / 70 + 1));
          destruct (Z.ltb_spec (Z.of_nat (S i)) ((980 - (y + 70)) / 70 + 1 + 1));
          try lia; [|reflexivity].
        destruct (rest !! i); [|reflexivity]. simpl. do 2 f_equal. lia.
Qed.

Lemma body_start_cases (title : option pystr) :
  (truthy_opt title = true /\ body_start title = 200 /\
   (980 - body_start title) / 70 + 1 = 12) \/
  (truthy_opt title = false /\ body_start title = 60 /\
   (980 - body_start title) / 70 + 1 = 14).
Proof.
  unfold body_start. destruct (truthy_opt title); [left|right]; by repeat split.
Qed.

Section ImageProperties.
Variable wrap : pystr -> list pystr.

(** X11: the body of an image card is cut without a sign: what is drawn
    under a title are the first 12 wrapped lines, without a title the
    first 14, in order, and no later line; every line of the text gives at
    least one wrapped line, an empty one if the wrapper gives none. *)
Theorem image_text_is_cut_silently (text : pystr) (title : option pystr) :
  List.map snd (draw_body (body_start title) (wrapped_lines wrap text))
  = take (if truthy_opt title then 12 else 14)%nat (wrapped_lines wrap text) /\
  (length (splitlines text) <= length (wrapped_lines wrap text))%nat.
Proof.
  split.
  - apply list_eq. intros i.
    change (List.map snd ?l) with (snd <$> l). rewrite list_lookup_fmap.
    rewrite draw_body_lookup
      by (destruct (body_start_cases title) as [(_ & -> & _)|(_ & -> & _)]; lia).
    destruct (body_start_cases title) as [(-> & _ & ->)|(-> & _ & ->)].
    + destruct (Z.ltb_spec (Z.of_nat i) 12).
      * rewrite lookup_take_lt by lia. by destruct (wrapped_lines wrap text !! i).
      * by rewrite lookup_take_ge by lia.
    + destruct (Z.ltb_spec (Z.of_nat i) 14).
      * rewrite lookup_take_lt by lia. by destruct (wrapped_lines wrap text !! i).
      * by rewrite lookup_take_ge by lia.
  - unfold wrapped_lines. induction (splitlines text) as [|line lines IH];
      [reflexivity|].
    cbn [List.map concat]. rewrite length_app. cbn [length].
    destruct (wrap line); cbn [length]; apply le_n_S.
    + exact IH.
    + etransitivity; [exact IH|apply Nat.le_add_l].
Qed.

(** X12: every string of an image card is drawn at a height between 60
    and 970, the title, if any, first and at 60, the body lines 70 apart
    from 200 under a title and from 60 without it; so at most 13 strings
    under a title and 14 without it are drawn. *)
Theorem image_strings_stay_on_the_card (text : pystr) (title : option pystr) :
  Forall (fun c => 60 <= snd (fst c) <= 970) (text_calls wrap text title) /\
  (length (text_calls wrap text title) <= if truthy_opt title then 13 else 14)%nat /\
  (forall i y line,
     draw_body (body_start title) (wrapped_lines wrap text) !! i = Some (y, line) ->
     y = body_start title + 70 * Z.of_nat i) /\
  (truthy_opt title = true ->
   head (text_calls wrap text title) = Some (font_title, 60, str_opt title)).
Proof.
  set (body := draw_body (body_start title) (wrapped_lines wrap text)).
  assert (Hstart : body_start title <= 980)
    by (destruct (body_start_cases title) as [(_ & -> & _)|(_ & -> & _)]; lia).
  assert (Hat : forall i y line, body !! i = Some (y, line) ->
            y = body_start title + 70 * Z.of_nat i /\
            Z.of_nat i < (980 - body_start title) / 70 + 1).
  { intros i y line. unfold body. rewrite draw_body_lookup by exact Hstart.
    destruct (Z.ltb_spec (Z.of_nat i) ((980 - body_start title) / 70 + 1));
      [|discriminate].
    destruct (wrapped_lines wrap text !! i); [|discriminate].
    simpl. by intros [= <- _]. }
  assert (Hlen : Z.of_nat (length body) <= (980 - body_start title) / 70 + 1).
  { destruct body as [|b body'] eqn:Hbody; [simpl|].
    - destruct (body_start_cases title) as [(_ & _ & ->)|(_ & _ & ->)]; lia.
    - destruct (lookup_lt_is_Some_2 (b :: body') (length body')
                  ltac:(simpl; lia)) as [[y line] Hlast].
      apply Hat in Hlast as [_ Hlast]. simpl. lia. }
  split; [|split; [|split]].
  - unfold text_calls. fold body. apply Forall_app. split.
    + destruct (truthy_opt title); [|constructor].
      constructor; [simpl; lia|constructor].
    + apply Forall_forall. intros c Hin.
      apply list_elem_of_In, in_map_iff in Hin as ([y line] & <- & Hin).
      apply list_elem_of_In, list_elem_of_lookup in Hin as [i Hi].
      apply Hat in Hi as [-> Hi]. cbn [fst snd].
      destruct (body_start_cases title) as [(_ & Hs & Hk)|(_ & Hs & Hk)];
        rewrite Hs in *; rewrite Hk in Hi; lia.
  - unfold text_calls. fold body. rewrite length_app, length_map.
    destruct (body_start_cases title) as [(-> & _ & Hk)|(-> & _ & Hk)];
      rewrite Hk in Hlen; simpl; lia.
  - intros i y line Hi. by apply Hat in Hi as [-> _].
  - intros Htitle. unfold text_calls. by rewrite Htitle.
Qed.

End ImageProperties.

(** Twenty lines on a card without title: the first fourteen are drawn,
    the last of them at 970. *)
Example twenty_lines_on_a_card :
  length (text_calls no_wrap (lines_of_x 20) None) = 14%nat /\
  last (text_calls no_wrap (lines_of_x 20) None)
  = Some (font_body, 970, lit "x").
Proof. vm_compute. split; reflexivity. Qed.

(** ** The two phases, on every path *)

Lemma has_identifier_in (o : result response) :
  has_identifier o = match identifier_in o with Some _ => true | None => false end.
Proof.
  unfold has_identifier, identifier_in. destruct o as [r|e]; [|reflexivity].
  destruct (resp_json r) as [[| | | | |f]|e]; reflexivity.
Qed.

Lemma filter_quiet (t : list event) : quiet t -> List.filter is_platform_call t = [].
Proof. intros Hq. by apply filter_nil_Forall. Qed.

Lemma calls_app (a b : list event) : calls (a ++ b) = (calls a + calls b)%nat.
Proof. unfold calls. by rewrite List.filter_app, length_app. Qed.

Lemma publishes_app (cfg : config) (a b : list event) :
  publishes cfg (a ++ b) = (publishes cfg a + publishes cfg b)%nat.
Proof. unfold publishes. by rewrite List.filter_app, length_app. Qed.

Lemma calls_quiet (t : list event) : quiet t -> calls t = 0%nat.
Proof. intros Hq. unfold calls. by rewrite filter_quiet. Qed.

Lemma publishes_quiet (cfg : config) (t : list event) :
  quiet t -> publishes cfg t = 0%nat.
Proof.
  intros Hq. unfold publishes.
  replace (List.filter (is_publish cfg) t) with (@nil event); [reflexivity|].
  symmetry. apply filter_nil_Forall.
  eapply Forall_impl; [exact Hq|]. intros e He. by destruct e.
Qed.

Lemma reports_are_quiet (t : list event) :
  Forall (fun e => is_report e = true) t -> quiet t.
Proof.
  intros Hrep. eapply Forall_impl; [exact Hrep|]. intros e He. by destruct e.
Qed.

Section PublisherPaths.
Context {I : Interp} {W : Type} {B : Backend W}.
Variable cfg : config.

Lemma identifier_of_found (what : pystr) (r : response) (id : json) (w : W) :
  identifier_in (Ok r) = Some id -> identifier_of what r w = (Ok id, w, []).
Proof.
  unfold identifier_in, identifier_of, bind, lift, raise.
  destruct (resp_json r) as [[| | | | |f]|e]; try discriminate.
  intros Hid. simpl. by rewrite Hid.
Qed.

(** What the handlers do, with the notifier's part named. *)
Lemma report_run (message : pystr) (line : list pystr) (w : W) :
  exists w' t,
    send_telegram cfg message w = (Ok tt, w', t) /\
    (send_telegram cfg message ;;; emit (EPrint line)) w
    = (Ok tt, w', t ++ [EPrint line]) /\
    Forall (fun e => is_report e = true) (t ++ [EPrint line]).
Proof.
  destruct (send_telegram_reports cfg message w) as (w' & t & Hs & Hrep).
  exists w', t. split; [exact Hs|]. split.
  - step Hs. reflexivity.
  - apply Forall_app. split; [exact Hrep|by repeat constructor].
Qed.

(** A job of two phases whose create call brought an identifier goes on
    to publish with that identifier, and succeeds or fails with the
    publish call. *)
Lemma two_phase_run (payload : list (pystr * json)) (what what2 : pystr)
    (r : response) (id : json) (o2 : result response) (w w1 w2 : W) :
  requests_post (create_url cfg) payload w = (Ok r, w1) ->
  identifier_in (Ok r) = Some id ->
  requests_post (publish_url cfg) (publish_payload cfg id) w1 = (o2, w2) ->
  (r0 <- post (create_url cfg) payload ;;
   creation_id <- identifier_of what r0 ;;
   publish cfg what2 creation_id) w
  = (match o2 with
     | Ok r2 => if resp_ok r2 then Ok tt
                else Raise (Exn RuntimeError (what2 ++ resp_text r2))
     | Raise e => Raise e
     end, w2,
     [ EPost (create_url cfg) payload (Ok r);
       EPost (publish_url cfg) (publish_payload cfg id) o2 ]).
Proof.
  intros Hcreate Hid Hpublish.
  unfold bind at 1, post at 1, call_with. rewrite Hcreate. cbv beta iota.
  unfold bind at 1. rewrite (identifier_of_found what r id w1 Hid).
  cbv beta iota. unfold publish, bind, post, call_with, raise, ret.
  rewrite Hpublish. destruct o2 as [r2|e]; [|reflexivity].
  by destruct (resp_ok r2).
Qed.

(** X13: when the create call returns an identifier and the publish call
    answers with success, the video path and the image path make exactly
    these two calls, the second carrying the identifier as it came, and
    report nothing. *)
Theorem published_post_makes_two_calls (media_url : json) (caption : pystr)
    (r r2 : response) (id : json) (w w1 w2 : W) :
  identifier_in (Ok r) = Some id ->
  requests_post (publish_url cfg) (publish_payload cfg id) w1 = (Ok r2, w2) ->
  resp_ok r2 = true ->
  (requests_post (create_url cfg) (video_payload cfg media_url caption) w
   = (Ok r, w1) ->
   post_video_to_instagram cfg media_url caption w
   = (Ok tt, w2,
      [ EPost (create_url cfg) (video_payload cfg media_url caption) (Ok r);
        EPost (publish_url cfg) (publish_payload cfg id) (Ok r2) ])) /\
  (requests_post (create_url cfg) (image_payload cfg media_url caption) w
   = (Ok r, w1) ->
   post_image_to_instagram cfg media_url caption w
   = (Ok tt, w2,
      [ EPost (create_url cfg) (image_payload cfg media_url caption) (Ok r);
        EPost (publish_url cfg) (publish_payload cfg id) (Ok r2) ])).
Proof.
  intros Hid Hpublish Hok. split; intros Hcreate.
  - unfold post_video_to_instagram, video_job, try_except.
    rewrite (two_phase_run _ _ _ r id (Ok r2) w w1 w2 Hcreate Hid Hpublish).
    by rewrite Hok.
  - unfold post_image_to_instagram, image_job, try_except.
    rewrite (two_phase_run _ _ _ r id (Ok r2) w w1 w2 Hcreate Hid Hpublish).
    by rewrite Hok.
Qed.

(** X14: when the publish call answers with a failure status, the post is
    given up after these two calls: the notifier is given the response
    text, the same is printed, and the function returns. *)
Theorem refused_publish_is_reported (media_url : json) (caption : pystr)
    (r r2 : response) (id : json) (w w1 w2 : W) :
  identifier_in (Ok r) = Some id ->
  requests_post (publish_url cfg) (publish_payload cfg id) w1 = (Ok r2, w2) ->
  resp_ok r2 = false ->
  (requests_post (create_url cfg) (video_payload cfg media_url caption) w
   = (Ok r, w1) ->
   exists w3 t,
     send_telegram cfg (lit "Posting Reel error: "
                        ++ lit "Publish video failed: " ++ resp_text r2) w2
     = (Ok tt, w3, t) /\
     post_video_to_instagram cfg media_url caption w
     = (Ok tt, w3,
        [ EPost (create_url cfg) (video_payload cfg media_url caption) (Ok r);
          EPost (publish_url cfg) (publish_payload cfg id) (Ok r2) ]
        ++ t ++ [EPrint [lit "Posting Reel error:";
                         lit "Publish video failed: " ++ resp_text r2]])) /\
  (requests_post (create_url cfg) (image_payload cfg media_url caption) w
   = (Ok r, w1) ->
   exists w3 t,
     send_telegram cfg (lit "Posting image error: "
                        ++ lit "Publish image failed: " ++ resp_text r2) w2
     = (Ok tt, w3, t) /\
     post_image_to_instagram cfg media_url caption w
     = (Ok tt, w3,
        [ EPost (create_url cfg) (image_payload cfg media_url caption) (Ok r);
          EPost (publish_url cfg) (publish_payload cfg id) (Ok r2) ]
        ++ t ++ [EPrint [lit "Posting image error:";
                         lit "Publish image failed: " ++ resp_text r2]])).
Proof.
  intros Hid Hpublish Hok. split; intros Hcreate.
  - destruct (report_run (lit "Posting Reel error: "
                          ++ lit "Publish video failed: " ++ resp_text r2)
                [lit "Posting Reel error:";
                 lit "Publish video failed: " ++ resp_text r2] w2)
      as (w3 & t & Hs & Hr & _).
    exists w3, t. split; [exact Hs|].
    unfold post_video_to_instagram, video_job, try_except.
    rewrite (two_phase_run _ _ _ r id (Ok r2) w w1 w2 Hcreate Hid Hpublish).
    rewrite Hok. cbv beta iota. cbn [exn_str].
    exact (f_equal (fun x : result unit * W * list event =>
                      let '(r0, w0, t2) := x in (r0, w0, _ ++ t2)) Hr).
  - destruct (report_run (lit "Posting image error: "
                          ++ lit "Publish image failed: " ++ resp_text r2)
                [lit "Posting image error:";
                 lit "Publish image failed: " ++ resp_text r2] w2)
      as (w3 & t & Hs & Hr & _).
    exists w3, t. split; [exact Hs|].
    unfold post_image_to_instagram, image_job, try_except.
    rewrite (two_phase_run _ _ _ r id (Ok r2) w w1 w2 Hcreate Hid Hpublish).
    rewrite Hok. cbv beta iota. cbn [exn_str].
    exact (f_equal (fun x : result unit * W * list event =>
                      let '(r0, w0, t2) := x in (r0, w0, _ ++ t2)) Hr).
Qed.

End PublisherPaths.

Lemma published_post_makes_two_calls_witness :
  post_video_to_instagram (I:=plain_interp) (B:=scripted wednesday)
    sample_config (JStr (lit "https://res.example/reel1.mp4")) (lit "script")
    0%nat
  = (Ok tt, 2%nat,
     [ EPost (create_url sample_config)
         (video_payload sample_config
            (JStr (lit "https://res.example/reel1.mp4")) (lit "script"))
         (created (lit "0"));
       EPost (publish_url sample_config)
         (publish_payload sample_config (JStr (lit "0")))
         (created (lit "1")) ]).
Proof.
  apply (proj1 (published_post_makes_two_calls (I:=plain_interp)
                  (B:=scripted wednesday) sample_config
                  (JStr (lit "https://res.example/reel1.mp4")) (lit "script")
                  (Response true [] (Ok (JObj [(lit "id", JStr (lit "0"))])))
                  (Response true [] (Ok (JObj [(lit "id", JStr (lit "1"))])))
                  (JStr (lit "0")) 0%nat 1%nat 2%nat
                  eq_refl eq_refl eq_refl)).
  reflexivity.
Defined.

Lemma refused_publish_is_reported_witness :
  result_of (post_image_to_instagram (I:=plain_interp)
               (B:=scripted (rejecting 1)) sample_config
               (JStr (lit "https://res.example/post.png")) (lit "caption")
               0%nat)
  = Ok tt.
Proof.
  destruct (proj2 (refused_publish_is_reported (I:=plain_interp)
                     (B:=scripted (rejecting 1)) sample_config
                     (JStr (lit "https://res.example/post.png"))
                     (lit "caption")
                     (Response true [] (Ok (JObj [(lit "id", JStr (lit "0"))])))
                     (Response false []
                        (Ok (JObj [(lit "error", JStr (lit "invalid"))])))
                     (JStr (lit "0")) 0%nat 1%nat 2%nat
                     eq_refl eq_refl eq_refl) eq_refl)
    as (w3 & t & _ & Hrun).
  by rewrite Hrun.
Defined.

(** ** The carousel, on every path *)

Section CarouselPaths.
Context {I : Interp} {W : Type} {B : Backend W}.
Variable cfg : config.

(** The loop makes one child call per URL, in the order of the URLs, and
    when it completes its result is the list of the identifiers that came
    back, in that order, after those it started with. *)
Lemma create_children_collects (image_urls child_ids ids : list json)
    (w w' : W) (t : list event) :
  create_children cfg image_urls child_ids w = (Ok ids, w', t) ->
  exists outcomes news,
    t = zip_with (child_call cfg) image_urls outcomes /\
    length outcomes = length image_urls /\
    List.map identifier_in outcomes = List.map Some news /\
    ids = child_ids ++ news.
Proof.
  revert child_ids w t. induction image_urls as [|url rest IH];
    intros child_ids w t Hrun.
  - injection Hrun as <- <- <-. exists [], []. by rewrite app_nil_r.
  - cbn [create_children] in Hrun.
    apply bind_inv_ok in Hrun as (r & w1 & t1 & t1' & Hpost & Hrun & ->).
    apply bind_inv_ok in Hrun as (id & w2 & t2 & t2' & Hid & Hrun & ->).
    unfold post, call_with in Hpost.
    destruct (requests_post _ _ w) as [o w0] eqn:Hcall.
    injection Hpost as -> -> <-.
    pose proof (identifier_of_spec (lit "Create carousel child failed: ") r w1)
      as Hspec.
    rewrite has_identifier_in in Hspec.
    destruct (identifier_in (Ok r)) as [id'|] eqn:Hin.
    2: { destruct Hspec as [e He]. rewrite He in Hid. discriminate. }
    rewrite (identifier_of_found _ r id' w1 Hin) in Hid.
    injection Hid as <- <- <-.
    destruct (IH _ _ _ Hrun) as (outcomes & news & -> & Hlen & Hids & ->).
    exists (Ok r :: outcomes), (id' :: news).
    split; [reflexivity|]. split; [simpl; by rewrite Hlen|].
    split; [cbn [List.map]; by rewrite Hin, Hids|]. by rewrite <- app_assoc.
Qed.

(** Whether it completes or not, the loop makes at most one call per URL,
    none of them to the publish endpoint. *)
Lemma create_children_count (image_urls child_ids : list json) (w w' : W)
    (r : result (list json)) (t : list event) :
  create_children cfg image_urls child_ids w = (r, w', t) ->
  (length t <= length image_urls)%nat /\ publishes cfg t = 0%nat.
Proof.
  intros Hrun. split.
  - revert child_ids w w' r t Hrun. induction image_urls as [|url rest IH];
      intros child_ids w w' r t Hrun.
    + by injection Hrun as <- <- <-.
    + cbn [create_children] in Hrun. unfold bind at 1, post, call_with in Hrun.
      destruct (requests_post _ _ w) as [[rp|e] w1]; cbv beta iota in Hrun.
      * pose proof (identifier_of_spec
                      (lit "Create carousel child failed: ") rp w1) as Hspec.
        destruct (has_identifier (Ok rp)); destruct Hspec as [x Hx].
        -- unfold bind at 1 in Hrun. rewrite Hx in Hrun. cbv beta iota in Hrun.
           destruct (create_children cfg rest (child_ids ++ [x]) w1)
             as [[r' w3] t3] eqn:Hrest.
           injection Hrun as <- <- <-. apply IH in Hrest. simpl. lia.
        -- rewrite (bind_raise _ _ _ _ _ _ Hx) in Hrun.
           injection Hrun as <- <- <-. simpl. lia.
      * injection Hrun as <- <- <-. simpl. lia.
  - destruct (create_children_shape cfg _ _ _ _ _ _ Hrun) as [Hshape _].
    unfold publishes.
    replace (List.filter (is_publish cfg) t) with (@nil event); [reflexivity|].
    symmetry. apply filter_nil_Forall.
    eapply Forall_impl; [exact Hshape|]. by intros e [_ ?].
Qed.

(** X15: when every child call, the parent call and the publish call
    succeed and the identifiers are strings, the carousel path makes one
    child call per image URL in the order of the URLs, then one parent
    call whose [children] are the identifiers that came back, in that
    order and joined by commas, then the publish call with the parent's
    identifier, and reports nothing. *)
Theorem carousel_lists_children_in_order (image_urls ids : list json)
    (names : list pystr) (caption : pystr) (r r2 : response) (parent_id : json)
    (w w1 w2 w3 : W) (t1 : list event) :
  create_children cfg image_urls [] w = (Ok ids, w1, t1) ->
  strings_of ids = Some names ->
  requests_post (create_url cfg)
    (parent_payload cfg caption (join (lit ",") names)) w1 = (Ok r, w2) ->
  identifier_in (Ok r) = Some parent_id ->
  requests_post (publish_url cfg) (publish_payload cfg parent_id) w2
  = (Ok r2, w3) ->
  resp_ok r2 = true ->
  post_carousel_to_instagram cfg image_urls caption w
  = (Ok tt, w3,
     t1 ++ [ EPost (create_url cfg)
               (parent_payload cfg caption (join (lit ",") names)) (Ok r);
             EPost (publish_url cfg) (publish_payload cfg parent_id) (Ok r2) ]) /\
  exists outcomes,
    t1 = zip_with (child_call cfg) image_urls outcomes /\
    length outcomes = length image_urls /\
    List.map identifier_in outcomes = List.map (fun n => Some (JStr n)) names.
Proof.
  intros Hloop Hnames Hparent Hid Hpublish Hok. split.
  - unfold post_carousel_to_instagram, carousel_job, try_except.
    step Hloop. unfold bind at 1, lift, py_join_json. rewrite Hnames.
    cbv beta iota.
    rewrite (two_phase_run cfg _ _ _ r parent_id (Ok r2) w1 w2 w3
               Hparent Hid Hpublish).
    rewrite Hok. reflexivity.
  - destruct (create_children_collects _ _ _ _ _ _ Hloop)
      as (outcomes & news & Ht & Hlen & Hids & Hnews).
    exists outcomes. split; [exact Ht|]. split; [exact Hlen|].
    rewrite Hids. cbn [app] in Hnews. subst news.
    clear -Hnames. revert names Hnames.
    induction ids as [|id ids IH]; intros names Hnames.
    + by injection Hnames as <-.
    + cbn [strings_of] in Hnames. destruct id; try discriminate.
      destruct (strings_of ids) as [l|]; [|discriminate].
      injection Hnames as <-. simpl. f_equal. by apply IH.
Qed.

(** X16: an identifier that is not a string stops the carousel after its
    child calls: joining the identifiers raises, the error is reported,
    and neither the parent call nor the publish call is made. *)
Theorem unjoinable_identifiers_stop_the_carousel (image_urls ids : list json)
    (caption : pystr) (w w1 : W) (t1 : list event) :
  create_children cfg image_urls [] w = (Ok ids, w1, t1) ->
  strings_of ids = None ->
  exists w2 t,
    send_telegram cfg (lit "Posting carousel error: "
                       ++ fault_text JoinNonString) w1 = (Ok tt, w2, t) /\
    post_carousel_to_instagram cfg image_urls caption w
    = (Ok tt, w2,
       t1 ++ t ++ [EPrint [lit "Posting carousel error:";
                           fault_text JoinNonString]]) /\
    calls (trace_of (post_carousel_to_instagram cfg image_urls caption w))
    = length image_urls /\
    publishes cfg (trace_of (post_carousel_to_instagram cfg image_urls caption w))
    = 0%nat.
Proof.
  intros Hloop Hnames.
  destruct (report_run cfg (lit "Posting carousel error: "
                            ++ fault_text JoinNonString)
              [lit "Posting carousel error:"; fault_text JoinNonString] w1)
    as (w2 & t & Hs & Hr & Hrep).
  exists w2, t. split; [exact Hs|].
  assert (Hrun : post_carousel_to_instagram cfg image_urls caption w
                 = (Ok tt, w2,
                    t1 ++ t ++ [EPrint [lit "Posting carousel error:";
                                        fault_text JoinNonString]])).
  { unfold post_carousel_to_instagram, carousel_job, try_except.
    step Hloop. unfold bind at 1, lift, py_join_json. rewrite Hnames.
    cbv beta iota. unfold fault_exn. cbn [exn_str].
    rewrite app_nil_r.
    exact (f_equal (fun x : result unit * W * list event =>
                      let '(r0, w0, t2) := x in (r0, w0, _ ++ t2)) Hr). }
  split; [exact Hrun|]. rewrite Hrun. unfold trace_of. cbn [snd].
  apply reports_are_quiet in Hrep.
  destruct (create_children_collects _ _ _ _ _ _ Hloop)
    as (outcomes & news & Ht & Hlen & _ & _).
  destruct (create_children_count _ _ _ _ _ _ Hloop) as [_ Hpub].
  split.
  - rewrite calls_app, (calls_quiet _ Hrep), Nat.add_0_r. subst t1.
    unfold calls. clear -Hlen. revert outcomes Hlen.
    induction image_urls as [|url rest IH]; intros [|o outcomes] Hlen;
      try discriminate; [reflexivity|].
    simpl. f_equal. apply IH. by injection Hlen.
  - by rewrite publishes_app, Hpub, (publishes_quiet _ _ Hrep).
Qed.

End CarouselPaths.

Lemma carousel_lists_children_in_order_witness :
  calls (trace_of (post_carousel_to_instagram (I:=plain_interp)
                     (B:=scripted wednesday) sample_config four_urls
                     (lit "caption") 0%nat)) = 6%nat /\
  dict_get (lit "children")
    (parent_payload sample_config (lit "caption")
       (join (lit ",") [lit "0"; lit "1"; lit "2"; lit "3"]))
  = Some (JStr (lit "0,1,2,3")).
Proof.
  destruct (carousel_lists_children_in_order (I:=plain_interp)
              (B:=scripted wednesday) sample_config four_urls
              [JStr (lit "0"); JStr (lit "1"); JStr (lit "2"); JStr (lit "3")]
              [lit "0"; lit "1"; lit "2"; lit "3"] (lit "caption")
              (Response true [] (Ok (JObj [(lit "id", JStr (lit "4"))])))
              (Response true [] (Ok (JObj [(lit "id", JStr (lit "5"))])))
              (JStr (lit "4")) 0%nat 4%nat 5%nat 6%nat
              (trace_of (create_children (I:=plain_interp)
                           (B:=scripted wednesday) sample_config four_urls []
                           0%nat)))
    as [Hrun _]; try (vm_compute; reflexivity).
  rewrite Hrun. split; vm_compute; reflexivity.
Defined.

Lemma unjoinable_identifiers_stop_the_carousel_witness :
  calls (trace_of (post_carousel_to_instagram (I:=plain_interp)
                     (B:=scripted numbering) sample_config four_urls
                     (lit "caption") 0%nat)) = 4%nat /\
  publishes sample_config
    (trace_of (post_carousel_to_instagram (I:=plain_interp)
                 (B:=scripted numbering) sample_config four_urls
                 (lit "caption") 0%nat)) = 0%nat.
Proof.
  destruct (unjoinable_identifiers_stop_the_carousel (I:=plain_interp)
              (B:=scripted numbering) sample_config four_urls
              [JNum 0; JNum 1; JNum 2; JNum 3] (lit "caption") 0%nat 4%nat
              (trace_of (create_children (I:=plain_interp)
                           (B:=scripted numbering) sample_config four_urls []
                           0%nat)))
    as (w2 & t & _ & _ & Hcalls & Hpub); try (vm_compute; reflexivity).
  split; [exact Hcalls|exact Hpub].
Defined.

(** ** The blocks of the orchestrator, on every path *)

Section BlockPaths.
Context {I : Interp} {W : Type} {B : Backend W}.
Variable cfg : config.

(** X17: when the storage answers without a usable [secure_url], the
    uploader reports it and returns [None]; the reel block and the static
    block for that file then end there, without a call to the platform
    and without a sleep. *)
Theorem upload_without_url_skips_the_post (path text : pystr)
    (res : list (pystr * json)) (w w1 : W) :
  truthy path = true ->
  cloudinary_upload path w = (Ok res, w1) ->
  truthy_url (dict_get (lit "secure_url") res) = false ->
  exists w2 t,
    upload_to_cloudinary cfg path w = (Ok None, w2, EUpload path :: t) /\
    Forall (fun e => is_report e = true) t /\
    reel_block cfg (Some path) text w = (Ok tt, w2, EUpload path :: t) /\
    static_block cfg (Some path) text w = (Ok tt, w2, EUpload path :: t).
Proof.
  intros Hpath Hcall Hurl.
  destruct (report_run cfg
              (lit "Cloudinary upload failed for " ++ path ++ lit ": "
               ++ lit "No secure_url in Cloudinary response: "
               ++ py_repr (JObj res))
              [lit "Cloudinary upload error:";
               lit "No secure_url in Cloudinary response: "
               ++ py_repr (JObj res)] w1)
    as (w2 & t & Hs & _ & Hrep).
  assert (Hup : upload_to_cloudinary cfg path w
                = (Ok None, w2,
                   EUpload path
                   :: t ++ [EPrint [lit "Cloudinary upload error:";
                                    lit "No secure_url in Cloudinary response: "
                                    ++ py_repr (JObj res)]])).
  { unfold upload_to_cloudinary, try_except. unfold bind at 1, call at 1.
    rewrite Hcall. cbv beta iota zeta.
    assert (Hbody : match dict_get (lit "secure_url") res with
                    | Some u =>
                        if truthy_json u then ret (Some u)
                        else raise (Exn RuntimeError
                                      (lit "No secure_url in Cloudinary response: "
                                       ++ py_repr (JObj res)))
                    | None =>
                        raise (Exn RuntimeError
                                 (lit "No secure_url in Cloudinary response: "
                                  ++ py_repr (JObj res)))
                    end w1
                    = (@Raise (option json)
                         (Exn RuntimeError
                            (lit "No secure_url in Cloudinary response: "
                             ++ py_repr (JObj res))), w1, [])).
    { destruct (dict_get (lit "secure_url") res) as [u|]; [|reflexivity].
      simpl in Hurl. by rewrite Hurl. }
    rewrite Hbody. cbv beta iota. cbn [exn_str app].
    step Hs. unfold bind, emit, ret. cbn [app]. reflexivity. }
  exists w2, (t ++ [EPrint [lit "Cloudinary upload error:";
                            lit "No secure_url in Cloudinary response: "
                            ++ py_repr (JObj res)]]).
  split; [exact Hup|]. split; [exact Hrep|].
  unfold reel_block, static_block. cbn [truthy_opt str_opt]. rewrite Hpath.
  split; step Hup; cbn [truthy_url]; unfold ret; by rewrite app_nil_r.
Qed.

(** X18: the carousel is attempted only with four rendered images and
    four URLs: with fewer than four files the block does nothing at all,
    and when the uploads of the first four give a number of URLs other
    than four, the block ends after them without a call to the platform. *)
Theorem carousel_needs_four_images (carousel_files : list pystr)
    (theme : option pystr) (sub_topic : pystr) (w : W) :
  ((length carousel_files < 4)%nat ->
   carousel_block cfg carousel_files theme sub_topic w = (Ok tt, w, [])) /\
  (forall urls w1 t1,
     (4 <= length carousel_files)%nat ->
     upload_slides cfg (py_slice carousel_files 0 4) [] w = (Ok urls, w1, t1) ->
     length urls <> 4%nat ->
     carousel_block cfg carousel_files theme sub_topic w = (Ok tt, w1, t1) /\
     quiet t1).
Proof.
  split.
  - intros Hfew. unfold carousel_block.
    by destruct (Nat.leb_spec 4 (length carousel_files)); [lia|].
  - intros urls w1 t1 Hfour Hup Hne. unfold carousel_block.
    destruct (Nat.leb_spec 4 (length carousel_files)); [|lia].
    step Hup. destruct (Nat.eqb_spec (length urls) 4); [done|].
    unfold ret. rewrite app_nil_r. split; [reflexivity|].
    destruct (upload_slides_returns cfg (py_slice carousel_files 0 4) [] w)
      as (r & w' & t & Hr & Hq).
    rewrite Hup in Hr. by injection Hr as <- <- <-.
Qed.

End BlockPaths.

Lemma upload_without_url_skips_the_post_witness :
  reel_block (I:=plain_interp) (B:=scripted no_url) sample_config
    (Some (lit "reel1.mp4")) (lit "script") 0%nat
  = (Ok tt, 0%nat,
     trace_of (upload_to_cloudinary (I:=plain_interp) (B:=scripted no_url)
                 sample_config (lit "reel1.mp4") 0%nat)).
Proof.
  destruct (upload_without_url_skips_the_post (I:=plain_interp)
              (B:=scripted no_url) sample_config (lit "reel1.mp4")
              (lit "script") [(lit "public_id", JStr (lit "abc"))]
              0%nat 0%nat eq_refl eq_refl eq_refl)
    as (w2 & t & Hup & _ & Hreel & _).
  rewrite Hup, Hreel. unfold trace_of. cbn [snd].
  vm_compute in Hup. by injection Hup as <- _.
Defined.

Lemma carousel_needs_four_images_witness :
  carousel_block (I:=plain_interp) (B:=scripted wednesday) sample_config
    [lit "carousel1.png"; lit "carousel2.png"; lit "carousel4.png"]
    (Some (lit "Phrasal Verbs")) (lit "give up") 0%nat
  = (Ok tt, 0%nat, []).
Proof.
  apply (proj1 (carousel_needs_four_images (I:=plain_interp)
                  (B:=scripted wednesday) sample_config
                  [lit "carousel1.png"; lit "carousel2.png"; lit "carousel4.png"]
                  (Some (lit "Phrasal Verbs")) (lit "give up") 0%nat)).
  simpl. lia.
Defined.

(** ** How much a run asks of the platform *)

Section CallBounds.
Context {I : Interp} {W : Type} {B : Backend W}.
Variable cfg : config.

Lemma publishes_le_calls_one (e : event) :
  (publishes cfg [e] <= 1)%nat.
Proof.
  unfold publishes. cbn [List.filter].
  destruct (is_publish cfg e); cbn [length]; lia.
Qed.

Lemma calls_nil : calls [] = 0%nat.
Proof. reflexivity. Qed.

Lemma publishes_nil : publishes cfg [] = 0%nat.
Proof. reflexivity. Qed.

Lemma calls_post (url : pystr) (data : list (pystr * json))
    (o : result response) (t : list event) :
  calls (EPost url data o :: t) = S (calls t).
Proof. reflexivity. Qed.

Lemma calls_sleep (s : Z) : calls [ESleep s] = 0%nat.
Proof. reflexivity. Qed.

Lemma publishes_sleep (s : Z) : publishes cfg [ESleep s] = 0%nat.
Proof. reflexivity. Qed.

(** A job of two phases makes at most two calls, at most one of them to
    the publish endpoint. *)
Lemma two_phase_bound (payload : list (pystr * json)) (what what2 : pystr)
    (w : W) :
  exists r w' t,
    (r0 <- post (create_url cfg) payload ;;
     creation_id <- identifier_of what r0 ;;
     publish cfg what2 creation_id) w = (r, w', t) /\
    (calls t <= 2)%nat /\ (publishes cfg t <= 1)%nat.
Proof.
  assert (Hcreate : forall o,
            publishes cfg [EPost (create_url cfg) payload o] = 0%nat).
  { intros o. unfold publishes. cbn [List.filter is_publish].
    by rewrite create_is_not_publish. }
  unfold bind at 1, post at 1, call_with.
  destruct (requests_post _ _ w) as [[r|e] w1]; cbv beta iota.
  - pose proof (identifier_of_spec what r w1) as Hspec.
    destruct (has_identifier (Ok r)); destruct Hspec as [x Hx].
    + unfold bind at 1. rewrite Hx. cbv beta iota.
      destruct (publish_shape cfg what2 x w1) as (r2 & w2 & o2 & ->).
      do 3 eexists. split; [reflexivity|].
      change ([EPost (create_url cfg) payload (Ok r)] ++ [] ++
              [EPost (publish_url cfg) (publish_payload cfg x) o2])
        with ([EPost (create_url cfg) payload (Ok r)] ++
              [EPost (publish_url cfg) (publish_payload cfg x) o2]).
      split.
      * cbn [app]. rewrite !calls_post, calls_nil. lia.
      * rewrite publishes_app, Hcreate. apply publishes_le_calls_one.
    + rewrite (bind_raise _ _ _ _ _ _ Hx). do 3 eexists.
      split; [reflexivity|]. split.
      * cbn [app]. rewrite calls_post, calls_nil. lia.
      * cbn [app]. rewrite Hcreate. lia.
  - do 3 eexists. split; [reflexivity|]. split.
    + rewrite calls_post, calls_nil. lia.
    + rewrite Hcreate. lia.
Qed.

(** Under a handler that only reports, a body keeps its bounds. *)
Lemma guarded_bound (body : M W unit) (message : exn -> pystr)
    (line : exn -> list pystr) (n p : nat) (w : W) :
  (exists r w' t, body w = (r, w', t) /\
                  (calls t <= n)%nat /\ (publishes cfg t <= p)%nat) ->
  exists w' t,
    try_except body
      (fun e => send_telegram cfg (message e) ;;; emit (EPrint (line e))) w
    = (Ok tt, w', t) /\
    (calls t <= n)%nat /\ (publishes cfg t <= p)%nat.
Proof.
  intros (r & w1 & t1 & Hbody & Hcalls & Hpub). unfold try_except.
  rewrite Hbody. destruct r as [[]|e]; [by eauto|].
  destruct (report_returns cfg (message e) (line e) w1) as (w2 & t2 & -> & Hq).
  do 2 eexists. split; [reflexivity|].
  rewrite calls_app, publishes_app, (calls_quiet _ Hq), (publishes_quiet cfg _ Hq).
  lia.
Qed.

Lemma post_video_bound (video_url : json) (caption : pystr) (w : W) :
  exists w' t,
    post_video_to_instagram cfg video_url caption w = (Ok tt, w', t) /\
    (calls t <= 2)%nat /\ (publishes cfg t <= 1)%nat.
Proof.
  apply (guarded_bound _ (fun e => lit "Posting Reel error: " ++ exn_str e)
           (fun e => [lit "Posting Reel error:"; exn_str e])).
  apply two_phase_bound.
Qed.

Lemma post_image_bound (image_url : json) (caption : pystr) (w : W) :
  exists w' t,
    post_image_to_instagram cfg image_url caption w = (Ok tt, w', t) /\
    (calls t <= 2)%nat /\ (publishes cfg t <= 1)%nat.
Proof.
  apply (guarded_bound _ (fun e => lit "Posting image error: " ++ exn_str e)
           (fun e => [lit "Posting image error:"; exn_str e])).
  apply two_phase_bound.
Qed.

Lemma calls_le_length (t : list event) : (calls t <= length t)%nat.
Proof.
  unfold calls. induction t as [|e t IH]; cbn [List.filter length]; [lia|].
  destruct (is_platform_call e); cbn [length]; lia.
Qed.

Lemma post_carousel_bound (image_urls : list json) (caption : pystr) (w : W) :
  exists w' t,
    post_carousel_to_instagram cfg image_urls caption w = (Ok tt, w', t) /\
    (calls t <= length image_urls + 2)%nat /\ (publishes cfg t <= 1)%nat.
Proof.
  apply (guarded_bound _ (fun e => lit "Posting carousel error: " ++ exn_str e)
           (fun e => [lit "Posting carousel error:"; exn_str e])).
  unfold carousel_job. unfold bind at 1.
  destruct (create_children cfg image_urls [] w) as [[[ids|e] w1] t1] eqn:Hloop;
    destruct (create_children_count cfg _ _ _ _ _ _ Hloop) as [Hlen Hpub];
    pose proof (calls_le_length t1) as Hcalls.
  - unfold bind at 1, lift.
    destruct (py_join_json (lit ",") ids) as [children|e]; cbv beta iota.
    + destruct (two_phase_bound (parent_payload cfg caption children)
                  (lit "Create carousel parent failed: ")
                  (lit "Publish carousel failed: ") w1)
        as (r & w2 & t2 & -> & Hc2 & Hp2).
      do 3 eexists. split; [reflexivity|].
      rewrite !calls_app, !publishes_app, Hpub, calls_nil, publishes_nil. lia.
    + do 3 eexists. split; [reflexivity|].
      rewrite !calls_app, !publishes_app, Hpub, calls_nil, publishes_nil. lia.
  - do 3 eexists. split; [reflexivity|]. rewrite Hpub. lia.
Qed.

Lemma reel_block_bound (reel_file : option pystr) (script : pystr) (w : W) :
  exists w' t,
    reel_block cfg reel_file script w = (Ok tt, w', t) /\
    (calls t <= 2)%nat /\ (publishes cfg t <= 1)%nat.
Proof.
  unfold reel_block. destruct (truthy_opt reel_file).
  2: { do 2 eexists. split; [reflexivity|].
       rewrite calls_nil, publishes_nil. lia. }
  destruct (upload_returns cfg (str_opt reel_file) w)
    as (u & w1 & t1 & Hup & Hq & _). step Hup.
  destruct (truthy_url u).
  - destruct (post_video_bound (url_value u) script w1)
      as (w2 & t2 & Hpost & Hc & Hp). step Hpost.
    unfold cooldown, emit. do 2 eexists. split; [reflexivity|].
    rewrite !calls_app, !publishes_app, (calls_quiet _ Hq),
      (publishes_quiet cfg _ Hq), calls_sleep, publishes_sleep. lia.
  - unfold ret. do 2 eexists. split; [reflexivity|].
    rewrite !calls_app, !publishes_app, (calls_quiet _ Hq),
      (publishes_quiet cfg _ Hq), calls_nil, publishes_nil. lia.
Qed.

Lemma static_block_bound (post_file : option pystr) (caption : pystr) (w : W) :
  exists w' t,
    static_block cfg post_file caption w = (Ok tt, w', t) /\
    (calls t <= 2)%nat /\ (publishes cfg t <= 1)%nat.
Proof.
  unfold static_block. destruct (truthy_opt post_file).
  2: { do 2 eexists. split; [reflexivity|].
       rewrite calls_nil, publishes_nil. lia. }
  destruct (upload_returns cfg (str_opt post_file) w)
    as (u & w1 & t1 & Hup & Hq & _). step Hup.
  destruct (truthy_url u).
  - destruct (post_image_bound (url_value u) caption w1)
      as (w2 & t2 & Hpost & Hc & Hp). step Hpost.
    unfold cooldown, emit. do 2 eexists. split; [reflexivity|].
    rewrite !calls_app, !publishes_app, (calls_quiet _ Hq),
      (publishes_quiet cfg _ Hq), calls_sleep, publishes_sleep. lia.
  - unfold ret. do 2 eexists. split; [reflexivity|].
    rewrite !calls_app, !publishes_app, (calls_quiet _ Hq),
      (publishes_quiet cfg _ Hq), calls_nil, publishes_nil. lia.
Qed.

Lemma carousel_block_bound (carousel_files : list pystr)
    (theme : option pystr) (sub_topic : pystr) (w : W) :
  exists w' t,
    carousel_block cfg carousel_files theme sub_topic w = (Ok tt, w', t) /\
    (calls t <= 6)%nat /\ (publishes cfg t <= 1)%nat.
Proof.
  unfold carousel_block. destruct (4 <=? length carousel_files)%nat.
  2: { do 2 eexists. split; [reflexivity|].
       rewrite calls_nil, publishes_nil. lia. }
  destruct (upload_slides_returns cfg (py_slice carousel_files 0 4) [] w)
    as (urls & w1 & t1 & Hup & Hq). step Hup.
  destruct (Nat.eqb_spec (length urls) 4) as [Hfour|Hother].
  - destruct (post_carousel_bound urls (carousel_caption theme sub_topic) w1)
      as (w2 & t2 & -> & Hc & Hp).
    do 2 eexists. split; [reflexivity|].
    rewrite !calls_app, !publishes_app, (calls_quiet _ Hq),
      (publishes_quiet cfg _ Hq). lia.
  - unfold ret. do 2 eexists. split; [reflexivity|].
    rewrite !calls_app, !publishes_app, (calls_quiet _ Hq),
      (publishes_quiet cfg _ Hq), calls_nil, publishes_nil. lia.
Qed.

(** X19: a run makes at most twelve calls to the platform, at most four
    of them to the publish endpoint, whatever the collaborators answer. *)
Theorem run_makes_at_most_twelve_calls (w : W) :
  (calls (trace_of (main cfg w)) <= 12)%nat /\
  (publishes cfg (trace_of (main cfg w)) <= 4)%nat.
Proof.
  destruct (main_run cfg w) as (w0 & t0 & _ & Hq0 & Hcases).
  destruct Hcases
    as [(e & w1 & w2 & t1 & _ & -> & Hq1)
       |(theme & sub_topic & w1 & assets & w2 & w3 & w4 & t1 & t2 & t3
         & _ & Hblocks & -> & Hq1 & Hq3 & _ & _)];
    unfold trace_of; cbn [snd].
  - assert (Hq : quiet (t0 ++ t1 ++ [EPrint [lit "Schedule error:"; exn_str e]])).
    { apply quiet_app; [exact Hq0|]. apply quiet_app; [exact Hq1|].
      by repeat constructor. }
    rewrite (calls_quiet _ Hq), (publishes_quiet cfg _ Hq). lia.
  - destruct assets as [[[[[[s1 s2] s3] f1] f2] pf] cf].
    cbn [posts_of run_blocks] in Hblocks.
    destruct (reel_block_bound f1 s1 w2) as (w5 & b1 & Hb1 & Hc1 & Hp1).
    rewrite Hb1 in Hblocks.
    destruct (reel_block_bound f2 s2 w5) as (w6 & b2 & Hb2 & Hc2 & Hp2).
    rewrite Hb2 in Hblocks.
    destruct (static_block_bound pf s3 w6) as (w7 & b3 & Hb3 & Hc3 & Hp3).
    rewrite Hb3 in Hblocks.
    destruct (carousel_block_bound cf theme sub_topic w7)
      as (w8 & b4 & Hb4 & Hc4 & Hp4).
    rewrite Hb4 in Hblocks. injection Hblocks as <- <-.
    assert (Hqs : quiet [status_line]) by by repeat constructor.
    cbn [concat]. rewrite app_nil_r.
    rewrite !calls_app, !publishes_app,
      (calls_quiet _ Hq0), (publishes_quiet cfg _ Hq0),
      (calls_quiet _ Hq1), (publishes_quiet cfg _ Hq1),
      (calls_quiet _ Hq3), (publishes_quiet cfg _ Hq3),
      (calls_quiet _ Hqs), (publishes_quiet cfg _ Hqs).
    lia.
Qed.

(** X20: when the resolver raises, [main] reports the error, prints it
    and returns: apart from the notifications and that line the run does
    nothing, no text is generated, nothing is rendered, uploaded or
    posted. *)
Theorem failed_schedule_stops_the_run (w w0 w1 : W) (t0 : list event) (e : exn) :
  send_telegram cfg started_message w = (Ok tt, w0, t0) ->
  pick_today_theme_and_topic w0 = (Raise e, w1, []) ->
  exists w2 t,
    send_telegram cfg (lit "CSV / schedule error: " ++ exn_str e) w1
    = (Ok tt, w2, t) /\
    main cfg w
    = (Ok tt, w2, t0 ++ t ++ [EPrint [lit "Schedule error:"; exn_str e]]) /\
    Forall (fun ev => is_report ev = true) (trace_of (main cfg w)).
Proof.
  intros Hstart Hpick.
  destruct (send_telegram_reports cfg
              (lit "CSV / schedule error: " ++ exn_str e) w1)
    as (w2 & t & Hs & Hrep).
  exists w2, t. split; [exact Hs|].
  assert (Hrun : main cfg w
                 = (Ok tt, w2,
                    t0 ++ t ++ [EPrint [lit "Schedule error:"; exn_str e]])).
  { unfold main. step Hstart. unfold resolve_schedule, try_except.
    unfold bind at 1. step Hpick. step Hs. unfold bind, emit, ret.
    cbn [app]. by rewrite !app_nil_r. }
  split; [exact Hrun|]. rewrite Hrun. unfold trace_of. cbn [snd].
  destruct (send_telegram_reports cfg started_message w) as (w0' & t0' & Hs0 & Hrep0).
  rewrite Hstart in Hs0. injection Hs0 as <- <-.
  apply Forall_app. split; [exact Hrep0|].
  apply Forall_app. split; [exact Hrep|by repeat constructor].
Qed.

End CallBounds.

Lemma failed_schedule_stops_the_run_witness :
  Forall (fun ev => is_report ev = true)
    (trace_of (main (I:=plain_interp)
                 (B:=scripted (with_schedule
                                (Raise (Exn LibraryError (lit "no such file")))
                                wednesday))
                 sample_config 0%nat)).
Proof.
  destruct (failed_schedule_stops_the_run (I:=plain_interp)
              (B:=scripted (with_schedule
                             (Raise (Exn LibraryError (lit "no such file")))
                             wednesday))
              sample_config 0%nat 0%nat 0%nat
              (trace_of (send_telegram
                           (B:=scripted (with_schedule
                                          (Raise (Exn LibraryError
                                                    (lit "no such file")))
                                          wednesday))
                           sample_config started_message 0%nat))
              (Exn LibraryError (lit "no such file")))
    as (w2 & t & _ & _ & Hrep); [vm_compute; reflexivity ..|].
  exact Hrep.
Defined.
